(** * Digital Dean: retrieval, ingestion, extraction, quiz and grading flows

    A shallow embedding of the orchestration code of the repository
    ([app.py], [quizadded.py], [digital_dean_backend.py],
    [vision_grader.py]) and the properties its specification states.

    Conventions of the embedding:
    - Python [str] values are [string]s (ASCII text); an index returned by
      [find]/[rfind] is a [Z], with [-1] for "not found", as in Python.
    - Values produced by [json.loads] and rows returned by the store are
      [json] trees; the dynamic operations the code applies to them
      (truthiness, [x[key]], iteration) are partial functions raising the
      exception Python raises.
    - External collaborators (embedding model, vector store, generation
      models, PDF loader, image library, the console of [rich], the user
      at the prompt) are fields of an environment record [Env]; each may
      raise.
    - Ctrl-C is taken where the program waits for the keyboard: at
      [Prompt.ask] inside a quiz and at the prompt of the main loop.  An
      interrupt that arrives while a collaborator runs is not modelled.
    - A [float] is the rational it denotes; an operation on floats rounds
      the exact result to the nearest binary64 number, ties to even.
    - Effects (files on disk, the local image handle, the rows written to
      the store, the order of external actions) live in a [world] threaded
      by a state-and-exception monad [M]. *)

From Stdlib Require Import Ascii String ZArith QArith Lia Lqa Qround Qpower.
From Stdlib Require Import Floats.SpecFloat.
From stdpp Require Import gmap strings list.

Local Open Scope Z_scope.

(** ** Python string primitives *)

Module PyStr.

(** [s.find(c)] for a one-character needle. *)
Fixpoint find (c : ascii) (s : string) : Z :=
  match s with
  | EmptyString => -1
  | String a s' =>
      if Ascii.eqb a c then 0
      else let r := find c s' in if r <? 0 then -1 else r + 1
  end.

(** [s.rfind(c)] for a one-character needle. *)
Fixpoint rfind (c : ascii) (s : string) : Z :=
  match s with
  | EmptyString => -1
  | String a s' =>
      let r := rfind c s' in
      if 0 <=? r then r + 1
      else if Ascii.eqb a c then 0 else -1
  end.

Fixpoint drop (n : nat) (s : string) : string :=
  match n, s with
  | O, _ => s
  | S _, EmptyString => EmptyString
  | S n', String _ s' => drop n' s'
  end.

Fixpoint take (n : nat) (s : string) : string :=
  match n, s with
  | O, _ => EmptyString
  | S _, EmptyString => EmptyString
  | S n', String a s' => String a (take n' s')
  end.

(** Index normalisation of a slice bound: a negative bound counts from
    the end, and the result is clamped to [0, len]. *)
Definition clamp (len i : Z) : Z :=
  let j := if i <? 0 then i + len else i in
  Z.max 0 (Z.min len j).

(** [s[lo:hi]]. *)
Definition slice (s : string) (lo hi : Z) : string :=
  let len := Z.of_nat (String.length s) in
  let a := clamp len lo in
  let b := clamp len hi in
  take (Z.to_nat (b - a)) (drop (Z.to_nat a) s).

(** [s.startswith(p)]. *)
Fixpoint startswith (p s : string) : bool :=
  match p, s with
  | EmptyString, _ => true
  | String _ _, EmptyString => false
  | String a p', String b s' => Ascii.eqb a b && startswith p' s'
  end.

(** [s.replace(old, new)] for a non-empty [old]: occurrences are replaced
    left to right without overlap.  [skip] counts the characters of the
    occurrence just replaced that are still to be dropped. *)
Fixpoint replace_from (old new : string) (skip : nat) (s : string) : string :=
  match s with
  | EmptyString => EmptyString
  | String a s' =>
      match skip with
      | S k => replace_from old new k s'
      | O =>
          if startswith old s
          then new +:+ replace_from old new (Nat.pred (String.length old)) s'
          else String a (replace_from old new O s')
      end
  end.

Definition replace (old new s : string) : string := replace_from old new O s.

(** The ASCII characters for which [str.isspace] holds. *)
Definition isspace (a : ascii) : bool :=
  let n := nat_of_ascii a in
  ((9 <=? n) && (n <=? 13) || (28 <=? n) && (n <=? 32))%nat.

Fixpoint lstrip (s : string) : string :=
  match s with
  | EmptyString => EmptyString
  | String a s' => if isspace a then lstrip s' else s
  end.

Fixpoint rstrip (s : string) : string :=
  match s with
  | EmptyString => EmptyString
  | String a s' =>
      match rstrip s' with
      | EmptyString => if isspace a then EmptyString else String a EmptyString
      | r => String a r
      end
  end.

(** [s.strip()]. *)
Definition strip (s : string) : string := rstrip (lstrip s).

(** [s.strip(c)] for a one-character argument. *)
Fixpoint lstrip_char (c : ascii) (s : string) : string :=
  match s with
  | EmptyString => EmptyString
  | String a s' => if Ascii.eqb a c then lstrip_char c s' else s
  end.

Fixpoint rstrip_char (c : ascii) (s : string) : string :=
  match s with
  | EmptyString => EmptyString
  | String a s' =>
      match rstrip_char c s' with
      | EmptyString => if Ascii.eqb a c then EmptyString else String a EmptyString
      | r => String a r
      end
  end.

Definition strip_char (c : ascii) (s : string) : string :=
  rstrip_char c (lstrip_char c s).

(** [s.split(c)[0]]: the text before the first [c], all of [s] when
    [c] does not occur. *)
Fixpoint before (c : ascii) (s : string) : string :=
  match s with
  | EmptyString => EmptyString
  | String a s' => if Ascii.eqb a c then EmptyString else String a (before c s')
  end.

Definition upper_ascii (a : ascii) : ascii :=
  let n := nat_of_ascii a in
  if ((97 <=? n) && (n <=? 122))%nat then ascii_of_nat (n - 32) else a.

(** [s.upper()]. *)
Fixpoint upper (s : string) : string :=
  match s with
  | EmptyString => EmptyString
  | String a s' => String (upper_ascii a) (upper s')
  end.

(** [sep.join(parts)]. *)
Fixpoint join (sep : string) (parts : list string) : string :=
  match parts with
  | [] => EmptyString
  | [p] => p
  | p :: rest => p +:+ sep +:+ join sep rest
  end.

Definition nl : string := String "010"%char EmptyString.

(** The separator ["\n\n"]. *)
Definition blank_line : string := nl +:+ nl.

(** The double-quote character. *)
Definition dquote : ascii := "034"%char.

(** Texts that contain double quotes are written with apostrophes in
    their place. *)
Fixpoint dq (s : string) : string :=
  match s with
  | EmptyString => EmptyString
  | String a s' => String (if Ascii.eqb a "'" then dquote else a) (dq s')
  end.

(** A text given by its lines. *)
Definition lines (ls : list string) : string := join nl ls.

Definition lower_ascii (a : ascii) : ascii :=
  let n := nat_of_ascii a in
  if ((65 <=? n) && (n <=? 90))%nat then ascii_of_nat (n + 32) else a.

(** [s.lower()]. *)
Fixpoint lower (s : string) : string :=
  match s with
  | EmptyString => EmptyString
  | String a s' => String (lower_ascii a) (lower s')
  end.

(** [needle in s]. *)
Fixpoint contains (needle s : string) : bool :=
  startswith needle s ||
  match s with
  | EmptyString => false
  | String _ s' => contains needle s'
  end.

End PyStr.

(** ** JSON values and the decoder of the [json] module *)

Set Warnings "-register-all".

Inductive json : Type :=
| JNull
| JBool (b : bool)
| JNum (lexeme : string)
| JStr (s : string)
| JArr (items : list json)
| JObj (members : list (string * json)).

Module Json.

(** A Python [dict] built from a JSON object keeps one binding per key,
    at the position of the key's first insertion, holding the value of
    its last insertion. *)
Fixpoint dict_set (k : string) (v : json) (m : list (string * json))
  : list (string * json) :=
  match m with
  | [] => [(k, v)]
  | (k', v') :: m' =>
      if String.eqb k' k then (k, v) :: m' else (k', v') :: dict_set k v m'
  end.

Fixpoint dict_get (k : string) (m : list (string * json)) : option json :=
  match m with
  | [] => None
  | (k', v) :: m' => if String.eqb k' k then Some v else dict_get k m'
  end.

(** The whitespace the decoder skips between tokens: space, tab, line
    feed, carriage return. *)
Definition is_ws (a : ascii) : bool :=
  match nat_of_ascii a with
  | 32%nat | 9%nat | 10%nat | 13%nat => true
  | _ => false
  end.

Fixpoint skip_ws (s : string) : string :=
  match s with
  | EmptyString => EmptyString
  | String a s' => if is_ws a then skip_ws s' else s
  end.

Definition is_digit (a : ascii) : bool :=
  let n := nat_of_ascii a in ((48 <=? n) && (n <=? 57))%nat.

(** Longest prefix of decimal digits, and the rest. *)
Fixpoint span_digits (s : string) : string * string :=
  match s with
  | EmptyString => (EmptyString, EmptyString)
  | String a s' =>
      if is_digit a
      then let '(d, r) := span_digits s' in (String a d, r)
      else (EmptyString, s)
  end.

(** A number, matched as a prefix: an optional minus sign; an integer
    part that is a single zero or starts with a non-zero digit; an
    optional fraction (a dot and at least one digit); an optional
    exponent (e or E, an optional sign, at least one digit).  The lexeme
    stands for the int or float it denotes. *)
Definition int_part (s : string) : option (string * string) :=
  match s with
  | String a s' =>
      if Ascii.eqb a "0"%char then Some ("0"%string, s')
      else if is_digit a
           then let '(d, r) := span_digits s' in Some (String a d, r)
           else None
  | EmptyString => None
  end.

Definition frac_part (s : string) : string * string :=
  match s with
  | String "." s' =>
      match span_digits s' with
      | (EmptyString, _) => (EmptyString, s)
      | (d, r) => (String "." d, r)
      end
  | _ => (EmptyString, s)
  end.

Definition exp_digits (mark : string) (s after : string) : string * string :=
  match span_digits after with
  | (EmptyString, _) => (EmptyString, s)
  | (d, r) => (mark +:+ d, r)
  end.

Definition exp_part (s : string) : string * string :=
  match s with
  | String e s' =>
      if Ascii.eqb e "e" || Ascii.eqb e "E" then
        match s' with
        | String sg s'' =>
            if Ascii.eqb sg "+" || Ascii.eqb sg "-"
            then exp_digits (String e (String sg EmptyString)) s s''
            else exp_digits (String e EmptyString) s s'
        | EmptyString => (EmptyString, s)
        end
      else (EmptyString, s)
  | EmptyString => (EmptyString, s)
  end.

Definition match_number (s : string) : option (string * string) :=
  let '(sign, s1) :=
    match s with
    | String "-" s' => ("-"%string, s')
    | _ => (EmptyString, s)
    end in
  match int_part s1 with
  | None => None
  | Some (i, s2) =>
      let '(f, s3) := frac_part s2 in
      let '(e, s4) := exp_part s3 in
      Some (sign +:+ i +:+ f +:+ e, s4)
  end.

(** The number a run of decimal digits denotes, after [acc]. *)
Fixpoint digits_value (acc : Z) (s : string) : Z :=
  match s with
  | EmptyString => acc
  | String a s' =>
      if is_digit a
      then digits_value (10 * acc + Z.of_nat (nat_of_ascii a - 48)) s'
      else acc
  end.

(** The exponent after the mark [e] or [E]. *)
Definition exponent_value (s : string) : Z :=
  match s with
  | String _ (String "-" d) => - digits_value 0 d
  | String _ (String "+" d) => digits_value 0 d
  | String _ d => digits_value 0 d
  | EmptyString => 0
  end.

(** Whether the number a lexeme stands for is zero.  A lexeme without
    fraction and exponent is an [int]: it is zero when its digits are.
    Any other lexeme is a [float], the nearest binary64 number to
    [m * 10 ^ e]: it is zero when [m * 10 ^ e] is at most [2 ^ -1075],
    half of the smallest positive float. *)
Definition number_is_zero (lexeme : string) : bool :=
  let body := match lexeme with String "-" s => s | _ => lexeme end in
  let '(i, r1) := span_digits body in
  let '(f, r2) :=
    match r1 with
    | String "." s => span_digits s
    | _ => (EmptyString, r1)
    end in
  let m := digits_value 0 (i +:+ f) in
  let e := exponent_value r2 - Z.of_nat (String.length f) in
  if m =? 0 then true
  else
    match r1 with
    | EmptyString => false
    | _ => if 0 <=? e then false else m * 2 ^ 1075 <=? 10 ^ (- e)
    end.

Definition num_is_zero (lexeme : string) : bool :=
  match lexeme with
  | String "N" _ | String "I" _ | String "-" (String "I" _) => false
  | _ => number_is_zero lexeme
  end.

Definition hex_val (a : ascii) : option N :=
  let n := N_of_ascii a in
  if ((48 <=? n) && (n <=? 57))%N then Some (n - 48)%N
  else if ((65 <=? n) && (n <=? 70))%N then Some (n - 55)%N
  else if ((97 <=? n) && (n <=? 102))%N then Some (n - 87)%N
  else None.

(** Four hexadecimal digits of a [\uXXXX] escape. *)
Definition decode_uXXXX (s : string) : option (N * string) :=
  match s with
  | String a (String b (String c (String d r))) =>
      match hex_val a, hex_val b, hex_val c, hex_val d with
      | Some x, Some y, Some z, Some w =>
          Some (((x * 16 + y) * 16 + z) * 16 + w, r)%N
      | _, _, _, _ => None
      end
  | _ => None
  end.

(** A code point as the bytes of its UTF-8 encoding. *)
Definition utf8 (cp : N) : string :=
  let b (n : N) := ascii_of_N n in
  (if cp <? 128 then String (b cp) EmptyString
   else if cp <? 2048 then
     String (b (192 + cp / 64)) (String (b (128 + cp mod 64)) EmptyString)
   else if cp <? 65536 then
     String (b (224 + cp / 4096))
       (String (b (128 + (cp / 64) mod 64))
          (String (b (128 + cp mod 64)) EmptyString))
   else
     String (b (240 + cp / 262144))
       (String (b (128 + (cp / 4096) mod 64))
          (String (b (128 + (cp / 64) mod 64))
             (String (b (128 + cp mod 64)) EmptyString))))%N.

(** The one-character escapes. *)
Definition backslash (e : ascii) : option ascii :=
  match nat_of_ascii e with
  | 34%nat => Some (ascii_of_nat 34)
  | 92%nat => Some (ascii_of_nat 92)
  | 47%nat => Some (ascii_of_nat 47)
  | 98%nat => Some (ascii_of_nat 8)
  | 102%nat => Some (ascii_of_nat 12)
  | 110%nat => Some (ascii_of_nat 10)
  | 114%nat => Some (ascii_of_nat 13)
  | 116%nat => Some (ascii_of_nat 9)
  | _ => None
  end.

(** An escape [\uXXXX], joined with a following low surrogate when it is
    a high surrogate. *)
Definition unicode_escape (s : string) : option (N * string) :=
  match decode_uXXXX s with
  | None => None
  | Some (u, r) =>
      if ((55296 <=? u) && (u <=? 56319))%N then
        match r with
        | String "\" (String "u" r') =>
            match decode_uXXXX r' with
            | None => None
            | Some (u2, r'') =>
                if ((56320 <=? u2) && (u2 <=? 57343))%N
                then Some (65536 + ((u - 55296) * 1024 + (u2 - 56320)), r'')%N
                else Some (u, r)
            end
        | _ => Some (u, r)
        end
      else Some (u, r)
  end.

(** The body of a string literal, after its opening quote (strict mode:
    a raw control character is an error). *)
Fixpoint scanstring (fuel : nat) (s : string) : option (string * string) :=
  match fuel, s with
  | O, _ | _, EmptyString => None
  | S f, String c s' =>
      match nat_of_ascii c with
      | 34%nat => Some (EmptyString, s')
      | 92%nat =>
          match s' with
          | EmptyString => None
          | String e s'' =>
              if Ascii.eqb e "u" then
                match unicode_escape s'' with
                | None => None
                | Some (cp, r) =>
                    match scanstring f r with
                    | None => None
                    | Some (body, rest) => Some (utf8 cp +:+ body, rest)
                    end
                end
              else
                match backslash e with
                | None => None
                | Some ch =>
                    match scanstring f s'' with
                    | None => None
                    | Some (body, rest) => Some (String ch body, rest)
                    end
                end
          end
      | n =>
          if (n <? 32)%nat then None
          else match scanstring f s' with
               | None => None
               | Some (body, rest) => Some (String c body, rest)
               end
      end
  end.

Definition literal (word : string) (v : json) (s : string)
  : option (json * string) :=
  if PyStr.startswith word s
  then Some (v, PyStr.drop (String.length word) s) else None.

(** Values that are neither strings nor containers, in the order the
    scanner tries them. *)
Definition scan_atom (s : string) : option (json * string) :=
  match literal "null" JNull s with
  | Some r => Some r
  | None =>
  match literal "true" (JBool true) s with
  | Some r => Some r
  | None =>
  match literal "false" (JBool false) s with
  | Some r => Some r
  | None =>
  match match_number s with
  | Some (lx, r) => Some (JNum lx, r)
  | None =>
  match literal "NaN" (JNum "NaN") s with
  | Some r => Some r
  | None =>
  match literal "Infinity" (JNum "Infinity") s with
  | Some r => Some r
  | None => literal "-Infinity" (JNum "-Infinity") s
  end end end end end end.

(** [scan_once] reads one value; [scan_array] and [scan_object] read
    the elements of a container whose opening bracket (and any
    whitespace after it) has been consumed and which is known not to be
    empty.  [None] is [JSONDecodeError]. *)
Fixpoint scan_once (fuel : nat) (s : string) : option (json * string) :=
  match fuel with
  | O => None
  | S f =>
      match s with
      | EmptyString => None
      | String c s' =>
          match nat_of_ascii c with
          | 34%nat =>
              match scanstring (S (String.length s')) s' with
              | None => None
              | Some (body, r) => Some (JStr body, r)
              end
          | 123%nat =>
              match skip_ws s' with
              | String "}" r => Some (JObj [], r)
              | String q r => if Ascii.eqb q PyStr.dquote then scan_object f r [] else None
              | EmptyString => None
              end
          | 91%nat =>
              match skip_ws s' with
              | String "]" r => Some (JArr [], r)
              | s1 => scan_array f s1 []
              end
          | _ => scan_atom s
          end
      end
  end
with scan_array (fuel : nat) (s : string) (acc : list json)
  : option (json * string) :=
  match fuel with
  | O => None
  | S f =>
      match scan_once f s with
      | None => None
      | Some (v, r) =>
          match skip_ws r with
          | String "]" r' => Some (JArr (acc ++ [v]), r')
          | String "," r' => scan_array f (skip_ws r') (acc ++ [v])
          | _ => None
          end
      end
  end
with scan_object (fuel : nat) (s : string) (acc : list (string * json))
  : option (json * string) :=
  match fuel with
  | O => None
  | S f =>
      match scanstring (S (String.length s)) s with
      | None => None
      | Some (k, r) =>
          match skip_ws r with
          | String ":" r1 =>
              match scan_once f (skip_ws r1) with
              | None => None
              | Some (v, r2) =>
                  match skip_ws r2 with
                  | String "}" r3 => Some (JObj (dict_set k v acc), r3)
                  | String "," r3 =>
                      match skip_ws r3 with
                      | String q r4 =>
                          if Ascii.eqb q PyStr.dquote
                          then scan_object f r4 (dict_set k v acc) else None
                      | EmptyString => None
                      end
                  | _ => None
                  end
              end
          | _ => None
          end
      end
  end.

(** [json.loads(s)]: one value, surrounded by optional whitespace and
    nothing else.  Every call of the scanner consumes a character, so
    twice the length of the text bounds the depth of the calls. *)
Definition loads (s : string) : option json :=
  match scan_once (2 * String.length s + 2) (skip_ws s) with
  | Some (v, r) =>
      match skip_ws r with
      | EmptyString => Some v
      | _ => None
      end
  | None => None
  end.

End Json.

(** ** Dynamic operations of Python on decoded values *)

Inductive exn : Type :=
| JSONDecodeError
| ValueError (msg : string)
| KeyError (key : string)
| TypeError
| AttributeError
| NameError (name : string)
| FileNotFoundError (path : string)
| IsADirectoryError (path : string)
| ExternalError (who : string)
| MarkupError
| EOFError
| KeyboardInterrupt.

(** The exceptions [except Exception] catches: all of them but
    [KeyboardInterrupt], which derives from [BaseException] alone. *)
Definition is_exception (e : exn) : bool :=
  match e with
  | KeyboardInterrupt => false
  | _ => true
  end.

Inductive outcome (A : Type) : Type :=
| Ok (a : A)
| Raise (e : exn).
Arguments Ok {A} a.
Arguments Raise {A} e.

Module Py.

(** [bool(v)]. *)
Definition truthy (v : json) : bool :=
  match v with
  | JNull => false
  | JBool b => b
  | JNum lx => negb (Json.num_is_zero lx)
  | JStr s => negb (String.eqb s EmptyString)
  | JArr l => match l with [] => false | _ => true end
  | JObj m => match m with [] => false | _ => true end
  end.

(** [bool(s)] for a value that is [None] or a [str]. *)
Definition truthy_str (o : option string) : bool :=
  match o with
  | None => false
  | Some s => negb (String.eqb s EmptyString)
  end.

(** [v[key]] for a string key. *)
Definition getitem (v : json) (key : string) : outcome json :=
  match v with
  | JObj m =>
      match Json.dict_get key m with
      | Some x => Ok x
      | None => Raise (KeyError key)
      end
  | _ => Raise TypeError
  end.

Fixpoint chars (s : string) : list json :=
  match s with
  | EmptyString => []
  | String a s' => JStr (String a EmptyString) :: chars s'
  end.

(** The items [for x in v] ranges over. *)
Definition iter (v : json) : outcome (list json) :=
  match v with
  | JArr l => Ok l
  | JObj m => Ok (map (fun kv => JStr (fst kv)) m)
  | JStr s => Ok (chars s)
  | _ => Raise TypeError
  end.

(** The items of a list as strings, as [str.join] demands them. *)
Fixpoint all_str (l : list json) : outcome (list string) :=
  match l with
  | [] => Ok []
  | JStr s :: l' =>
      match all_str l' with
      | Ok r => Ok (s :: r)
      | Raise e => Raise e
      end
  | _ :: _ => Raise TypeError
  end.

(** [[m[key] for m in items]]. *)
Fixpoint getitems (items : list json) (key : string) : outcome (list json) :=
  match items with
  | [] => Ok []
  | m :: rest =>
      match getitem m key with
      | Raise e => Raise e
      | Ok x =>
          match getitems rest key with
          | Ok r => Ok (x :: r)
          | Raise e => Raise e
          end
      end
  end.

(** [range(0, stop, step)] for a positive step, by the loop it stands
    for; at most [stop] iterations are needed. *)
Fixpoint range_from (fuel i stop step : nat) : list nat :=
  match fuel with
  | O => []
  | S f => if (i <? stop)%nat then i :: range_from f (i + step) stop step else []
  end.

Definition range (stop step : nat) : list nat := range_from stop 0 stop step.

(** [l[i:j]] for non-negative bounds. *)
Definition slice {A} (l : list A) (i j : nat) : list A := take (j - i) (drop i l).

End Py.

(** ** The world the handlers act on *)

Definition vector := list Q.
Definition page := string.
Definition chunk := string.

Inductive event : Type :=
| EvSave (path : string)
| EvRemove (path : string)
| EvOpen (path : string)
| EvClose
| EvEmbed (text : string)
| EvRpc (match_threshold : Q) (match_count : nat)
| EvGenerate (prompt : string)
| EvVision (prompt : string) (path : string)
| EvAddDocuments (batch : list chunk)
| EvSleep (seconds : nat)
| EvQuestion (index : nat) (text : json)
| EvOption (opt : json)
| EvAsk (index : nat)
| EvVerdict (correct : bool)
| EvPanel (text : string)
| EvReport (score : Z) (percentage : Q)
| EvFailed (e : exn)
| EvBanner (text : string).

(** What an f-string puts together: text of the template, a [str]
    value, [str(v)] of a decoded value, [str(e)] of an exception, a
    number. *)
Inductive part : Type :=
| Lit (s : string)
| Str (s : string)
| Val (v : json)
| Exn (e : exn)
| Int (n : Z).

Definition fstring : Type := list part.

(** The local variable [img] of the grading handler: unbound until
    [PIL.Image.open] has returned, then bound to a handle that is open
    until [close] is called on it. *)
Inductive img_var : Type :=
| Unbound
| Bound (is_open : bool).

Record world : Type := World {
  files : gset string;
  img : img_var;
  trace : list event
}.

Definition initial (fs : gset string) : world :=
  {| files := fs; img := Unbound; trace := [] |}.

(** The collaborators.  [None] stands for a raised exception.
    [console_renders text] tells whether the console of [rich] prints
    [text], which it reads as markup, or raises [MarkupError], as it
    does at a closing tag that matches no open one.  [prompt_ask i] is
    what [Prompt.ask] gives for question [i]: the answer it returns, or
    the exception it raises, [KeyboardInterrupt] when the student
    presses Ctrl-C and [EOFError] when the input has ended. *)
Record Env : Type := {
  secure_filename : string -> string;
  embed_query : string -> option vector;
  match_documents : vector -> Q -> nat -> option json;
  generate_content : string -> option (option string);
  vision_generate_content : string -> string -> option (option string);
  image_readable : string -> bool;
  loader_load : string -> option (list page);
  split_documents : list page -> option (list chunk);
  add_documents_ok : list event -> list chunk -> bool;
  prompt_ask : nat -> outcome string;
  console_renders : fstring -> bool
}.

(** ** State and exceptions *)

Definition M (A : Type) : Type := world -> outcome A * world.

Definition ret {A} (a : A) : M A := fun w => (Ok a, w).

Definition raise {A} (e : exn) : M A := fun w => (Raise e, w).

Definition bind {A B} (m : M A) (k : A -> M B) : M B :=
  fun w =>
    match m w with
    | (Ok a, w') => k a w'
    | (Raise e, w') => (Raise e, w')
    end.

(** [try: body except Exception as e: handler e]. *)
Definition try_except {A} (body : M A) (handler : exn -> M A) : M A :=
  fun w =>
    match body w with
    | (Ok a, w') => (Ok a, w')
    | (Raise e, w') => if is_exception e then handler e w' else (Raise e, w')
    end.

(** [try: body except: handler], which catches everything. *)
Definition try_bare {A} (body : M A) (handler : M A) : M A :=
  fun w =>
    match body w with
    | (Ok a, w') => (Ok a, w')
    | (Raise _, w') => handler w'
    end.

Definition lift {A} (o : outcome A) : M A := fun w => (o, w).

Definition emit (e : event) : M unit :=
  fun w => (Ok tt, {| files := files w; img := img w; trace := trace w ++ [e] |}).

Declare Scope py_scope.
Delimit Scope py_scope with py.
Notation "x <- m ;; k" := (bind m (fun x => k))
  (at level 100, m at next level, right associativity) : py_scope.
Notation "m ;;; k" := (bind m (fun _ => k))
  (at level 100, right associativity) : py_scope.
Local Open Scope py_scope.

(** An external call that returns a value or raises. *)
Definition external {A} (who : string) (r : option A) : M A :=
  match r with
  | Some a => ret a
  | None => raise (ExternalError who)
  end.

Fixpoint for_each {A} (l : list A) (body : A -> M unit) : M unit :=
  match l with
  | [] => ret tt
  | x :: l' => body x ;;; for_each l' body
  end.

(** The console of [rich]. *)
Module Console.

(** [console.print(text)] for a text with interpolated values; [shown]
    records the print.  Texts without interpolated values hold matched
    tags only and are printed without a step of the model, and so is
    everything the builtin [print] writes. *)
Definition print (env : Env) (text : fstring) (shown : event) : M unit :=
  if console_renders env text then emit shown else raise MarkupError.

End Console.

Module Os.

(** [file.save(path)]: a path that names a directory cannot be written. *)
Definition save (dir name : string) : M string :=
  let path := dir +:+ "/" +:+ name in
  if String.eqb name EmptyString then raise (IsADirectoryError path)
  else fun w =>
    (Ok path, {| files := files w ∪ {[ path ]}; img := img w;
                 trace := trace w ++ [EvSave path] |}).

(** [os.path.exists(path)]. *)
Definition exists_ (path : string) : M bool :=
  fun w => (Ok (bool_decide (path ∈ files w)), w).

(** [os.remove(path)]. *)
Definition remove (path : string) : M unit :=
  emit (EvRemove path) ;;;
  fun w =>
    if bool_decide (path ∈ files w)
    then (Ok tt, {| files := files w ∖ {[ path ]}; img := img w; trace := trace w |})
    else (Raise (FileNotFoundError path), w).

End Os.

Module Pil.

(** [img = PIL.Image.open(path)]. *)
Definition open (env : Env) (path : string) : M unit :=
  fun w =>
    if bool_decide (path ∈ files w) then
      if image_readable env path
      then (Ok tt, {| files := files w; img := Bound true;
                      trace := trace w ++ [EvOpen path] |})
      else (Raise (ExternalError "PIL.Image.open"), w)
    else (Raise (FileNotFoundError path), w).

(** [img.close()]: evaluating an unbound [img] raises; closing a closed
    handle is allowed. *)
Definition close : M unit :=
  fun w =>
    match img w with
    | Unbound => (Raise (NameError "img"), w)
    | Bound _ => (Ok tt, {| files := files w; img := Bound false;
                            trace := trace w ++ [EvClose] |})
    end.

End Pil.

(** The retrieval steps every caller performs. *)
Module Store.

Definition embed (env : Env) (text : string) : M vector :=
  emit (EvEmbed text) ;;;
  external "embed_query" (embed_query env text).

(** [supabase.rpc("match_documents", {...}).execute().data]. *)
Definition rpc (env : Env) (v : vector) (threshold : Q) (count : nat) : M json :=
  emit (EvRpc threshold count) ;;;
  external "match_documents" (match_documents env v threshold count).

(** ["\n\n".join([m['content'] for m in matches])]. *)
Definition join_contents (matches : json) : outcome string :=
  match Py.iter matches with
  | Raise e => Raise e
  | Ok items =>
      match Py.getitems items "content" with
      | Raise e => Raise e
      | Ok cs =>
          match Py.all_str cs with
          | Raise e => Raise e
          | Ok strs => Ok (PyStr.join PyStr.blank_line strs)
          end
      end
  end.

(** [add_documents(batch)]. *)
Definition add_documents (env : Env) (batch : list chunk) : M unit :=
  fun w =>
    let w' := {| files := files w; img := img w;
                 trace := trace w ++ [EvAddDocuments batch] |} in
    if add_documents_ok env (trace w) batch then (Ok tt, w')
    else (Raise (ExternalError "add_documents"), w').

End Store.

(** The generation models. *)
Module Gen.

(** [chat_model.generate_content(prompt)]. *)
Definition generate (env : Env) (prompt : string) : M (option string) :=
  emit (EvGenerate prompt) ;;;
  external "generate_content" (generate_content env prompt).

(** [vision_model.generate_content([prompt, img])], the image being the
    one opened from [path]. *)
Definition vision (env : Env) (prompt path : string) : M (option string) :=
  emit (EvVision prompt path) ;;;
  external "generate_content" (vision_generate_content env prompt path).

(** [response.text], which raises when the reply carries no text. *)
Definition text (response : option string) : M string :=
  external "response.text" response.

End Gen.

(** [json.loads] as the handlers see it. *)
Definition json_loads (s : string) : outcome json :=
  match Json.loads s with
  | Some v => Ok v
  | None => Raise JSONDecodeError
  end.

(** [raw.replace("```json", "").replace("```", "").strip()]. *)
Definition strip_fences (raw_text : string) : string :=
  PyStr.strip
    (PyStr.replace "```" EmptyString (PyStr.replace "```json" EmptyString raw_text)).

(** ** HTTP replies of [app.py] *)

Inductive body : Type :=
| ErrorMsg (msg : string)
| ErrorExn (e : exn)
| Memorized (chunks : nat)
| Reply (text : string)
| Quiz (v : json)
| Json (v : json).

Record response : Type := Resp { status : nat; payload : body }.

(** ** The batch upload loop

    The loop [for i in range(0, len(chunks), batch_size)] is written three
    times, in [app.py] (pause of one second), [quizadded.py] and
    [digital_dean_backend.py] (pause of two seconds), always with
    [batch_size = 50]; it is embedded once, for any batch size and pause. *)

Module Ingest.

Definition upload_batches (env : Env) (batch_size pause : nat)
    (chunks : list chunk) : M unit :=
  if (batch_size =? 0)%nat
  then raise (ValueError "range() arg 3 must not be zero")
  else
    for_each (Py.range (length chunks) batch_size) (fun i =>
      let batch := Py.slice chunks i (i + batch_size) in
      Store.add_documents env batch ;;;
      emit (EvSleep pause)).

(** [(len(chunks) + batch_size - 1) // batch_size], the number of
    batches the scripts announce. *)
Definition total_batches (len batch_size : nat) : nat :=
  ((len + batch_size - 1) / batch_size)%nat.

End Ingest.

(** ** [app.py] *)

Module App.

Definition UPLOAD_FOLDER : string := "uploads".

(** [get_syllabus_context(query, threshold=0.5, count=4)]. *)
Definition get_syllabus_context (env : Env) (query : string)
    (threshold : option Q) (count : option nat) : M (option string) :=
  let threshold := default 0.5%Q threshold in
  let count := default 4%nat count in
  try_except
    (query_vector <- Store.embed env query ;;
     matches <- Store.rpc env query_vector threshold count ;;
     if negb (Py.truthy matches) then ret None
     else
       joined <- lift (Store.join_contents matches) ;;
       ret (Some joined))
    (fun _ => ret None).

(** [upload_syllabus]; the request is the file name of the part [file],
    when there is one. *)
Definition upload_syllabus (env : Env) (file : option string) : M response :=
  match file with
  | None => ret (Resp 400 (ErrorMsg "No file uploaded"))
  | Some name =>
      if String.eqb name EmptyString
      then ret (Resp 400 (ErrorMsg "No file selected"))
      else
        let filename := secure_filename env name in
        filepath <- Os.save UPLOAD_FOLDER filename ;;
        try_except
          (pages <- external "PyMuPDFLoader.load" (loader_load env filepath) ;;
           chunks <- external "split_documents" (split_documents env pages) ;;
           let batch_size := 50%nat in
           Ingest.upload_batches env batch_size 1 chunks ;;;
           Os.remove filepath ;;;
           ret (Resp 200 (Memorized (length chunks))))
          (fun e => ret (Resp 500 (ErrorExn e)))
  end.

Definition no_context_notice : string := "No specific context found in syllabus.".

Definition chat_prompt (context_or_notice user_question : string) : string :=
  PyStr.lines [
    EmptyString;
    "    You are a strict Digital Dean.";
    "    Context from Syllabus:";
    "    " +:+ context_or_notice;
    "    ";
    "    Student Question: " +:+ user_question;
    "    ";
    "    Instructions:";
    "    - Answer based on the syllabus context first.";
    "    - If context is missing, use general knowledge but warn the student.";
    "    - Keep it concise and academic.";
    "    "
  ].

(** [chat_tutor], from the test of the question on.  The argument is
    what [data.get('question')] gave for a request whose body is a JSON
    object: a string, or [None] when the key is missing or null.  The
    two lines before it, [request.json] and [data.get], stand outside
    every [try] and raise for a body that is not an object; such
    requests are not covered. *)
Definition chat_tutor (env : Env) (user_question : option string) : M response :=
  if negb (Py.truthy_str user_question)
  then ret (Resp 400 (ErrorMsg "No question"))
  else
    let user_question := default EmptyString user_question in
    context <- get_syllabus_context env user_question None None ;;
    let prompt :=
      chat_prompt
        (if Py.truthy_str context then default EmptyString context
         else no_context_notice)
        user_question in
    response <- Gen.generate env prompt ;;
    text <- Gen.text response ;;
    ret (Resp 200 (Reply text)).

Definition quiz_prompt (context topic : string) : string :=
  PyStr.lines [
    EmptyString;
    "    Based on this context: " +:+ context;
    "    Create 5 HARD multiple-choice questions about '" +:+ topic +:+ "'.";
    "    CRITICAL: Output ONLY valid JSON array.";
    PyStr.dq "    Format: [{ 'question': '...', 'options': ['A)...', 'B)...'], 'answer': 'A' }]";
    "    "
  ].

(** The text handed to [json.loads] by the quiz endpoint. *)
Definition quiz_clean_json (raw_text : string) : string :=
  let start_index := PyStr.find "[" raw_text in
  let end_index := PyStr.rfind "]" raw_text + 1 in
  if negb (start_index =? -1)
  then PyStr.slice raw_text start_index end_index
  else raw_text.

(** [generate_quiz], from the test of the topic on.  The argument is
    what [data.get('topic')] gave for a request whose body is a JSON
    object: a string, or [None] when the key is missing or null.  The
    two lines before it, [request.json] and [data.get], stand outside
    the [try] and raise for a body that is not an object; such requests
    are not covered. *)
Definition generate_quiz (env : Env) (topic : option string) : M response :=
  if negb (Py.truthy_str topic)
  then ret (Resp 400 (ErrorMsg "No topic"))
  else
    let topic := default EmptyString topic in
    context <- get_syllabus_context env topic (Some 0.4%Q) (Some 5%nat) ;;
    if negb (Py.truthy_str context)
    then ret (Resp 404 (ErrorMsg "Topic not found in syllabus."))
    else
      let json_prompt := quiz_prompt (default EmptyString context) topic in
      try_except
        (response <- Gen.generate env json_prompt ;;
         raw_text <- Gen.text response ;;
         let clean_json := quiz_clean_json raw_text in
         quiz <- lift (json_loads clean_json) ;;
         ret (Resp 200 (Quiz quiz)))
        (fun e => ret (Resp 500 (ErrorExn e))).

Definition grade_prompt (topic syllabus_context : string) : string :=
  PyStr.lines [
    EmptyString;
    "        You are a strict Professor. Grade this answer about '" +:+ topic +:+ "'.";
    "        Syllabus Context: " +:+ syllabus_context;
    "        Compare handwriting strictly to syllabus.";
    PyStr.dq "        Output Format (JSON ONLY): { 'score': 'X/10', 'feedback': 'Critique...' }";
    "        "
  ].

(** The text handed to [json.loads] by the grading endpoint. *)
Definition grade_clean_json (raw_text : string) : string :=
  let start_index := PyStr.find "{" raw_text in
  let end_index := PyStr.rfind "}" raw_text + 1 in
  if negb (start_index =? -1) && negb (end_index =? 0)
  then PyStr.slice raw_text start_index end_index
  else strip_fences raw_text.

(** [if os.path.exists(filepath): os.remove(filepath)]. *)
Definition remove_if_exists (filepath : string) : M unit :=
  present <- Os.exists_ filepath ;;
  if present then Os.remove filepath else ret tt.

(** The body of the [try] of [grade_image]. *)
Definition grade_body (env : Env) (topic filepath : string) : M response :=
  syllabus_context <- get_syllabus_context env topic None None ;;
  if negb (Py.truthy_str syllabus_context)
  then
    remove_if_exists filepath ;;;
    ret (Resp 404 (ErrorMsg "Topic not found in syllabus. Cannot grade."))
  else
    Pil.open env filepath ;;;
    let prompt := grade_prompt topic (default EmptyString syllabus_context) in
    response <- Gen.vision env prompt filepath ;;
    Pil.close ;;;
    raw_text <- Gen.text response ;;
    let clean_json := grade_clean_json raw_text in
    remove_if_exists filepath ;;;
    graded <- lift (json_loads clean_json) ;;
    ret (Resp 200 (Json graded)).

(** The [except] clause of [grade_image]. *)
Definition grade_cleanup (filepath : string) (e : exn) : M response :=
  present <- Os.exists_ filepath ;;
  (if present
   then try_bare Pil.close (ret tt) ;;; Os.remove filepath
   else ret tt) ;;;
  ret (Resp 500 (ErrorExn e)).

(** [grade_image]; the request is the file name of the part [image] and
    the form field [topic], when they are there. *)
Definition grade_image (env : Env) (image topic : option string) : M response :=
  match image, topic with
  | Some name, Some topic =>
      if String.eqb name EmptyString
      then ret (Resp 400 (ErrorMsg "No selected file"))
      else
        let filename := secure_filename env name in
        filepath <- Os.save UPLOAD_FOLDER filename ;;
        try_except (grade_body env topic filepath) (grade_cleanup filepath)
  | _, _ => ret (Resp 400 (ErrorMsg "Missing image or topic"))
  end.

End App.

(** ** Floats

    A finite [float] is the rational it denotes.  The result of an
    operation is the exact result rounded to the nearest number with 53
    significant bits, ties to the even one, as IEEE 754 prescribes for
    binary64.  The exponent is not bounded: the numbers of this program
    are scores and percentages, which neither overflow nor underflow. *)

Module Float64.

Local Open Scope Q_scope.

(** The nearest integer, ties to the even one. *)
Definition rne (x : Q) : Z :=
  let f := Qfloor x in
  match Qcompare (x - inject_Z f) (1 # 2) with
  | Lt => f
  | Gt => (f + 1)%Z
  | Eq => if Z.even f then f else (f + 1)%Z
  end.

(** For [0 < x], the exponent [k] with [2 ^ k <= x < 2 ^ (k + 1)]. *)
Definition expo (x : Q) : Z :=
  let k := (Z.log2 (Qnum x) - Z.log2 (Zpos (Qden x)))%Z in
  if Qle_bool (2 ^ k) x then k else (k - 1)%Z.

(** For [0 < x]: [x] is scaled to a number from [2 ^ 52] to [2 ^ 53],
    which is rounded to an integer. *)
Definition round_pos (x : Q) : Q :=
  let e := (expo x - 52)%Z in
  inject_Z (rne (x / 2 ^ e)) * 2 ^ e.

Definition round (x : Q) : Q :=
  match Qnum x with
  | Z0 => 0
  | Zpos _ => round_pos x
  | Zneg _ => - round_pos (- x)
  end.

(** [a / b] for two [int]s, [b] not zero: the quotient, rounded once. *)
Definition int_div (a b : Z) : Q := round (inject_Z a / inject_Z b).

(** [x * n] for a [float] and a small [int], which is converted without
    rounding. *)
Definition mul_int (x : Q) (n : Z) : Q := round (x * inject_Z n).

(** The same two operations on the binary64 numbers of the standard
    library, for comparison. *)
Definition of_int (n : Z) : spec_float := binary_normalize 53 1024 n 0 false.

Definition value (f : spec_float) : option Q :=
  match f with
  | S754_zero _ => Some 0
  | S754_finite sign m e =>
      Some ((if sign then - 1 else 1) * inject_Z (Zpos m) * 2 ^ e)
  | _ => None
  end.

End Float64.

(** ** [quizadded.py] *)

Module QuizAdded.

Definition no_context_notice : string := "No relevant info found.".

Definition tutor_prompt (context question : string) : string :=
  PyStr.lines [
    EmptyString;
    "        You are a strict Digital Dean.";
    "        Context: " +:+ context;
    "        Question: " +:+ question;
    "        Answer based on context. If missing, use general knowledge but warn the student.";
    "        "
  ].

(** The line printed before the search. *)
Definition searching (question : string) : fstring :=
  [Lit (PyStr.nl +:+ "[bold cyan]❓ Searching Syllabus for:[/bold cyan] ");
   Str question].

(** The line printed by the [except] clause. *)
Definition error_line (e : exn) : fstring :=
  [Lit "[bold red]Error: "; Exn e; Lit "[/bold red]"].

(** [ask_tutor(question)].  The first print is outside the [try]; the
    panel shows the answer as Markdown, which is not read as markup. *)
Definition ask_tutor (env : Env) (question : string) : M unit :=
  Console.print env (searching question) (EvBanner question) ;;;
  try_except
    (query_vector <- Store.embed env question ;;
     matches <- Store.rpc env query_vector 0.5%Q 4%nat ;;
     context <-
       (if Py.truthy matches then lift (Store.join_contents matches)
        else ret no_context_notice) ;;
     let prompt := tutor_prompt context question in
     ai_response <- Gen.generate env prompt ;;
     text <- Gen.text ai_response ;;
     emit (EvPanel text))
    (fun e => Console.print env (error_line e) (EvFailed e)).

Definition json_prompt (context topic : string) : string :=
  PyStr.lines [
    EmptyString;
    "        You are a ruthless exam setter.";
    "        Based on this context: " +:+ context;
    "        ";
    "        Create 5 HARD multiple-choice questions about '" +:+ topic +:+ "'.";
    "        ";
    "        CRITICAL: Output ONLY valid JSON array. No text before or after.";
    "        Format:";
    "        [";
    "            {";
    PyStr.dq "                'question': 'The actual question?',";
    PyStr.dq "                'options': ['A) Option 1', 'B) Option 2', 'C) Option 3', 'D) Option 4'],";
    PyStr.dq "                'answer': 'A'";
    "            }";
    "        ]";
    "        "
  ].

(** The inner [try] of the extractor: the slice from the first opening
    bracket to the last closing one. *)
Definition extract_slice (raw_text : string) : outcome json :=
  let start_index := PyStr.find "[" raw_text in
  let end_index := PyStr.rfind "]" raw_text + 1 in
  if (start_index =? -1) || (end_index =? 0)
  then Raise (ValueError "No JSON brackets found in response.")
  else
    let clean_json := PyStr.slice raw_text start_index end_index in
    json_loads clean_json.

(** The extractor: [except json.JSONDecodeError] takes the fallback,
    any other exception leaves the block. *)
Definition extract (raw_text : string) : outcome json :=
  match extract_slice raw_text with
  | Raise JSONDecodeError =>
      let clean_json := strip_fences raw_text in
      json_loads clean_json
  | r => r
  end.

(** [q['answer'].split(")")[0].strip().upper()]; only a [str] has
    [split]. *)
Definition correct_letter (answer : json) : outcome string :=
  match answer with
  | JStr a => Ok (PyStr.upper (PyStr.strip (PyStr.before ")" a)))
  | _ => Raise AttributeError
  end.

(** The line that shows question [i]. *)
Definition question_line (i : nat) (text : json) : fstring :=
  [Lit (PyStr.nl +:+ "[bold white]Q"); Int (Z.of_nat i + 1); Lit ": "; Val text;
   Lit "[/bold white]"].

(** The line printed after a wrong answer. *)
Definition wrong_line (answer : json) : fstring :=
  [Lit "[bold red]❌ WRONG! Correct was "; Val answer; Lit "[/bold red]"].

(** One turn of the exam loop.  The options go through the builtin
    [print]; the line after a correct answer has no interpolated
    value. *)
Definition ask_question (env : Env) (i : nat) (q : json) (score : Z) : M Z :=
  text <- lift (Py.getitem q "question") ;;
  Console.print env (question_line i text) (EvQuestion i text) ;;;
  options <- lift (Py.getitem q "options") ;;
  opts <- lift (Py.iter options) ;;
  for_each opts (fun opt => emit (EvOption opt)) ;;;
  emit (EvAsk i) ;;;
  typed <- lift (prompt_ask env i) ;;
  let user_ans := PyStr.upper typed in
  answer <- lift (Py.getitem q "answer") ;;
  letter <- lift (correct_letter answer) ;;
  if String.eqb user_ans letter
  then emit (EvVerdict true) ;;; ret (score + 1)
  else
    answer <- lift (Py.getitem q "answer") ;;
    Console.print env (wrong_line answer) (EvVerdict false) ;;;
    ret score.

(** [for i, q in enumerate(quiz_data)]. *)
Fixpoint exam_loop (env : Env) (i : nat) (qs : list json) (score : Z) : M Z :=
  match qs with
  | [] => ret score
  | q :: rest =>
      score' <- ask_question env i q score ;;
      exam_loop env (S i) rest score'
  end.

(** [(score / 5) * 100]: a division of two [int]s, which gives a
    [float], then a product of that [float] and an [int]. *)
Definition percentage (score : Z) : Q :=
  Float64.mul_int (Float64.int_div score 5) 100.

(** The line printed before the quiz is built. *)
Definition banner (topic : string) : fstring :=
  [Lit (PyStr.nl +:+ "[bold red]🚨 SURPRISE QUIZ DETECTED: "); Str (PyStr.upper topic);
   Lit " 🚨[/bold red]"].

(** The line printed by the [except] clause. *)
Definition failed_line (e : exn) : fstring :=
  [Lit "[bold red]Quiz Generation Failed: "; Exn e; Lit "[/bold red]"].

(** [start_quiz(topic)].  The banner is printed outside the [try]; the
    text of the report card holds the two numbers only. *)
Definition start_quiz (env : Env) (topic : string) : M unit :=
  Console.print env (banner topic) (EvBanner topic) ;;;
  try_except
    (query_vector <- Store.embed env topic ;;
     data <- Store.rpc env query_vector 0.4%Q 5%nat ;;
     context <- lift (Store.join_contents data) ;;
     let prompt := json_prompt context topic in
     ai_response <- Gen.generate env prompt ;;
     raw_text <- Gen.text ai_response ;;
     quiz_data <- lift (extract raw_text) ;;
     questions <- lift (Py.iter quiz_data) ;;
     score <- exam_loop env 0 questions 0 ;;
     emit (EvReport score (percentage score)))
    (fun e => Console.print env (failed_line e) (EvFailed e)).

End QuizAdded.

(** ** [digital_dean_backend.py] *)

Module Backend.

Definition no_context_notice : string := "No relevant info found in syllabus.".

Definition tutor_prompt (context question : string) : string :=
  PyStr.lines [
    EmptyString;
    "        You are a strict but helpful Digital Dean.";
    "        ";
    "        Context from Syllabus:";
    "        " +:+ context;
    "        ";
    "        Student Question: " +:+ question;
    "        ";
    "        Instructions:";
    "        1. Answer based on the syllabus context first.";
    "        2. If the info is missing, use general knowledge but warn the student ("
      +:+ String PyStr.dquote "This isn't in your syllabus, but..."
      +:+ String PyStr.dquote ").";
    "        3. Format nicely with Markdown.";
    "        "
  ].

(** The line printed before the search. *)
Definition question_line (question : string) : fstring :=
  [Lit (PyStr.nl +:+ "[bold cyan]❓ Question:[/bold cyan] "); Str question].

(** The line printed by the [except] clause. *)
Definition error_line (e : exn) : fstring :=
  [Lit "[bold red]Error: "; Exn e; Lit "[/bold red]"].

(** [ask_tutor(question)].  The first print is outside the [try]. *)
Definition ask_tutor (env : Env) (question : string) : M unit :=
  Console.print env (question_line question) (EvBanner question) ;;;
  try_except
    (query_vector <- Store.embed env question ;;
     matches <- Store.rpc env query_vector 0.5%Q 4%nat ;;
     context <-
       (if negb (Py.truthy matches) then ret no_context_notice
        else lift (Store.join_contents matches)) ;;
     let prompt := tutor_prompt context question in
     ai_response <- Gen.generate env prompt ;;
     text <- Gen.text ai_response ;;
     emit (EvPanel text))
    (fun e => Console.print env (error_line e) (EvFailed e)).

End Backend.

(** ** [vision_grader.py] *)

Module VisionGrader.

Definition grading_prompt (syllabus_context : string) : string :=
  PyStr.lines [
    EmptyString;
    "    You are a strict University Professor.";
    "    ";
    "    Task: Grade the student's handwritten answer.";
    "    ";
    "    1. THE OFFICIAL SYLLABUS (The Truth):";
    "    " +:+ syllabus_context;
    "    ";
    "    2. INSTRUCTIONS:";
    "    - Read the handwriting in the image provided.";
    "    - Compare it strictly against the Syllabus Context above.";
    "    - If the student writes something correct that is NOT in the syllabus context, give partial credit but warn them.";
    "    - If the student contradicts the syllabus, penalize heavily.";
    "    ";
    "    3. OUTPUT FORMAT:";
    PyStr.dq "    - Start with a 'GRADE: X/10'.";
    PyStr.dq "    - Provide a 'Critique' section explaining exactly what they missed compared to the syllabus.";
    "    - Be harsh but constructive.";
    "    "
  ].

(** The line printed before the search. *)
Definition searching (topic : string) : fstring :=
  [Lit (PyStr.nl +:+ "[bold yellow]🔍 1. Searching Syllabus for '"); Str topic;
   Lit "'...[/bold yellow]"].

(** The lines printed by the three [except] clauses. *)
Definition retrieval_error (e : exn) : fstring :=
  [Lit "[bold red]Error retrieving context: "; Exn e; Lit "[/bold red]"].

Definition image_error (e : exn) : fstring :=
  [Lit "[bold red]❌ Could not open image: "; Exn e; Lit "[/bold red]"].

Definition grading_error (e : exn) : fstring :=
  [Lit "[bold red]AI Grading Error: "; Exn e; Lit "[/bold red]"].

(** Part A of [grade_submission]: [None] when the function has printed
    a message and returned. *)
Definition retrieve (env : Env) (topic : string) : M (option string) :=
  try_except
    (query_vector <- Store.embed env topic ;;
     matches <- Store.rpc env query_vector 0.4%Q 3%nat ;;
     if negb (Py.truthy matches) then ret None
     else
       syllabus_context <- lift (Store.join_contents matches) ;;
       ret (Some syllabus_context))
    (fun e => Console.print env (retrieval_error e) (EvFailed e) ;;; ret None).

(** The path with surrounding double quotes, then apostrophes, then
    whitespace stripped. *)
Definition clean_path (image_path : string) : string :=
  PyStr.strip (PyStr.strip_char "'" (PyStr.strip_char PyStr.dquote image_path)).

(** [grade_submission(topic, image_path)].  The first print is outside
    every [try]. *)
Definition grade_submission (env : Env) (topic image_path : string) : M unit :=
  Console.print env (searching topic) (EvBanner topic) ;;;
  found <- retrieve env topic ;;
  match found with
  | None => ret tt
  | Some syllabus_context =>
      opened <-
        try_except
          (Pil.open env (clean_path image_path) ;;; ret true)
          (fun e => Console.print env (image_error e) (EvFailed e) ;;; ret false) ;;
      if negb opened then ret tt
      else
        let prompt := grading_prompt syllabus_context in
        try_except
          (response <- Gen.vision env prompt (clean_path image_path) ;;
           text <- Gen.text response ;;
           emit (EvPanel text))
          (fun e => Console.print env (grading_error e) (EvFailed e))
  end.

End VisionGrader.

(** ** Observations on traces *)

(** The paths [os.remove] was called on, in order. *)
Fixpoint removed_paths (tr : list event) : list string :=
  match tr with
  | [] => []
  | EvRemove p :: tr' => p :: removed_paths tr'
  | _ :: tr' => removed_paths tr'
  end.

(** The events in the life of the image: opening, closing, deleting. *)
Fixpoint lifecycle (tr : list event) : list event :=
  match tr with
  | [] => []
  | EvOpen p :: tr' => EvOpen p :: lifecycle tr'
  | EvClose :: tr' => EvClose :: lifecycle tr'
  | EvRemove p :: tr' => EvRemove p :: lifecycle tr'
  | _ :: tr' => lifecycle tr'
  end.

(** No [os.remove] happens between an opening and the next closing;
    [is_open] tells whether the handle is open at the start. *)
Fixpoint safe_removals (is_open : bool) (tr : list event) : bool :=
  match tr with
  | [] => true
  | EvOpen _ :: tr' => safe_removals true tr'
  | EvClose :: tr' => safe_removals false tr'
  | EvRemove _ :: tr' => negb is_open && safe_removals is_open tr'
  | _ :: tr' => safe_removals is_open tr'
  end.

Definition never_removed_while_open (tr : list event) : Prop :=
  safe_removals false tr = true.

(** The vision call was made and raised. *)
Definition vision_raised (env : Env) (tr : list event) : Prop :=
  exists prompt path,
    In (EvVision prompt path) tr /\ vision_generate_content env prompt path = None.

(** The retrieval parameters of the calls to the store, in order. *)
Fixpoint rpc_calls (tr : list event) : list (Q * nat) :=
  match tr with
  | [] => []
  | EvRpc t c :: tr' => (t, c) :: rpc_calls tr'
  | _ :: tr' => rpc_calls tr'
  end.

(** The batches handed to [add_documents], in order. *)
Fixpoint batch_writes (tr : list event) : list (list chunk) :=
  match tr with
  | [] => []
  | EvAddDocuments b :: tr' => b :: batch_writes tr'
  | _ :: tr' => batch_writes tr'
  end.

(** The prompts sent to the text model, in order. *)
Fixpoint prompts_sent (tr : list event) : list string :=
  match tr with
  | [] => []
  | EvGenerate p :: tr' => p :: prompts_sent tr'
  | _ :: tr' => prompts_sent tr'
  end.

Definition extend (w : world) (evs : list event) : world :=
  {| files := files w; img := img w; trace := trace w ++ evs |}.

(** Every call of [add_documents] recorded in [rest] was accepted by the
    store; [seen] is the trace before [rest]. *)
Fixpoint writes_accepted (env : Env) (seen rest : list event) : bool :=
  match rest with
  | [] => true
  | e :: rest' =>
      match e with
      | EvAddDocuments b => add_documents_ok env seen b
      | _ => true
      end && writes_accepted env (seen ++ [e]) rest'
  end.

(** The ways [grade_image] leaves once the image is saved. *)
Inductive exit_path : Type :=
| ContextNotFound
| UnreadableImage
| VisionFailed
| ReplyWithoutText
| ParseFailed
| Graded.

Definition exit_status (x : exit_path) : nat :=
  match x with
  | ContextNotFound => 404
  | Graded => 200
  | _ => 500
  end.

(** What happens to the image on each of them, after the retrieval. *)
Definition exit_events (x : exit_path) (prompt path : string) : list event :=
  match x with
  | ContextNotFound | UnreadableImage => [EvRemove path]
  | VisionFailed | ParseFailed | Graded =>
      [EvOpen path; EvVision prompt path; EvClose; EvRemove path]
  | ReplyWithoutText =>
      [EvOpen path; EvVision prompt path; EvClose; EvClose; EvRemove path]
  end.

(** The reply of the vision model on each of them, when it was called. *)
Definition exit_reply (x : exit_path) (reply : option (option string)) : Prop :=
  match x with
  | ContextNotFound | UnreadableImage => True
  | VisionFailed => reply = None
  | ReplyWithoutText => reply = Some None
  | ParseFailed | Graded => exists raw, reply = Some (Some raw)
  end.

(** Where [file.save] puts an upload. *)
Definition saved_path (env : Env) (name : string) : string :=
  App.UPLOAD_FOLDER +:+ "/" +:+ secure_filename env name.

(** The events of one retrieval: the embedding call, then the store call
    when the embedding succeeded. *)
Inductive retrieval_events (q : string) (t : Q) (c : nat) : list event -> Prop :=
| embed_only : retrieval_events q t c [EvEmbed q]
| embed_then_rpc : retrieval_events q t c [EvEmbed q; EvRpc t c].

(** ** The interactive part of [quizadded.py]

    The upload section (lines 64 to 99) and the main loop (lines 209 to
    226) are code of the script itself.  What the student does at the
    prompt of the main loop is given as a list: a line typed, or Ctrl-C;
    when the list has run out the input has ended, and [console.input]
    raises [EOFError]. *)

Module QuizAddedScript.




(** The border of the report card: [red] below 60 percent. *)
Definition report_style (percentage : Q) : string :=
  if Qlt_le_dec percentage 60 then "red" else "green".

(** What the main loop does with one line. *)
Inductive command : Type :=
| Leave
| Quiz (topic : string)
| Ask (question : string)
| Ignore.

Definition route (line : string) : command :=
  let user_input := PyStr.strip line in
  if String.eqb (PyStr.lower user_input) "exit"
     || String.eqb (PyStr.lower user_input) "quit"
  then Leave
  else if PyStr.startswith "quiz " (PyStr.lower user_input)
  then
    let topic := PyStr.strip (PyStr.drop 5 user_input) in
    Quiz topic
  else if negb (String.eqb user_input EmptyString)
  then Ask user_input
  else Ignore.

(** What happens at the prompt of the main loop. *)
Inductive key : Type :=
| Typed (line : string)
| CtrlC.

(** [while True: ...].  Only the [console.input] is inside a [try], and
    its [except] clause names [KeyboardInterrupt] alone. *)
Fixpoint main_loop (env : Env) (keys : list key) : M unit :=
  match keys with
  | [] => raise EOFError
  | CtrlC :: _ => ret tt
  | Typed line :: rest =>
      match route line with
      | Leave => ret tt
      | Quiz topic => QuizAdded.start_quiz env topic ;;; main_loop env rest
      | Ask question => QuizAdded.ask_tutor env question ;;; main_loop env rest
      | Ignore => main_loop env rest
      end
  end.

End QuizAddedScript.

(** ** Further observations on traces *)

(** The pauses taken, in order. *)
Fixpoint pauses (tr : list event) : list nat :=
  match tr with
  | [] => []
  | EvSleep n :: tr' => n :: pauses tr'
  | _ :: tr' => pauses tr'
  end.

(** The closing messages printed on the console: an answer panel, a report
    card or a failure. *)
Fixpoint messages (tr : list event) : list event :=
  match tr with
  | [] => []
  | EvPanel t :: tr' => EvPanel t :: messages tr'
  | EvReport s p :: tr' => EvReport s p :: messages tr'
  | EvFailed e :: tr' => EvFailed e :: messages tr'
  | _ :: tr' => messages tr'
  end.

(** The prompts sent to the vision model, in order. *)
Fixpoint vision_prompts (tr : list event) : list string :=
  match tr with
  | [] => []
  | EvVision p _ :: tr' => p :: vision_prompts tr'
  | _ :: tr' => vision_prompts tr'
  end.

(** Every character of the text is whitespace. *)
Fixpoint all_space (s : string) : bool :=
  match s with
  | EmptyString => true
  | String a s' => PyStr.isspace a && all_space s'
  end.

(** ** Observations on retrieval and quizzes *)

(** A row of the store whose [content] is the string [s]. *)
Definition has_content (row : json) (s : string) : Prop :=
  Py.getitem row "content" = Ok (JStr s).

(** What the exam loop needs of a question to get through its turn: the
    keys [question], [options] (something iterable) and [answer] (a
    string). *)
Definition usable (q : json) : bool :=
  match Py.getitem q "question" with
  | Raise _ => false
  | Ok _ =>
      match Py.getitem q "options" with
      | Raise _ => false
      | Ok options =>
          match Py.iter options with
          | Raise _ => false
          | Ok _ =>
              match Py.getitem q "answer" with
              | Ok (JStr _) => true
              | _ => false
              end
          end
      end
  end.

Definition answerable (q : json) (label : string) : Prop :=
  usable q = true /\ Py.getitem q "answer" = Ok (JStr label).

(** The judgement of one answer: both sides in upper case, the stored
    answer cut at its first closing parenthesis and trimmed. *)
Definition judged_correct (chosen stored : string) : bool :=
  String.eqb (PyStr.upper chosen)
             (PyStr.upper (PyStr.strip (PyStr.before ")" stored))).

(** The number of answers judged correct: [chosen] are the answers the
    prompt returned, [labels] the stored ones, question by question. *)
Fixpoint correct_count (chosen labels : list string) : Z :=
  match chosen, labels with
  | c :: cs, stored :: rest =>
      (if judged_correct c stored then 1 else 0) + correct_count cs rest
  | _, _ => 0
  end.

(** Turn [i] gets through: the question has what the loop reads, the
    console renders its line, the prompt returns an answer, and after a
    wrong answer the console renders the line that shows the stored
    one. *)
Definition passes (env : Env) (i : nat) (q : json) : bool :=
  usable q &&
  match Py.getitem q "question", Py.getitem q "answer", prompt_ask env i with
  | Ok text, Ok (JStr stored), Ok typed =>
      console_renders env (QuizAdded.question_line i text) &&
      (judged_correct typed stored
       || console_renders env (QuizAdded.wrong_line (JStr stored)))
  | _, _, _ => false
  end.

(** Every turn gets through, the first question having index [i]. *)
Fixpoint all_pass (env : Env) (i : nat) (qs : list json) : bool :=
  match qs with
  | [] => true
  | q :: rest => passes env i q && all_pass env (S i) rest
  end.

(** The dialogue of an exam that gets through: [chosen] are the answers
    the prompt returns, from question [i] on. *)
Fixpoint dialogue (env : Env) (i : nat) (qs : list json) (chosen : list string) : Prop :=
  match qs, chosen with
  | [], [] => True
  | q :: rest, c :: cs =>
      prompt_ask env i = Ok c /\ passes env i q = true /\ dialogue env (S i) rest cs
  | _, _ => False
  end.

(** Events of the exam dialogue. *)
Definition console_event (e : event) : bool :=
  match e with
  | EvQuestion _ _ | EvOption _ | EvAsk _ | EvVerdict _ => true
  | _ => false
  end.

(** The questions put to the student, by index, in order. *)
Fixpoint asked (tr : list event) : list nat :=
  match tr with
  | [] => []
  | EvAsk i :: tr' => i :: asked tr'
  | _ :: tr' => asked tr'
  end.

(** The report cards printed, in order. *)
Fixpoint reports (tr : list event) : list (Z * Q) :=
  match tr with
  | [] => []
  | EvReport s p :: tr' => (s, p) :: reports tr'
  | _ :: tr' => reports tr'
  end.

(** A quiz question as the prompt asks for it. *)
Definition question (text : string) (options : list string) (answer : string) : json :=
  JObj [("question"%string, JStr text);
        ("options"%string, JArr (map JStr options));
        ("answer"%string, JStr answer)].

(** ** The specification's wording, for comparison *)

Module Spec.



(** The leading letter of an option such as [A) Option 1]. *)
Definition leading_letter (opt : json) : option string :=
  match opt with
  | JStr (String a _) => Some (String a EmptyString)
  | _ => None
  end.

(** Section 4.6: a question has a prompt, at least two options, and an
    answer label that matches the leading letter of one option. *)
Definition valid_question (q : json) : bool :=
  match Py.getitem q "question", Py.getitem q "options", Py.getitem q "answer" with
  | Ok (JStr _), Ok (JArr options), Ok (JStr label) =>
      (2 <=? length options)%nat &&
      existsb (fun o =>
                 match leading_letter o with
                 | Some l => String.eqb (PyStr.upper l) (PyStr.upper label)
                 | None => false
                 end) options
  | _, _, _ => false
  end.

(** Section 4.5: the outcome of the extraction. *)
Inductive extraction : Type :=
| Parsed (v : json)
| MalformedOutput.

Fixpoint occurs (c : ascii) (s : string) : bool :=
  match s with
  | EmptyString => false
  | String a s' => Ascii.eqb a c || occurs c s'
  end.

(** Step 1: the text from the first opening bracket to the last closing
    bracket, when both are there. *)
Definition bracket_slice (opening closing : ascii) (raw : string) : option string :=
  if occurs opening raw && occurs closing raw
  then Some (PyStr.slice raw (PyStr.find opening raw) (PyStr.rfind closing raw + 1))
  else None.

(** Steps 1 to 3: parse the slice; if that fails, strip the code-fence
    markers from the raw text and parse the remainder; if both fail,
    [MalformedOutput]. *)
Definition extractJson (opening closing : ascii) (raw : string) : extraction :=
  match
    match bracket_slice opening closing raw with
    | Some text => Json.loads text
    | None => None
    end
  with
  | Some v => Parsed v
  | None =>
      match Json.loads (strip_fences raw) with
      | Some v => Parsed v
      | None => MalformedOutput
      end
  end.

End Spec.

(** How a handler's extraction reads in the terms of the specification:
    any exception is a failure. *)
Definition as_extraction (o : outcome json) : Spec.extraction :=
  match o with
  | Ok v => Spec.Parsed v
  | Raise _ => Spec.MalformedOutput
  end.

(** The extraction of [grade_image], lines 215 to 228 without the
    deletion of the file in between. *)
Definition grade_extract (raw_text : string) : outcome json :=
  json_loads (App.grade_clean_json raw_text).

(** The extraction of [generate_quiz]. *)
Definition quiz_extract (raw_text : string) : outcome json :=
  json_loads (App.quiz_clean_json raw_text).

(** ** Sample collaborators *)

Module Demo.

(** A row as the store returns it. *)
Definition row (content : string) : json :=
  JObj [("id"%string, JNum "1"); ("content"%string, JStr content);
        ("similarity"%string, JNum "0.9")].

(** Collaborators that answer every call the same way: the store with
    [data], the text model with [chat], the vision model with [vision];
    the student answers the questions with [answers], in order, and the
    console renders what it is given. *)
Definition env (data : option json) (chat vision : option (option string))
    (readable : bool) (answers : list string) : Env :=
  {| secure_filename := fun name => name;
     embed_query := fun _ => Some [0.1%Q; 0.2%Q];
     match_documents := fun _ _ _ => data;
     generate_content := fun _ => chat;
     vision_generate_content := fun _ _ => vision;
     image_readable := fun _ => readable;
     loader_load := fun _ => Some ["page one"%string];
     split_documents := fun _ => Some ["c1"; "c2"; "c3"]%string;
     add_documents_ok := fun _ _ => true;
     prompt_ask := fun i => Ok (nth i answers "A"%string);
     console_renders := fun _ => true |}.

(** The same, with a PDF loader that raises. *)
Definition env_unreadable_pdf : Env :=
  {| secure_filename := fun name => name;
     embed_query := fun _ => Some [0.1%Q; 0.2%Q];
     match_documents := fun _ _ _ => None;
     generate_content := fun _ => None;
     vision_generate_content := fun _ _ => None;
     image_readable := fun _ => false;
     loader_load := fun _ => None;
     split_documents := fun _ => Some ["c1"; "c2"; "c3"]%string;
     add_documents_ok := fun _ _ => true;
     prompt_ask := fun _ => Ok "A"%string;
     console_renders := fun _ => true |}.

Definition syllabus : option json := Some (JArr [row "Ohm's law: V = IR"]).

Definition no_match : option json := Some (JArr []).

(** The quiz of the specification's example: answers A, B, C, D, A. *)
Definition five_questions : string :=
  PyStr.dq "[{'question': 'Q1', 'options': ['A) a', 'B) b', 'C) c', 'D) d'], 'answer': 'A'},
  {'question': 'Q2', 'options': ['A) a', 'B) b', 'C) c', 'D) d'], 'answer': 'B'},
  {'question': 'Q3', 'options': ['A) a', 'B) b', 'C) c', 'D) d'], 'answer': 'C'},
  {'question': 'Q4', 'options': ['A) a', 'B) b', 'C) c', 'D) d'], 'answer': 'D'},
  {'question': 'Q5', 'options': ['A) a', 'B) b', 'C) c', 'D) d'], 'answer': 'A'}]".

(** A quiz of one well-formed question. *)
Definition one_question : string :=
  PyStr.dq "[{'question': 'Q1', 'options': ['A) a', 'B) b'], 'answer': 'A'}]".



Definition graded_reply : option (option string) :=
  Some (Some (PyStr.dq "Here you go: {'score': '7/10', 'feedback': 'Units missing.'}")).

(** A reply wrapped in a fenced code block. *)
Definition fenced_object : string :=
  PyStr.lines ["```json"; PyStr.dq "{'a':1}"; "```"]%string.

(** A reply surrounded by commentary. *)
Definition noisy_array : string := PyStr.dq "noise [ {'a':1} ] noise".

(** A reply that is a JSON array of two objects. *)
Definition two_grades : string :=
  PyStr.dq "[{'score': '7/10'}, {'score': '8/10'}]".

(** The student of the specification's example. *)
Definition student : Env :=
  env syllabus (Some (Some five_questions)) None true ["A"; "B"; "C"; "C"; "A"]%string.

End Demo.

(** ** What a run of the console scripts looks like *)

(** What a run of a tutor looks like: [evs] are its events. *)
Definition tutor_outcome (env : Env) (banner : fstring)
    (prompt_of : string -> string -> string) (question : string)
    (r : outcome unit) (evs : list event) : Prop :=
  Forall (fun call => call = (0.5%Q, 4%nat)) (rpc_calls evs) /\
  (console_renders env banner = false -> r = Raise MarkupError /\ evs = []) /\
  ((r = Ok tt /\
    exists pre m,
      evs = pre ++ [m] /\ messages pre = [] /\
      ((exists e, m = EvFailed e) \/
       (exists context text,
          m = EvPanel text /\
          prompts_sent pre = [prompt_of context question] /\
          generate_content env (prompt_of context question) = Some (Some text)))) \/
   (r = Raise MarkupError /\ messages evs = [])).

(** What a run of [start_quiz] looks like: [evs] are its events. *)
Definition quiz_outcome (env : Env) (topic : string)
    (r : outcome unit) (evs : list event) : Prop :=
  Forall (fun call => call = (0.4%Q, 5%nat)) (rpc_calls evs) /\
  (length (prompts_sent evs) <= 1)%nat /\
  (console_renders env (QuizAdded.banner topic) = false ->
   r = Raise MarkupError /\ evs = []) /\
  ((r = Ok tt /\
    exists pre m,
      evs = pre ++ [m] /\ messages pre = [] /\
      ((exists e, m = EvFailed e) \/
       (exists score, m = EvReport score (QuizAdded.percentage score)))) \/
   (r = Raise MarkupError /\ messages evs = []) \/
   (r = Raise KeyboardInterrupt /\ messages evs = [] /\
    exists j, prompt_ask env j = Raise KeyboardInterrupt)).

(** ** Further sample collaborators *)

Module Samples.

(** A store that accepts the first [n] writes and refuses every later
    one; everything else answers as in [Demo.env]. *)
Definition refusing_after (n : nat) : Env :=
  {| secure_filename := fun name => name;
     embed_query := fun _ => Some [0.1%Q; 0.2%Q];
     match_documents := fun _ _ _ => Demo.syllabus;
     generate_content := fun _ => Some (Some "Ohm's law relates V, I and R."%string);
     vision_generate_content := fun _ _ => None;
     image_readable := fun _ => true;
     loader_load := fun _ => Some ["page one"%string];
     split_documents := fun _ => Some ["c1"; "c2"; "c3"]%string;
     add_documents_ok := fun seen _ => (length (batch_writes seen) <? n)%nat;
     prompt_ask := fun _ => Ok "A"%string;
     console_renders := fun _ => true |}.

(** An embedding service that is down. *)
Definition embedding_down : Env :=
  {| secure_filename := fun name => name;
     embed_query := fun _ => None;
     match_documents := fun _ _ _ => Demo.syllabus;
     generate_content := fun _ => Some (Some "Ohm's law relates V, I and R."%string);
     vision_generate_content := fun _ _ => None;
     image_readable := fun _ => true;
     loader_load := fun _ => Some ["page one"%string];
     split_documents := fun _ => Some ["c1"; "c2"; "c3"]%string;
     add_documents_ok := fun _ _ => true;
     prompt_ask := fun _ => Ok "A"%string;
     console_renders := fun _ => true |}.

(** A [secure_filename] that keeps nothing of the name it is given. *)
Definition name_emptied : Env :=
  {| secure_filename := fun _ => EmptyString;
     embed_query := fun _ => Some [0.1%Q; 0.2%Q];
     match_documents := fun _ _ _ => Demo.syllabus;
     generate_content := fun _ => None;
     vision_generate_content := fun _ _ => None;
     image_readable := fun _ => true;
     loader_load := fun _ => Some ["page one"%string];
     split_documents := fun _ => Some ["c1"; "c2"; "c3"]%string;
     add_documents_ok := fun _ _ => true;
     prompt_ask := fun _ => Ok "A"%string;
     console_renders := fun _ => true |}.

(** A part that is the [str] value [bad], or shows the decoded string
    [bad]. *)
Definition shows (bad : string) (p : part) : bool :=
  match p with
  | Str s | Val (JStr s) => String.eqb s bad
  | _ => false
  end.

(** A console that raises on every text into which [bad] was
    interpolated, as [rich] does for a closing tag such as [[/x]]; the
    text model answers with [chat]. *)
Definition console_rejecting (bad : string) (chat : option (option string)) : Env :=
  {| secure_filename := fun name => name;
     embed_query := fun _ => Some [0.1%Q; 0.2%Q];
     match_documents := fun _ _ _ => Demo.syllabus;
     generate_content := fun _ => chat;
     vision_generate_content := fun _ _ => None;
     image_readable := fun _ => true;
     loader_load := fun _ => Some ["page one"%string];
     split_documents := fun _ => Some ["c1"; "c2"; "c3"]%string;
     add_documents_ok := fun _ _ => true;
     prompt_ask := fun _ => Ok "A"%string;
     console_renders := fun text => negb (existsb (shows bad) text) |}.

(** A student who presses Ctrl-C at the first question. *)
Definition interrupting (chat : option (option string)) : Env :=
  {| secure_filename := fun name => name;
     embed_query := fun _ => Some [0.1%Q; 0.2%Q];
     match_documents := fun _ _ _ => Demo.syllabus;
     generate_content := fun _ => chat;
     vision_generate_content := fun _ _ => None;
     image_readable := fun _ => true;
     loader_load := fun _ => Some ["page one"%string];
     split_documents := fun _ => Some ["c1"; "c2"; "c3"]%string;
     add_documents_ok := fun _ _ => true;
     prompt_ask := fun _ => Raise KeyboardInterrupt;
     console_renders := fun _ => true |}.

(** A quiz of one question whose text holds a closing tag. *)
Definition tagged_question : string :=
  PyStr.dq "[{'question': '[/x]', 'options': ['A) a', 'B) b'], 'answer': 'A'}]".

End Samples.

(** A case analysis on the eight bits of a character. *)
Ltac by_cases_on_ascii a :=
  destruct a as [[] [] [] [] [] [] [] []]; try reflexivity; try discriminate.

(** * Properties *)

(** ** What the operations on decoded values can raise

    None of them raises [KeyboardInterrupt]: an [except Exception]
    clause catches whatever they raise. *)

Lemma getitem_exception v key e : Py.getitem v key = Raise e -> is_exception e = true.
Proof.
  destruct v; simpl; try (intros [= <-]; reflexivity).
  destruct (Json.dict_get key members); intros [= <-]. reflexivity.
Qed.

Lemma iter_exception v e : Py.iter v = Raise e -> is_exception e = true.
Proof. destruct v; simpl; intros [= <-]; reflexivity. Qed.

Lemma all_str_exception l e : Py.all_str l = Raise e -> is_exception e = true.
Proof.
  induction l as [|x l IH]; simpl; [discriminate|].
  destruct x; try (intros [= <-]; reflexivity).
  destruct (Py.all_str l); [discriminate|]. intros [= <-]. apply IH. reflexivity.
Qed.

Lemma getitems_exception items key e :
  Py.getitems items key = Raise e -> is_exception e = true.
Proof.
  induction items as [|m items IH]; simpl; [discriminate|].
  destruct (Py.getitem m key) eqn:Hm.
  - destruct (Py.getitems items key); [discriminate|]. intros [= <-]. apply IH. reflexivity.
  - intros [= <-]. exact (getitem_exception _ _ _ Hm).
Qed.

Lemma join_contents_exception m e :
  Store.join_contents m = Raise e -> is_exception e = true.
Proof.
  unfold Store.join_contents.
  destruct (Py.iter m) as [items|e0] eqn:Hiter.
  2: { intros [= <-]. exact (iter_exception _ _ Hiter). }
  destruct (Py.getitems items "content") as [cs|e0] eqn:Hget.
  2: { intros [= <-]. exact (getitems_exception _ _ _ Hget). }
  destruct (Py.all_str cs) as [strs|e0] eqn:Hstr; [discriminate|].
  intros [= <-]. exact (all_str_exception _ _ Hstr).
Qed.

Lemma json_loads_exception s e : json_loads s = Raise e -> is_exception e = true.
Proof. unfold json_loads. destruct (Json.loads s); intros [= <-]. reflexivity. Qed.

Lemma extract_exception raw e : QuizAdded.extract raw = Raise e -> is_exception e = true.
Proof.
  unfold QuizAdded.extract, QuizAdded.extract_slice.
  destruct (_ || _).
  - intros [= <-]. reflexivity.
  - destruct (json_loads (PyStr.slice _ _ _)) as [v|e0] eqn:Hslice; [discriminate|].
    destruct e0; try (intros [= <-]; reflexivity);
      try (pose proof (json_loads_exception _ _ Hslice); intros [= <-]; assumption).
    apply json_loads_exception.
Qed.

Lemma correct_letter_exception answer e :
  QuizAdded.correct_letter answer = Raise e -> is_exception e = true.
Proof. destruct answer; simpl; intros [= <-]; reflexivity. Qed.


Example find_demo : PyStr.find "["%char "ab[c[" = 2. Proof. reflexivity. Qed.
Example rfind_demo : PyStr.rfind "]"%char "a]b]c" = 3. Proof. reflexivity. Qed.
Example slice_demo : PyStr.slice "noise [1] noise" 6 9 = "[1]"%string. Proof. reflexivity. Qed.
Example slice_neg : PyStr.slice "abcdef" (-2) 100 = "ef"%string. Proof. reflexivity. Qed.
Example slice_empty : PyStr.slice "abcdef" 4 2 = EmptyString. Proof. reflexivity. Qed.
Example replace_demo : PyStr.replace "```" EmptyString "```x``````y`" = "xy`"%string. Proof. reflexivity. Qed.
Example strip_demo : PyStr.strip "  a b  " = "a b"%string. Proof. reflexivity. Qed.
Example before_demo : PyStr.before ")"%char " a) x)" = " a"%string. Proof. reflexivity. Qed.
Example upper_demo : PyStr.upper "a1z{" = "A1Z{"%string. Proof. reflexivity. Qed.
Example join_demo : PyStr.join "--" ["a"; "b"; "c"]%string = "a--b--c"%string. Proof. reflexivity. Qed.

Example loads_demo1 : Json.loads (PyStr.dq "[ {'a':1} ]") = Some (JArr [JObj [("a"%string, JNum "1")]]).
Proof. reflexivity. Qed.

(** ** Traces *)

Section TraceFacts.

Lemma removed_paths_lifecycle (tr : list event) :
  removed_paths (lifecycle tr) = removed_paths tr.
Proof. induction tr as [|[] tr IH]; simpl; rewrite ?IH; reflexivity. Qed.

Lemma lifecycle_app (a b : list event) :
  lifecycle (a ++ b) = lifecycle a ++ lifecycle b.
Proof. induction a as [|[] a IH]; simpl; rewrite ?IH; reflexivity. Qed.

Lemma removed_paths_app (a b : list event) :
  removed_paths (a ++ b) = removed_paths a ++ removed_paths b.
Proof. induction a as [|[] a IH]; simpl; rewrite ?IH; reflexivity. Qed.

Lemma rpc_calls_app (a b : list event) :
  rpc_calls (a ++ b) = rpc_calls a ++ rpc_calls b.
Proof. induction a as [|[] a IH]; simpl; rewrite ?IH; reflexivity. Qed.

Lemma batch_writes_app (a b : list event) :
  batch_writes (a ++ b) = batch_writes a ++ batch_writes b.
Proof. induction a as [|[] a IH]; simpl; rewrite ?IH; reflexivity. Qed.

Lemma safe_removals_lifecycle (o : bool) (tr : list event) :
  safe_removals o (lifecycle tr) = safe_removals o tr.
Proof.
  revert o; induction tr as [|[] tr IH]; intros o; simpl; rewrite ?IH; reflexivity.
Qed.

Lemma writes_accepted_app (env : Env) (seen a b : list event) :
  writes_accepted env seen (a ++ b) =
  writes_accepted env seen a && writes_accepted env (seen ++ a) b.
Proof.
  revert seen; induction a as [|e a IH]; intros seen; simpl.
  - rewrite app_nil_r. reflexivity.
  - rewrite IH, <- app_assoc, andb_assoc. reflexivity.
Qed.

End TraceFacts.

(** ** Retrieval: the run of [get_syllabus_context] *)

Lemma retrieval_events_lifecycle q t c evs :
  retrieval_events q t c evs -> lifecycle evs = [].
Proof. destruct 1; reflexivity. Qed.

Lemma retrieval_events_no_vision q t c evs prompt path :
  retrieval_events q t c evs -> ~ In (EvVision prompt path) evs.
Proof. destruct 1; simpl; intuition discriminate. Qed.

(** [get_syllabus_context] never raises and touches neither the files nor
    the image handle. *)
Lemma get_syllabus_context_run env q t c w :
  exists r evs,
    App.get_syllabus_context env q t c w = (Ok r, extend w evs) /\
    retrieval_events q (default 0.5%Q t) (default 4%nat c) evs.
Proof.
  unfold App.get_syllabus_context, try_except, bind, Store.embed, Store.rpc,
    external, emit, lift, ret, raise, extend; simpl.
  destruct (embed_query env q) as [v|]; simpl.
  2: { exists None, [EvEmbed q]. split; [reflexivity | constructor]. }
  destruct (match_documents env v _ _) as [m|]; simpl;
    [destruct (Py.truthy m); simpl;
       [destruct (Store.join_contents m) as [j|e] eqn:Hj;
          [|rewrite (join_contents_exception _ _ Hj)]; simpl|]|].
  1: exists (Some j), [EvEmbed q; EvRpc (default 0.5%Q t) (default 4%nat c)].
  2-4: exists None, [EvEmbed q; EvRpc (default 0.5%Q t) (default 4%nat c)].
  all: rewrite <- app_assoc; split; [reflexivity | constructor].
Qed.

(** ** Grading: every way out of [grade_image] *)

Lemma grade_image_exits env fs name topic :
  name <> EmptyString -> secure_filename env name <> EmptyString ->
  let p := saved_path env name in
  exists x ctx evs resp w',
    App.grade_image env (Some name) (Some topic) (initial fs) = (Ok resp, w') /\
    files w' = fs ∖ {[ p ]} /\
    status resp = exit_status x /\
    retrieval_events topic 0.5%Q 4%nat evs /\
    trace w' = EvSave p :: evs ++ exit_events x (App.grade_prompt topic ctx) p /\
    exit_reply x (vision_generate_content env (App.grade_prompt topic ctx) p).
Proof.
  intros Hname Hsec p. unfold App.grade_image.
  apply String.eqb_neq in Hname. rewrite Hname.
  unfold Os.save. fold (saved_path env name). fold p.
  apply String.eqb_neq in Hsec. rewrite Hsec.
  unfold bind at 1. unfold try_except, App.grade_body.
  unfold bind at 1.
  destruct (get_syllabus_context_run env topic None None
    {| files := files (initial fs) ∪ {[p]}; img := img (initial fs);
       trace := trace (initial fs) ++ [EvSave p] |})
    as (r & evs & Hrun & Hevs).
  rewrite Hrun. clear Hrun. simpl in Hevs.
  assert (Hin : bool_decide (p ∈ fs ∪ {[p]}) = true)
    by (apply bool_decide_eq_true; set_solver).
  assert (Hout : bool_decide (p ∈ (fs ∪ {[p]}) ∖ {[p]}) = false)
    by (apply bool_decide_eq_false; set_solver).
  assert (Hfs : (fs ∪ {[p]}) ∖ {[p]} = fs ∖ {[p]}) by set_solver.
  unfold App.grade_cleanup, App.remove_if_exists, Os.exists_, Os.remove,
    Pil.open, Pil.close, Gen.vision, Gen.text, bind, try_except, try_bare, emit, ret,
    raise, lift, external, extend; simpl.
  set (ctx := default EmptyString r).
  destruct (Py.truthy_str r) eqn:Hr; simpl; rewrite ?Hin; simpl; rewrite ?Hin; simpl.
  - destruct (image_readable env p) eqn:Hread; simpl;
      rewrite ?Hin; simpl; rewrite ?Hin; simpl.
    + destruct (vision_generate_content env _ p) as [[raw|]|] eqn:Hv; simpl;
        rewrite ?Hin; simpl; rewrite ?Hin; simpl.
      * destruct (json_loads _) as [graded|e] eqn:Hj;
          [|rewrite (json_loads_exception _ _ Hj)]; simpl; rewrite ?Hout; simpl.
        1: exists Graded, ctx, evs. 2: exists ParseFailed, ctx, evs.
        all: eexists _, _; split; [reflexivity|]; simpl.
        all: repeat split; try assumption; try (rewrite <- ?app_assoc; reflexivity).
        all: rewrite Hv; eexists; reflexivity.
      * exists ReplyWithoutText, ctx, evs.
        eexists _, _; split; [reflexivity|]; simpl.
        repeat split; try assumption; rewrite <- ?app_assoc; reflexivity.
      * exists VisionFailed, ctx, evs.
        eexists _, _; split; [reflexivity|]; simpl.
        repeat split; try assumption; rewrite <- ?app_assoc; reflexivity.
    + exists UnreadableImage, ctx, evs.
      eexists _, _; split; [reflexivity|]; simpl.
      repeat split; try assumption; rewrite <- ?app_assoc; reflexivity.
  - exists ContextNotFound, ctx, evs.
    eexists _, _; split; [reflexivity|]; simpl.
    repeat split; try assumption; rewrite <- ?app_assoc; reflexivity.
Qed.

(** C1. Once the image has been saved, [grade_image] calls [os.remove]
    exactly once, on the saved file, whatever the way out (graded, context
    not found, unreadable image, vision call failed, reply without text,
    reply that does not parse), and the file is gone afterwards. *)
Theorem grade_image_deletes_exactly_once env fs name topic :
  name <> EmptyString -> secure_filename env name <> EmptyString ->
  exists resp w',
    App.grade_image env (Some name) (Some topic) (initial fs) = (Ok resp, w') /\
    In (EvSave (saved_path env name)) (trace w') /\
    removed_paths (trace w') = [saved_path env name] /\
    saved_path env name ∉ files w'.
Proof.
  intros Hname Hsec.
  destruct (grade_image_exits env fs name topic Hname Hsec)
    as (x & ctx & evs & resp & w' & Hrun & Hfiles & _ & Hevs & Htrace & _).
  exists resp, w'. split; [exact Hrun|].
  rewrite Htrace, Hfiles. split; [left; reflexivity|]. split; [|set_solver].
  rewrite <- (removed_paths_lifecycle (_ :: _)). simpl.
  rewrite lifecycle_app, (retrieval_events_lifecycle _ _ _ _ Hevs).
  destruct x; reflexivity.
Qed.

Lemma grade_image_deletes_exactly_once_witness :
  exists resp w',
    App.grade_image (Demo.env Demo.syllabus None None true []) (Some "a.png"%string)
      (Some "ohm"%string) (initial ∅) = (Ok resp, w') /\
    In (EvSave "uploads/a.png"%string) (trace w') /\
    removed_paths (trace w') = ["uploads/a.png"%string] /\
    "uploads/a.png"%string ∉ files w'.
Proof.
  apply (grade_image_deletes_exactly_once
           (Demo.env Demo.syllabus None None true []) ∅ "a.png" "ohm");
    discriminate.
Defined.

(** C2. In every execution of [grade_image] no [os.remove] happens while
    the image handle is open; and when the reply was graded, or when the
    vision call raised, the events in the life of the image are: opened,
    closed once, deleted, in this order. *)
Theorem grade_image_closes_before_deleting env fs image topic :
  let run := App.grade_image env image topic (initial fs) in
  let p := saved_path env (default EmptyString image) in
  never_removed_while_open (trace (snd run)) /\
  ((exists v, fst run = Ok (Resp 200 (Json v))) \/ vision_raised env (trace (snd run)) ->
   lifecycle (trace (snd run)) = [EvOpen p; EvClose; EvRemove p]).
Proof.
  unfold never_removed_while_open, vision_raised.
  assert (Hidle : forall (r : outcome response),
            (forall v, r <> Ok (Resp 200 (Json v))) ->
            safe_removals false [] = true /\
            ((exists v, r = Ok (Resp 200 (Json v))) \/
             (exists prompt path, In (EvVision prompt path) [] /\
                vision_generate_content env prompt path = None) ->
             lifecycle [] =
             [EvOpen (saved_path env (default EmptyString image)); EvClose;
              EvRemove (saved_path env (default EmptyString image))])).
  { intros r Hr. split; [reflexivity|].
    intros [[v Hv]|(pr & pa & [] & _)]. exfalso; exact (Hr v Hv). }
  destruct image as [name|], topic as [topic|];
    try (apply Hidle; intros v; discriminate).
  destruct (String.eqb name EmptyString) eqn:Hname.
  { unfold App.grade_image. rewrite Hname. apply Hidle; intros v; discriminate. }
  destruct (String.eqb (secure_filename env name) EmptyString) eqn:Hsec.
  { unfold App.grade_image, Os.save, bind, raise. rewrite Hname, Hsec.
    apply Hidle; intros v; discriminate. }
  clear Hidle.
  apply String.eqb_neq in Hname, Hsec.
  destruct (grade_image_exits env fs name topic Hname Hsec)
    as (x & ctx & evs & resp & w' & Hrun & _ & Hstatus & Hevs & Htrace & Hreply).
  cbv zeta. rewrite Hrun; simpl. rewrite Htrace.
  assert (Hlife : lifecycle (EvSave (saved_path env name) :: evs ++
                    exit_events x (App.grade_prompt topic ctx) (saved_path env name))
                  = lifecycle (exit_events x (App.grade_prompt topic ctx) (saved_path env name))).
  { simpl. rewrite lifecycle_app, (retrieval_events_lifecycle _ _ _ _ Hevs). reflexivity. }
  split.
  - rewrite <- safe_removals_lifecycle, Hlife. destruct x; reflexivity.
  - rewrite Hlife. intros [[v Hv]|(pr & pa & Hin & Hnone)].
    + injection Hv as ->. destruct x; try discriminate. reflexivity.
    + destruct Hin as [Hin|Hin]; [discriminate|].
      apply in_app_or in Hin as [Hin|Hin];
        [exfalso; exact (retrieval_events_no_vision _ _ _ _ _ _ Hevs Hin)|].
      destruct x; simpl in Hin, Hreply;
        repeat (destruct Hin as [Hin|Hin]; try discriminate); try contradiction;
        try reflexivity.
      injection Hin as <- <-. rewrite Hnone in Hreply. discriminate.
Qed.

Lemma grade_image_closes_before_deleting_witness :
  lifecycle
    (trace (snd (App.grade_image (Demo.env Demo.syllabus None None true [])
                   (Some "a.png"%string) (Some "ohm"%string) (initial ∅)))) =
  [EvOpen "uploads/a.png"; EvClose; EvRemove "uploads/a.png"].
Proof.
  apply (grade_image_closes_before_deleting
           (Demo.env Demo.syllabus None None true []) ∅
           (Some "a.png"%string) (Some "ohm"%string)).
  right. eexists _, _. split; [|reflexivity].
  vm_compute. do 4 right. left. reflexivity.
Defined.

(** ** Ingestion: the batches of the upload loop *)

Section Range.

Local Open Scope nat_scope.

Lemma range_from_lookup fuel i stop step k :
  0 < step -> stop - i <= fuel ->
  Py.range_from fuel i stop step !! k =
  if i + k * step <? stop then Some (i + k * step) else None.
Proof.
  intros Hstep. revert i k. induction fuel as [|f IH]; intros i k Hfuel; simpl.
  - destruct (Nat.ltb_spec (i + k * step) stop); [nia | reflexivity].
  - destruct (Nat.ltb_spec i stop) as [Hi|Hi].
    + destruct k as [|k]; simpl.
      * rewrite Nat.add_0_r. apply Nat.ltb_lt in Hi. rewrite Hi. reflexivity.
      * rewrite IH by lia.
        replace (i + step + k * step) with (i + (step + k * step)) by lia.
        reflexivity.
    + destruct (Nat.ltb_spec (i + k * step) stop); [nia | reflexivity].
Qed.

(** The loop variable takes the values [0, step, 2 * step, ...] below
    [stop]: the fuel of [Py.range] is enough. *)
Lemma range_lookup stop step k :
  0 < step ->
  Py.range stop step !! k = if k * step <? stop then Some (k * step) else None.
Proof. intros H. unfold Py.range. rewrite range_from_lookup by lia. reflexivity. Qed.

Lemma range_length stop step :
  0 < step -> length (Py.range stop step) = Ingest.total_batches stop step.
Proof.
  intros Hstep. unfold Ingest.total_batches.
  set (m := (stop + step - 1) / step).
  assert (H1 : step * m <= stop + step - 1) by apply Nat.Div0.mul_div_le.
  assert (H2 : stop + step - 1 < step * S m) by (apply Nat.mul_succ_div_gt; lia).
  assert (Hle : length (Py.range stop step) <= m).
  { apply lookup_ge_None. rewrite range_lookup by assumption.
    destruct (Nat.ltb_spec (m * step) stop); [nia | reflexivity]. }
  destruct m as [|m']; [lia|].
  assert (Hgt : m' < length (Py.range stop step)).
  { apply lookup_lt_is_Some. rewrite range_lookup by assumption.
    destruct (Nat.ltb_spec (m' * step) stop); [eauto | nia]. }
  lia.
Qed.

Lemma range_from_concat {A} (l : list A) fuel i step :
  0 < step -> length l - i <= fuel ->
  concat (map (fun j => Py.slice l j (j + step))
              (Py.range_from fuel i (length l) step)) = drop i l.
Proof.
  intros Hstep. revert i. induction fuel as [|f IH]; intros i Hfuel; simpl.
  - rewrite drop_ge by lia. reflexivity.
  - destruct (Nat.ltb_spec i (length l)) as [Hi|Hi]; simpl.
    + rewrite IH by lia. unfold Py.slice.
      replace (i + step - i) with step by lia.
      rewrite <- (take_drop step (drop i l)) at 2. rewrite drop_drop. reflexivity.
    + rewrite drop_ge by lia. reflexivity.
Qed.

End Range.

Lemma extend_nil w : extend w [] = w.
Proof. destruct w; unfold extend; simpl. rewrite app_nil_r. reflexivity. Qed.

(** The loop stops at the first refused write; it never deletes a file. *)
Lemma upload_loop_run env batch_size pause (chunks : list chunk) (ixs : list nat) w :
  exists r evs,
    for_each ixs (fun i =>
      Store.add_documents env (Py.slice chunks i (i + batch_size)) ;;;
      emit (EvSleep pause)) w = (r, extend w evs) /\
    removed_paths evs = [] /\
    (writes_accepted env (trace w) evs = true <-> r = Ok tt) /\
    ((forall tr b, add_documents_ok env tr b = true) ->
     r = Ok tt /\
     batch_writes evs = map (fun i => Py.slice chunks i (i + batch_size)) ixs).
Proof.
  revert w. induction ixs as [|i ixs IH]; intros w; simpl.
  - exists (Ok tt), []. rewrite extend_nil. unfold ret. repeat split; reflexivity.
  - unfold bind at 1. unfold bind at 1. unfold Store.add_documents at 1.
    destruct (add_documents_ok env (trace w) _) eqn:Hok; simpl.
    + match goal with |- context [for_each ixs ?body ?w1] =>
        destruct (IH w1) as (r & evs & Hrun & Hrem & Hacc & Hall) end.
      rewrite Hrun.
      exists r, (EvAddDocuments (Py.slice chunks i (i + batch_size))
                 :: EvSleep pause :: evs).
      unfold extend in *; simpl in *. rewrite <- !app_assoc in *. simpl in *.
      split; [reflexivity|]. split; [assumption|]. split.
      * rewrite Hok. simpl. rewrite <- ?app_assoc. simpl. exact Hacc.
      * intros H. split; [apply Hall, H|]. f_equal. apply Hall, H.
    + exists (Raise (ExternalError "add_documents")),
        [EvAddDocuments (Py.slice chunks i (i + batch_size))].
      split; [reflexivity|]. split; [reflexivity|]. split.
      * simpl. rewrite Hok. simpl. split; discriminate.
      * intros Hall. rewrite Hall in Hok. discriminate.
Qed.

Lemma upload_batches_run env batch_size pause (chunks : list chunk) w :
  (0 < batch_size)%nat ->
  exists r evs,
    Ingest.upload_batches env batch_size pause chunks w = (r, extend w evs) /\
    removed_paths evs = [] /\
    (writes_accepted env (trace w) evs = true <-> r = Ok tt).
Proof.
  intros Hpos. unfold Ingest.upload_batches.
  destruct (Nat.eqb_spec batch_size 0) as [->|_]; [lia|].
  destruct (upload_loop_run env batch_size pause chunks
              (Py.range (length chunks) batch_size) w)
    as (r & evs & Hrun & Hrem & Hacc & _).
  exists r, evs. auto.
Qed.

(** The loop raises nothing but what the store raised. *)
Lemma upload_loop_exception env batch_size pause (chunks : list chunk) (ixs : list nat) :
  forall w e w',
    for_each ixs (fun i =>
      Store.add_documents env (Py.slice chunks i (i + batch_size)) ;;;
      emit (EvSleep pause)) w = (Raise e, w') ->
    e = ExternalError "add_documents".
Proof.
  induction ixs as [|i ixs IH]; intros w e w'; simpl; [discriminate|].
  unfold bind at 1. unfold bind at 1. unfold Store.add_documents at 1.
  destruct (add_documents_ok env (trace w) _); simpl.
  - apply IH.
  - intros [= <- _]. reflexivity.
Qed.

Lemma upload_batches_exception env batch_size pause (chunks : list chunk) w e w' :
  Ingest.upload_batches env batch_size pause chunks w = (Raise e, w') ->
  is_exception e = true.
Proof.
  unfold Ingest.upload_batches. destruct (batch_size =? 0)%nat.
  - intros [= <- _]. reflexivity.
  - intros H. apply upload_loop_exception in H. subst. reflexivity.
Qed.

(** C5, as amended. For a chunk sequence of length L and a batch size
    B > 0, against a
    store that accepts every write, the upload loop completes and issues
    exactly ceil(L/B) writes (the number [(L + B - 1) // B], the least n
    with L <= n * B), each of at most B chunks; the i-th write is the slice
    [chunks[i*B : i*B + B]], and the writes put end to end are the chunk
    sequence. *)
Theorem upload_batches_partition env batch_size pause (chunks : list chunk) fs :
  (0 < batch_size)%nat ->
  (forall tr b, add_documents_ok env tr b = true) ->
  let run := Ingest.upload_batches env batch_size pause chunks (initial fs) in
  let writes := batch_writes (trace (snd run)) in
  fst run = Ok tt /\
  length writes = Ingest.total_batches (length chunks) batch_size /\
  (length chunks <= length writes * batch_size < length chunks + batch_size)%nat /\
  Forall (fun b => (length b <= batch_size)%nat) writes /\
  (forall i, (i < length writes)%nat ->
     writes !! i = Some (take batch_size (drop (i * batch_size) chunks))) /\
  concat writes = chunks.
Proof.
  intros Hpos Hall. unfold Ingest.upload_batches.
  destruct (Nat.eqb_spec batch_size 0) as [->|_]; [lia|].
  destruct (upload_loop_run env batch_size pause chunks
              (Py.range (length chunks) batch_size) (initial fs))
    as (r & evs & Hrun & _ & _ & Hok).
  destruct (Hok Hall) as [-> Hwrites]. cbv zeta. rewrite Hrun. simpl.
  rewrite Hwrites. rewrite length_map, range_length by assumption.
  split; [reflexivity|]. split; [reflexivity|]. split; [|split; [|split]].
  - unfold Ingest.total_batches.
    pose proof (Nat.Div0.mul_div_le (length chunks + batch_size - 1) batch_size).
    pose proof (Nat.mul_succ_div_gt (length chunks + batch_size - 1) batch_size).
    nia.
  - apply Forall_forall. intros b Hb. apply list_elem_of_fmap in Hb as (i & -> & _).
    unfold Py.slice. rewrite length_take. lia.
  - intros i Hi. rewrite list_lookup_fmap, range_lookup by assumption.
    rewrite <- range_length in Hi by assumption.
    apply lookup_lt_is_Some in Hi. rewrite range_lookup in Hi by assumption.
    destruct (i * batch_size <? length chunks)%nat; [|destruct Hi; discriminate].
    simpl. unfold Py.slice. do 2 f_equal. lia.
  - unfold Py.range. rewrite range_from_concat by lia. reflexivity.
Qed.

Lemma upload_batches_partition_witness :
  let run :=
    Ingest.upload_batches (Demo.env Demo.syllabus None None true []) 2 1
      ["c1"; "c2"; "c3"; "c4"; "c5"]%string (initial ∅) in
  fst run = Ok tt /\
  length (batch_writes (trace (snd run))) = 3%nat /\
  batch_writes (trace (snd run)) !! 2%nat = Some ["c5"%string].
Proof.
  destruct (upload_batches_partition (Demo.env Demo.syllabus None None true [])
              2 1 ["c1"; "c2"; "c3"; "c4"; "c5"]%string ∅)
    as (Hok & Hlen & _ & _ & Hslice & _); [lia | reflexivity |].
  split; [exact Hok|]. split; [exact Hlen|].
  apply (Hslice 2%nat). rewrite Hlen. vm_compute. lia.
Defined.

(** C5 as stated fails: when the store refuses the second write the
    loop ends there, after two writes, where five chunks in batches of
    two make three. *)
Lemma upload_batches_partition_counterexample :
  let run :=
    Ingest.upload_batches (Samples.refusing_after 1) 2 1
      ["c1"; "c2"; "c3"; "c4"; "c5"]%string (initial ∅) in
  fst run = Raise (ExternalError "add_documents") /\
  batch_writes (trace (snd run)) = [["c1"; "c2"]; ["c3"; "c4"]]%string /\
  Ingest.total_batches 5 2 = 3%nat.
Proof. repeat split; vm_compute; reflexivity. Qed.

(** C10. [upload_syllabus] deletes the saved PDF only when everything
    succeeded.  When the loader, the splitter or a write to the store
    raises, the reply is a 500 carrying the error, [os.remove] is never
    called and the saved file is still on disk. *)
Theorem upload_deletes_only_on_success env fs name :
  name <> EmptyString -> secure_filename env name <> EmptyString ->
  let p := saved_path env name in
  exists resp w',
    App.upload_syllabus env (Some name) (initial fs) = (Ok resp, w') /\
    In (EvSave p) (trace w') /\
    ((status resp = 200%nat /\ removed_paths (trace w') = [p] /\ (p ∉ files w') /\
      exists pages chunks,
        loader_load env p = Some pages /\ split_documents env pages = Some chunks /\
        writes_accepted env [] (trace w') = true)
     \/
     (status resp = 500%nat /\ (exists e, payload resp = ErrorExn e) /\
      removed_paths (trace w') = [] /\ (p ∈ files w') /\
      (loader_load env p = None \/
       (exists pages, loader_load env p = Some pages /\ split_documents env pages = None) \/
       writes_accepted env [] (trace w') = false))).
Proof.
  intros Hname Hsec p. unfold App.upload_syllabus.
  apply String.eqb_neq in Hname. rewrite Hname.
  unfold Os.save. fold (saved_path env name). fold p.
  apply String.eqb_neq in Hsec. rewrite Hsec.
  unfold bind at 1. unfold try_except. unfold bind at 1. unfold external at 1.
  assert (Hin : bool_decide (p ∈ fs ∪ {[p]}) = true)
    by (apply bool_decide_eq_true; set_solver).
  destruct (loader_load env p) as [pages|] eqn:Hload; simpl.
  2: { unfold ret, raise. eexists _, _. split; [reflexivity|]. simpl.
       split; [left; reflexivity|]. right.
       repeat split; eauto. set_solver. }
  unfold ret at 1. unfold bind at 1. unfold external at 1.
  destruct (split_documents env pages) as [chunks|] eqn:Hsplit; simpl.
  2: { unfold ret, raise. eexists _, _. split; [reflexivity|]. simpl.
       split; [left; reflexivity|]. right.
       repeat split; eauto. set_solver. }
  unfold ret at 1. unfold bind at 1.
  match goal with |- context [Ingest.upload_batches env 50 1 chunks ?w1] =>
    destruct (upload_batches_run env 50 1 chunks w1) as (r & evs & Hrun & Hrem & Hacc);
      [lia|] end.
  simpl in Hacc.
  destruct r as [[]|e]; rewrite Hrun;
    [|rewrite (upload_batches_exception _ _ _ _ _ _ _ Hrun)]; simpl.
  - unfold Os.remove, bind, emit, ret, extend; simpl. rewrite Hin.
    eexists _, _. split; [reflexivity|]. simpl.
    split; [left; reflexivity|]. left.
    split; [reflexivity|]. split.
    { rewrite !removed_paths_app, Hrem. reflexivity. }
    split; [set_solver|].
    exists pages, chunks. split; [reflexivity|]. split; [assumption|].
    rewrite writes_accepted_app. rewrite (proj2 Hacc eq_refl). reflexivity.
  - unfold ret, extend. eexists _, _. split; [reflexivity|]. simpl.
    split; [left; reflexivity|]. right.
    split; [reflexivity|]. split; [eauto|]. split; [exact Hrem|].
    split; [set_solver|]. right; right.
    destruct (writes_accepted env [EvSave p] evs) eqn:Hw; [|reflexivity].
    pose proof (proj1 Hacc eq_refl). discriminate.
Qed.

Lemma upload_deletes_only_on_success_witness :
  exists resp w',
    App.upload_syllabus Demo.env_unreadable_pdf (Some "notes.pdf"%string) (initial ∅)
    = (Ok resp, w') /\
    status resp = 500%nat /\
    removed_paths (trace w') = [] /\
    "uploads/notes.pdf"%string ∈ files w'.
Proof.
  destruct (upload_deletes_only_on_success Demo.env_unreadable_pdf ∅ "notes.pdf")
    as (resp & w' & Hrun & _ & [(H200 & _)|(H500 & _ & Hrem & Hin & _)]);
    try discriminate.
  - exfalso. vm_compute in Hrun. injection Hrun as <- _. discriminate.
  - exists resp, w'. repeat split; assumption.
Defined.

(** ** Retrieval: what [get_syllabus_context] returns *)

Lemma join_contents_rows rows contents :
  Forall2 has_content rows contents ->
  Store.join_contents (JArr rows) = Ok (PyStr.join PyStr.blank_line contents).
Proof.
  intros H. unfold Store.join_contents. simpl.
  assert (Hget : Py.getitems rows "content" = Ok (map JStr contents)).
  { induction H as [|row s rows contents Hrow _ IH]; simpl; [reflexivity|].
    unfold has_content in Hrow. rewrite Hrow, IH. reflexivity. }
  rewrite Hget.
  assert (Hstr : Py.all_str (map JStr contents) = Ok contents).
  { clear. induction contents as [|s l IH]; simpl; [reflexivity|]. rewrite IH. reflexivity. }
  rewrite Hstr. reflexivity.
Qed.

Lemma append_empty a b : a +:+ b = EmptyString -> a = EmptyString /\ b = EmptyString.
Proof. destruct a; simpl; [auto | discriminate]. Qed.

Lemma join_empty contents :
  PyStr.join PyStr.blank_line contents = EmptyString <->
  contents = [] \/ contents = [EmptyString].
Proof.
  split.
  - destruct contents as [|s [|s' l]]; simpl; intros H.
    + left; reflexivity.
    + right; rewrite H; reflexivity.
    + apply append_empty in H as [_ H]. discriminate.
  - intros [->| ->]; reflexivity.
Qed.

(** C4, as amended.  [get_syllabus_context] returns [None] when the
    embedding or the store call raises; for a match set whose rows carry
    string contents it returns [None] exactly when the set is empty, and
    otherwise the contents joined by a blank line in the order of the
    store; that string is empty exactly when the set is one match with an
    empty content. *)
Theorem get_syllabus_context_result env q t c w :
  let r := fst (App.get_syllabus_context env q t c w) in
  (embed_query env q = None -> r = Ok None) /\
  (forall v, embed_query env q = Some v ->
     match_documents env v (default 0.5%Q t) (default 4%nat c) = None -> r = Ok None) /\
  (forall v rows contents,
     embed_query env q = Some v ->
     match_documents env v (default 0.5%Q t) (default 4%nat c) = Some (JArr rows) ->
     Forall2 has_content rows contents ->
     (rows = [] -> r = Ok None) /\
     (rows <> [] -> r = Ok (Some (PyStr.join PyStr.blank_line contents))) /\
     (r = Ok None <-> rows = []) /\
     (r = Ok (Some EmptyString) <-> contents = [EmptyString])).
Proof.
  unfold App.get_syllabus_context, try_except, bind, Store.embed, Store.rpc,
    external, emit, lift, ret, raise; simpl.
  split; [intros ->; reflexivity|].
  split; [intros v H1 H2; rewrite H1; simpl; rewrite H2; reflexivity|].
  intros v rows contents H1 H2 Hrows. rewrite H1; simpl; rewrite H2; simpl.
  rewrite (join_contents_rows _ _ Hrows).
  destruct rows as [|row rows]; cbn [Py.truthy negb fst].
  - inversion Hrows; subst.
    repeat split; try reflexivity; try congruence; try discriminate.
  - split; [discriminate|]. split; [reflexivity|]. split; [split; discriminate|].
    split.
    + intros H. injection H as H.
      apply join_empty in H as [H|H]; [|exact H].
      subst. inversion Hrows.
    + intros ->. reflexivity.
Qed.

Lemma get_syllabus_context_result_witness :
  fst (App.get_syllabus_context (Demo.env Demo.syllabus None None true [])
         "ohm" None None (initial ∅))
  = Ok (Some "Ohm's law: V = IR"%string).
Proof.
  destruct (get_syllabus_context_result (Demo.env Demo.syllabus None None true [])
              "ohm" None None (initial ∅)) as (_ & _ & Hrows).
  destruct (Hrows [0.1%Q; 0.2%Q] [Demo.row "Ohm's law: V = IR"]
              ["Ohm's law: V = IR"%string] eq_refl eq_refl) as (_ & Hjoin & _).
  - repeat constructor.
  - apply Hjoin. discriminate.
Defined.

(** C4 as stated fails: a match set of one row with an empty content
    yields the empty string, and a non-empty match set whose row has a
    null content yields [None]. *)
Lemma retrieval_none_iff_empty_counterexample :
  fst (App.get_syllabus_context
         (Demo.env (Some (JArr [Demo.row EmptyString])) None None true [])
         "ohm" None None (initial ∅))
  = Ok (Some EmptyString) /\
  fst (App.get_syllabus_context
         (Demo.env (Some (JArr [JObj [("content"%string, JNull)]])) None None true [])
         "ohm" None None (initial ∅))
  = Ok None.
Proof. split; reflexivity. Qed.

(** ** Retrieval: the parameters of the calls *)

Lemma rpc_calls_retrieval q t c evs :
  retrieval_events q t c evs -> rpc_calls evs = [] \/ rpc_calls evs = [(t, c)].
Proof. destruct 1; auto. Qed.

(** C7.  Every store call of [grade_image] carries threshold 0.5 and
    count 4, the defaults of [get_syllabus_context], where the
    specification names 0.4 and a count from 3 to 5 for grading; the grader
    of [vision_grader.py] and the quiz endpoint pass 0.4 with 3 and 5. *)
Theorem grade_image_retrieval_parameters :
  (forall env fs image topic,
     Forall (fun call => call = (0.5%Q, 4%nat))
       (rpc_calls (trace (snd (App.grade_image env image topic (initial fs)))))) /\
  rpc_calls (trace (snd (App.grade_image (Demo.env Demo.syllabus None Demo.graded_reply true [])
                           (Some "a.png"%string) (Some "ohm"%string) (initial ∅))))
  = [(0.5%Q, 4%nat)] /\
  rpc_calls (trace (snd (VisionGrader.grade_submission
                           (Demo.env Demo.syllabus None Demo.graded_reply true [])
                           "ohm" "a.png" (initial {["a.png"%string]}))))
  = [(0.4%Q, 3%nat)] /\
  rpc_calls (trace (snd (App.generate_quiz Demo.student (Some "ohm"%string) (initial ∅))))
  = [(0.4%Q, 5%nat)].
Proof.
  split; [|repeat split; reflexivity].
  intros env fs image topic.
  destruct image as [name|], topic as [topic|]; try (constructor; fail).
  destruct (String.eqb name EmptyString) eqn:Hname.
  { unfold App.grade_image. rewrite Hname. constructor. }
  destruct (String.eqb (secure_filename env name) EmptyString) eqn:Hsec.
  { unfold App.grade_image, Os.save, bind, raise. rewrite Hname, Hsec. constructor. }
  apply String.eqb_neq in Hname, Hsec.
  destruct (grade_image_exits env fs name topic Hname Hsec)
    as (x & ctx & evs & resp & w' & Hrun & _ & _ & Hevs & Htrace & _).
  rewrite Hrun; simpl. rewrite Htrace. simpl. rewrite rpc_calls_app.
  replace (rpc_calls (exit_events x _ _)) with (@nil (Q * nat)) by (destruct x; reflexivity).
  rewrite app_nil_r.
  destruct (rpc_calls_retrieval _ _ _ _ Hevs) as [-> | ->]; repeat constructor.
Qed.

(** ** Extraction of structured output *)

Lemma find_occurs c s :
  if Spec.occurs c s then 0 <= PyStr.find c s else PyStr.find c s = -1.
Proof.
  induction s as [|a s IH]; simpl; [reflexivity|].
  destruct (Ascii.eqb a c); simpl; [lia|].
  destruct (Spec.occurs c s).
  - destruct (Z.ltb_spec (PyStr.find c s) 0); lia.
  - rewrite IH. reflexivity.
Qed.

Lemma rfind_occurs c s :
  if Spec.occurs c s then 0 <= PyStr.rfind c s else PyStr.rfind c s = -1.
Proof.
  induction s as [|a s IH]; simpl; [reflexivity|].
  destruct (Spec.occurs c s).
  - rewrite orb_true_r. destruct (Z.leb_spec 0 (PyStr.rfind c s)); lia.
  - rewrite orb_false_r, IH. simpl. destruct (Ascii.eqb a c); lia.
Qed.

Lemma start_index_absent c s :
  (PyStr.find c s =? -1) = negb (Spec.occurs c s).
Proof.
  pose proof (find_occurs c s) as H. destruct (Spec.occurs c s); simpl.
  - apply Z.eqb_neq. lia.
  - rewrite H. reflexivity.
Qed.

Lemma end_index_absent c s :
  (PyStr.rfind c s + 1 =? 0) = negb (Spec.occurs c s).
Proof.
  pose proof (rfind_occurs c s) as H. destruct (Spec.occurs c s); simpl.
  - apply Z.eqb_neq. lia.
  - rewrite H. reflexivity.
Qed.

(** C3, as amended.  [start_quiz] follows the fallback chain of the
    specification on every text in which both brackets occur, and fails at
    once, without trying the fallback, when one is missing.  [grade_image]
    takes the fence-stripped text exactly when a brace is missing (where
    it agrees with the chain) and otherwise parses the slice only.
    [generate_quiz] parses the slice when an opening bracket occurs and the
    raw text otherwise, and never strips fences. *)
Theorem extractors_follow_parts_of_the_chain raw :
  (Spec.occurs "[" raw = true -> Spec.occurs "]" raw = true ->
   as_extraction (QuizAdded.extract raw) = Spec.extractJson "[" "]" raw) /\
  (Spec.occurs "[" raw = false \/ Spec.occurs "]" raw = false ->
   QuizAdded.extract raw = Raise (ValueError "No JSON brackets found in response.")) /\
  (Spec.occurs "{" raw = false \/ Spec.occurs "}" raw = false ->
   grade_extract raw = json_loads (strip_fences raw) /\
   as_extraction (grade_extract raw) = Spec.extractJson "{" "}" raw) /\
  (Spec.occurs "{" raw = true -> Spec.occurs "}" raw = true ->
   grade_extract raw =
   json_loads (PyStr.slice raw (PyStr.find "{" raw) (PyStr.rfind "}" raw + 1))) /\
  (Spec.occurs "[" raw = true ->
   quiz_extract raw =
   json_loads (PyStr.slice raw (PyStr.find "[" raw) (PyStr.rfind "]" raw + 1))) /\
  (Spec.occurs "[" raw = false -> quiz_extract raw = json_loads raw).
Proof.
  unfold QuizAdded.extract, QuizAdded.extract_slice, grade_extract, quiz_extract,
    App.grade_clean_json, App.quiz_clean_json, Spec.extractJson, Spec.bracket_slice,
    json_loads.
  rewrite !start_index_absent, !end_index_absent.
  split; [|split; [|split; [|split; [|split]]]].
  - intros -> ->. simpl.
    destruct (Json.loads (PyStr.slice raw _ _)); [reflexivity|].
    destruct (Json.loads (strip_fences raw)); reflexivity.
  - intros [-> | ->]; simpl; [reflexivity|]. rewrite orb_true_r. reflexivity.
  - intros [-> | ->]; simpl; rewrite ?andb_false_r;
      (split; [reflexivity|]);
      destruct (Json.loads (strip_fences raw)); reflexivity.
  - intros -> ->. reflexivity.
  - intros ->. reflexivity.
  - intros ->. reflexivity.
Qed.


Lemma extractors_follow_parts_of_the_chain_witness :
  as_extraction (QuizAdded.extract Demo.noisy_array)
  = Spec.extractJson "[" "]" Demo.noisy_array.
Proof.
  apply (proj1 (extractors_follow_parts_of_the_chain Demo.noisy_array)); reflexivity.
Defined.

(** C3 as stated fails.  A fenced object has no square bracket: the chain
    of the specification parses it after stripping the fences, [start_quiz]
    raises and [generate_quiz] fails to parse it.  An array of two objects:
    the chain parses it by the fallback, [grade_image] fails on the slice.
    And a text with no brace at all is parsed by [grade_image]. *)
Lemma extraction_chain_counterexample :
  QuizAdded.extract Demo.fenced_object
  = Raise (ValueError "No JSON brackets found in response.") /\
  Spec.extractJson "[" "]" Demo.fenced_object = Spec.Parsed (JObj [("a"%string, JNum "1")]) /\
  quiz_extract Demo.fenced_object = Raise JSONDecodeError /\
  grade_extract Demo.two_grades = Raise JSONDecodeError /\
  Spec.extractJson "{" "}" Demo.two_grades
  = Spec.Parsed (JArr [JObj [("score"%string, JStr "7/10")];
                       JObj [("score"%string, JStr "8/10")]]) /\
  Spec.occurs "{" "42" = false /\ Spec.occurs "}" "42" = false /\
  grade_extract "42" = Ok (JNum "42").
Proof. repeat split; vm_compute; reflexivity. Qed.

(** The examples of the specification, on the extractors that have them. *)
Example noisy_array_extracted :
  QuizAdded.extract Demo.noisy_array = Ok (JArr [JObj [("a"%string, JNum "1")]]).
Proof. vm_compute. reflexivity. Qed.

Example fenced_object_extracted :
  grade_extract Demo.fenced_object = Ok (JObj [("a"%string, JNum "1")]).
Proof. vm_compute. reflexivity. Qed.

(** ** The exam loop *)

Lemma extend_extend w a b : extend (extend w a) b = extend w (a ++ b).
Proof. unfold extend; simpl. rewrite app_assoc. reflexivity. Qed.

Lemma emit_run e w : emit e w = (Ok tt, extend w [e]).
Proof. reflexivity. Qed.

Lemma show_options_run opts w :
  for_each opts (fun opt => emit (EvOption opt)) w = (Ok tt, extend w (map EvOption opts)).
Proof.
  revert w. induction opts as [|o opts IH]; intros w; simpl.
  - rewrite extend_nil. reflexivity.
  - unfold bind. rewrite emit_run, IH, extend_extend. reflexivity.
Qed.

Lemma console_options opts : forallb console_event (map EvOption opts) = true.
Proof. induction opts; simpl; auto. Qed.

Lemma usable_answerable q : usable q = true -> exists label, answerable q label.
Proof.
  intros H. assert (H' := H). unfold usable in H'.
  destruct (Py.getitem q "question"); [|discriminate].
  destruct (Py.getitem q "options") as [options|]; [|discriminate].
  destruct (Py.iter options); [|discriminate].
  destruct (Py.getitem q "answer") as [[]|] eqn:Ha; try discriminate.
  exists s. split; [exact H | exact Ha].
Qed.

Lemma print_run env text shown w :
  Console.print env text shown w
  = if console_renders env text then (Ok tt, extend w [shown])
    else (Raise MarkupError, w).
Proof. unfold Console.print. destruct (console_renders env text); reflexivity. Qed.


(** One turn of the exam.  It gets through exactly when the question
    [passes]; it then adds one to the score when the answer is judged
    correct.  It raises [KeyboardInterrupt] only when the prompt does. *)
Lemma ask_question_run env i q score w :
  exists r evs,
    QuizAdded.ask_question env i q score w = (r, extend w evs) /\
    forallb console_event evs = true /\
    ((exists s, r = Ok s) <-> passes env i q = true) /\
    (forall stored typed,
       answerable q stored -> prompt_ask env i = Ok typed -> passes env i q = true ->
       r = Ok (score + if judged_correct typed stored then 1 else 0)) /\
    (forall e, r = Raise e -> is_exception e = false -> prompt_ask env i = Raise e).
Proof.
  unfold QuizAdded.ask_question, passes, answerable, usable.
  unfold bind at 1. unfold lift at 1.
  destruct (Py.getitem q "question") as [text|e] eqn:Hq; simpl.
  2: { exists (Raise e), []. rewrite extend_nil.
       split; [reflexivity|]. split; [reflexivity|].
       split; [split; [intros [s Hs]; discriminate | discriminate]|].
       split; [intros s t [H _]; discriminate|].
       intros e' [= <-] He. rewrite (getitem_exception _ _ _ Hq) in He. discriminate. }
  unfold bind at 1. rewrite print_run.
  destruct (console_renders env (QuizAdded.question_line i text)) eqn:Hshow; simpl.
  2: { exists (Raise MarkupError), []. rewrite extend_nil.
       split; [reflexivity|]. split; [reflexivity|].
       split.
       { split; [intros [s Hs]; discriminate|].
         intros H. apply andb_true_iff in H as [_ H].
         destruct (Py.getitem q "answer") as [[]|]; try discriminate.
         destruct (prompt_ask env i); discriminate. }
       split.
       { intros s t _ Ht H. apply andb_true_iff in H as [_ H].
         destruct (Py.getitem q "answer") as [[]|]; try discriminate.
         rewrite Ht in H. discriminate. }
       intros e' [= <-]. discriminate. }
  unfold bind at 1. unfold lift at 1.
  destruct (Py.getitem q "options") as [options|e] eqn:Ho; simpl.
  2: { exists (Raise e), [EvQuestion i text].
       split; [reflexivity|]. split; [reflexivity|].
       split; [split; [intros [s Hs]; discriminate | discriminate]|].
       split; [intros s t [H _]; discriminate|].
       intros e' [= <-] He. rewrite (getitem_exception _ _ _ Ho) in He. discriminate. }
  unfold bind at 1. unfold lift at 1.
  destruct (Py.iter options) as [opts|e] eqn:Hi; simpl.
  2: { exists (Raise e), [EvQuestion i text].
       split; [reflexivity|]. split; [reflexivity|].
       split; [split; [intros [s Hs]; discriminate | discriminate]|].
       split; [intros s t [H _]; discriminate|].
       intros e' [= <-] He. rewrite (iter_exception _ _ Hi) in He. discriminate. }
  unfold bind at 1. rewrite show_options_run.
  unfold bind at 1. rewrite emit_run. rewrite !extend_extend.
  assert (Hcons0 : forallb console_event
                     (EvQuestion i text :: map EvOption opts ++ [EvAsk i]) = true).
  { simpl. rewrite forallb_app, console_options. reflexivity. }
  assert (Hcons : forall b, forallb console_event
            ((EvQuestion i text :: map EvOption opts ++ [EvAsk i]) ++ [EvVerdict b]) = true).
  { intros b. rewrite forallb_app, Hcons0. reflexivity. }
  unfold bind at 1. unfold lift at 1.
  destruct (prompt_ask env i) as [typed|e] eqn:Hask; simpl.
  2: { eexists (Raise e), _. split; [reflexivity|]. split; [exact Hcons0|].
       split.
       { split; [intros [s Hs]; discriminate|].
         destruct (Py.getitem q "answer") as [[]|]; discriminate. }
       split; [intros s t _ Ht; discriminate|].
       intros e' [= <-] _. reflexivity. }
  unfold bind at 1. unfold lift at 1.
  destruct (Py.getitem q "answer") as [answer|e] eqn:Ha; simpl.
  2: { eexists (Raise e), _. split; [reflexivity|]. split; [exact Hcons0|].
       split; [split; [intros [s Hs]; discriminate | discriminate]|].
       split; [intros s t [H _]; discriminate|].
       intros e' [= <-] He. rewrite (getitem_exception _ _ _ Ha) in He. discriminate. }
  unfold bind at 1. unfold lift at 1, QuizAdded.correct_letter.
  destruct answer as [| | |a| |]; simpl;
    try (eexists (Raise AttributeError), _; split; [reflexivity|];
         split; [exact Hcons0|];
         split; [split; [intros [s Hs]; discriminate | discriminate]|];
         split; [intros s t [H _]; discriminate|];
         intros e' [= <-]; discriminate).
  fold (judged_correct typed a).
  destruct (judged_correct typed a) eqn:Hj.
  - unfold bind, ret. rewrite emit_run, extend_extend.
    eexists _, _. split; [reflexivity|]. split; [apply Hcons|].
    split; [split; [reflexivity | eauto]|].
    split; [|discriminate].
    intros s t [_ H] [= <-] _. injection H as <-. rewrite Hj. reflexivity.
  - unfold bind at 1. unfold lift at 1.
    unfold bind at 1. rewrite print_run.
    destruct (console_renders env (QuizAdded.wrong_line (JStr a))) eqn:Hwrong; simpl.
    + unfold ret. rewrite extend_extend.
      eexists _, _. split; [reflexivity|]. split; [apply Hcons|].
      split; [split; [reflexivity | eauto]|].
      split; [|discriminate].
      intros s t [_ H] [= <-] _. injection H as <-. rewrite Hj. f_equal. lia.
    + eexists (Raise MarkupError), _. split; [reflexivity|]. split; [exact Hcons0|].
      split; [split; [intros [s Hs]; discriminate | discriminate]|].
      split; [|intros e' [= <-]; discriminate].
      intros s t [_ H] [= <-] Hp. discriminate.
Qed.

Lemma exam_loop_run env qs : forall i score w,
  exists r evs,
    QuizAdded.exam_loop env i qs score w = (r, extend w evs) /\
    forallb console_event evs = true /\
    ((exists s, r = Ok s) <-> all_pass env i qs = true) /\
    (forall labels chosen,
       Forall2 answerable qs labels -> dialogue env i qs chosen ->
       r = Ok (score + correct_count chosen labels)) /\
    (forall e, r = Raise e -> is_exception e = false ->
       exists j, prompt_ask env j = Raise e).
Proof.
  induction qs as [|q qs IH]; intros i score w; simpl.
  - exists (Ok score), []. rewrite extend_nil.
    split; [reflexivity|]. split; [reflexivity|].
    split; [split; eauto|].
    split; [|discriminate].
    intros labels chosen H Hd. inversion H; subst.
    destruct chosen; [|contradiction]. simpl. f_equal. lia.
  - unfold bind.
    destruct (ask_question_run env i q score w)
      as (r & evs & Hrun & Hcons & Hpass & Hgood & Hint).
    rewrite Hrun. destruct r as [score'|e].
    + destruct (IH (S i) score' (extend w evs))
        as (r' & evs' & Hrun' & Hcons' & Hiff & Hgood' & Hint').
      rewrite Hrun', extend_extend. exists r', (evs ++ evs').
      split; [reflexivity|]. split; [rewrite forallb_app, Hcons, Hcons'; reflexivity|].
      assert (Hq : passes env i q = true) by (apply Hpass; eauto).
      split; [rewrite Hiff, Hq; reflexivity|].
      split; [|exact Hint'].
      intros labels chosen H Hd.
      inversion H as [|q0 l qs0 ls Hl Hls]; subst.
      destruct chosen as [|c cs]; [contradiction|]. destruct Hd as (Hc & _ & Hd).
      rewrite (Hgood' ls cs Hls Hd).
      pose proof (Hgood l c Hl Hc Hq) as Hs. injection Hs as ->.
      simpl. f_equal. lia.
    + exists (Raise e), evs. split; [reflexivity|]. split; [exact Hcons|].
      assert (Hq : passes env i q = false).
      { destruct (passes env i q); [|reflexivity].
        destruct (proj2 Hpass eq_refl) as [s Hs]. discriminate. }
      split; [rewrite Hq; split; [intros [s Hs]; discriminate | discriminate]|].
      split.
      * intros labels chosen H Hd. inversion H; subst.
        destruct chosen as [|c cs]; [contradiction|]. destruct Hd as (_ & Hp & _).
        rewrite Hq in Hp. discriminate.
      * intros e' [= <-] He. exists i. apply Hint; [reflexivity | exact He].
Qed.



Lemma prompts_sent_app a b : prompts_sent (a ++ b) = prompts_sent a ++ prompts_sent b.
Proof. induction a as [|[] a IH]; simpl; rewrite ?IH; reflexivity. Qed.

Lemma console_silent evs :
  forallb console_event evs = true ->
  reports evs = [] /\ prompts_sent evs = [] /\ rpc_calls evs = [].
Proof.
  induction evs as [|[] evs IH]; simpl; intros H; try discriminate; auto.
Qed.


(** ** The percentage of the report card *)

Section Floats.

Local Open Scope Q_scope.

Import Float64.

Lemma rne_bounds x : (Qfloor x <= rne x <= Qfloor x + 1)%Z.
Proof.
  unfold rne. destruct (Qcompare _ _); [destruct (Z.even _)| |]; lia.
Qed.

(** Rounding to the nearest integer is monotone. *)
Lemma rne_le x y : x <= y -> (rne x <= rne y)%Z.
Proof.
  intros Hxy.
  pose proof (Qfloor_resp_le x y Hxy) as Hfl.
  destruct (Z.eq_dec (Qfloor x) (Qfloor y)) as [Heq|Hne].
  2: { pose proof (rne_bounds x). pose proof (rne_bounds y). lia. }
  unfold rne. rewrite <- Heq.
  destruct (Qcompare_spec (x - inject_Z (Qfloor x)) (1 # 2)) as [Hx|Hx|Hx];
  destruct (Qcompare_spec (y - inject_Z (Qfloor x)) (1 # 2)) as [Hy|Hy|Hy];
    try (destruct (Z.even (Qfloor x))); try lia; exfalso; lra.
Qed.

Lemma rne_inject n : rne (inject_Z n) = n.
Proof.
  unfold rne. rewrite Qfloor_Z.
  destruct (Qcompare_spec (inject_Z n - inject_Z n) (1 # 2)) as [H|H|H];
    [exfalso; lra | reflexivity | exfalso; lra].
Qed.

Lemma two_pow_pos z : 0 < 2 ^ z.
Proof. apply Qpower_0_lt. reflexivity. Qed.

Lemma two_pow_succ z : 2 ^ (z + 1) == 2 * 2 ^ z.
Proof. rewrite Qpower_plus by discriminate. rewrite Qpower_1_r. ring. Qed.

Lemma two_pow_log2 n : (0 < n)%Z ->
  2 ^ Z.log2 n <= inject_Z n /\ inject_Z n < 2 ^ (Z.log2 n + 1).
Proof.
  intros Hn. pose proof (Z.log2_spec n Hn) as [Hlo Hhi].
  pose proof (Z.log2_nonneg n) as Hnn.
  change 2 with (inject_Z 2).
  rewrite <- !Zpower_Qpower by lia.
  rewrite <- Zle_Qle, <- Zlt_Qlt. replace (Z.log2 n + 1)%Z with (Z.succ (Z.log2 n)) by lia.
  split; assumption.
Qed.

(** [expo] is the exponent it is meant to be. *)
Lemma expo_spec x : 0 < x -> 2 ^ expo x <= x /\ x < 2 ^ (expo x + 1).
Proof.
  intros Hx. unfold expo.
  set (k := (Z.log2 (Qnum x) - Z.log2 (Zpos (Qden x)))%Z).
  assert (Hnum : (0 < Qnum x)%Z).
  { destruct x as [n d]. unfold Qlt in Hx. simpl in *. lia. }
  destruct (two_pow_log2 (Qnum x) Hnum) as [Hn1 Hn2].
  destruct (two_pow_log2 (Zpos (Qden x)) eq_refl) as [Hd1 Hd2].
  assert (Hxd : x * inject_Z (Zpos (Qden x)) == inject_Z (Qnum x)).
  { destruct x as [n d]. unfold Qeq, Qmult, inject_Z. simpl. lia. }
  set (a := Z.log2 (Qnum x)) in *. set (b := Z.log2 (Zpos (Qden x))) in *.
  assert (Ha : 2 ^ a == 2 ^ k * 2 ^ b).
  { unfold k. rewrite <- Qpower_plus by discriminate.
    apply Qpower_comp; [reflexivity | lia]. }
  pose proof (two_pow_pos k) as Hk. pose proof (two_pow_pos b) as Hb.
  pose proof (two_pow_succ a) as Ha1. pose proof (two_pow_succ b) as Hb1.
  pose proof (two_pow_succ k) as Hk1.
  assert (Hk0 : 2 ^ (k - 1 + 1) == 2 ^ k) by (apply Qpower_comp; [reflexivity | lia]).
  assert (Hkm : 2 ^ k == 2 * 2 ^ (k - 1)).
  { rewrite <- Hk0. apply two_pow_succ. }
  set (px := x) in *. set (D := inject_Z (Zpos (Qden x))) in *.
  set (N := inject_Z (Qnum x)) in *.
  set (A := 2 ^ a) in *. set (B := 2 ^ b) in *. set (K := 2 ^ k) in *.
  set (K' := 2 ^ (k - 1)) in *.
  destruct (Qle_bool K px) eqn:Hle.
  - apply Qle_bool_iff in Hle. split; [exact Hle|].
    rewrite Hk1. fold K. nra.
  - assert (Hlt : px < K).
    { apply Qnot_le_lt. intros H. apply Qle_bool_iff in H. congruence. }
    split; [|rewrite Hk0; exact Hlt].
    fold K'. nra.
Qed.

Lemma expo_le x y : 0 < x -> x <= y -> (expo x <= expo y)%Z.
Proof.
  intros Hx Hxy.
  destruct (expo_spec x Hx) as [Hlo _].
  destruct (expo_spec y) as [_ Hhi]; [lra|].
  assert (H : 2 ^ expo x < 2 ^ (expo y + 1)) by lra.
  apply Qpower_lt_compat_l_inv in H; [lia | reflexivity].
Qed.

Lemma two_pow_shift z k : 2 ^ z == inject_Z (2 ^ k) * 2 ^ (z - k) \/ (k < 0)%Z.
Proof.
  destruct (Z_lt_le_dec k 0) as [Hk|Hk]; [right; exact Hk|left].
  rewrite Zpower_Qpower by lia. change (inject_Z 2) with 2.
  rewrite <- Qpower_plus by discriminate. apply Qpower_comp; [reflexivity | lia].
Qed.

(** The scaled number lies between [2 ^ 52] and [2 ^ 53]. *)
Lemma scaled_bounds x : 0 < x ->
  inject_Z (2 ^ 52) <= x / 2 ^ (expo x - 52) /\
  x / 2 ^ (expo x - 52) < inject_Z (2 ^ 53).
Proof.
  intros Hx. destruct (expo_spec x Hx) as [Hlo Hhi].
  set (e := (expo x - 52)%Z). pose proof (two_pow_pos e) as He.
  destruct (two_pow_shift (expo x) 52) as [H52|?]; [|lia]. fold e in H52.
  destruct (two_pow_shift (expo x + 1) 53) as [H53|?]; [|lia].
  replace (expo x + 1 - 53)%Z with e in H53 by (unfold e; lia).
  split.
  - apply Qle_shift_div_l; [exact He|]. rewrite <- H52. exact Hlo.
  - apply Qlt_shift_div_r; [exact He|]. rewrite <- H53. exact Hhi.
Qed.

Lemma round_pos_bounds x : 0 < x ->
  2 ^ expo x <= round_pos x /\ round_pos x <= 2 ^ (expo x + 1).
Proof.
  intros Hx. destruct (scaled_bounds x Hx) as [Hlo Hhi].
  unfold round_pos. set (e := (expo x - 52)%Z) in *.
  pose proof (two_pow_pos e) as He.
  destruct (two_pow_shift (expo x) 52) as [H52|?]; [|lia]. fold e in H52.
  destruct (two_pow_shift (expo x + 1) 53) as [H53|?]; [|lia].
  replace (expo x + 1 - 53)%Z with e in H53 by (unfold e; lia).
  pose proof (rne_le _ _ Hlo) as H1. rewrite rne_inject in H1.
  pose proof (rne_le _ _ (Qlt_le_weak _ _ Hhi)) as H2. rewrite rne_inject in H2.
  rewrite H52, H53.
  split; apply Qmult_le_compat_r; try lra; rewrite <- Zle_Qle; assumption.
Qed.

Lemma round_pos_positive x : 0 < x -> 0 < round_pos x.
Proof.
  intros Hx. destruct (round_pos_bounds x Hx) as [H _].
  pose proof (two_pow_pos (expo x)). lra.
Qed.

Lemma round_pos_le x y : 0 < x -> x <= y -> round_pos x <= round_pos y.
Proof.
  intros Hx Hxy. assert (Hy : 0 < y) by lra.
  pose proof (expo_le x y Hx Hxy) as He.
  destruct (Z.eq_dec (expo x) (expo y)) as [Heq|Hne].
  - unfold round_pos. rewrite <- Heq. set (e := (expo x - 52)%Z).
    pose proof (two_pow_pos e) as Hpos.
    apply Qmult_le_compat_r; [|lra]. rewrite <- Zle_Qle. apply rne_le.
    apply Qle_shift_div_l; [exact Hpos|].
    assert (E : x / 2 ^ e * 2 ^ e == x) by (field; lra).
    rewrite E. exact Hxy.
  - destruct (round_pos_bounds x Hx) as [_ Hhi].
    destruct (round_pos_bounds y Hy) as [Hlo _].
    assert (H : 2 ^ (expo x + 1) <= 2 ^ expo y)
      by (apply Qpower_le_compat_l; [lia | discriminate]).
    lra.
Qed.

Lemma round_of_positive x : 0 < x -> round x = round_pos x.
Proof.
  intros H. unfold round.
  destruct x as [[|p|p] d]; unfold Qlt in H; simpl in *; try lia. reflexivity.
Qed.

Lemma round_of_negative x : x < 0 -> round x = - round_pos (- x).
Proof.
  intros H. unfold round.
  destruct x as [[|p|p] d]; unfold Qlt in H; simpl in *; try lia. reflexivity.
Qed.

Lemma round_of_zero x : x == 0 -> round x = 0.
Proof.
  intros H. unfold round.
  destruct x as [[|p|p] d]; unfold Qeq in H; simpl in *; try lia. reflexivity.
Qed.

(** Rounding to the nearest float is monotone. *)
Lemma round_le x y : x <= y -> round x <= round y.
Proof.
  intros Hxy.
  destruct (Q_dec x 0) as [[Hx|Hx]|Hx]; destruct (Q_dec y 0) as [[Hy|Hy]|Hy];
    try (exfalso; lra).
  - rewrite (round_of_negative x Hx), (round_of_negative y Hy).
    assert (H : round_pos (- y) <= round_pos (- x)) by (apply round_pos_le; lra). lra.
  - rewrite (round_of_negative x Hx), (round_of_positive y Hy).
    pose proof (round_pos_positive (- x)). pose proof (round_pos_positive y). lra.
  - rewrite (round_of_negative x Hx), (round_of_zero y Hy).
    pose proof (round_pos_positive (- x)). lra.
  - rewrite (round_of_positive x Hx), (round_of_positive y Hy).
    apply round_pos_le; assumption.
  - rewrite (round_of_zero x Hx), (round_of_positive y Hy).
    pose proof (round_pos_positive y). lra.
  - rewrite (round_of_zero x Hx), (round_of_zero y Hy). lra.
Qed.

(** More correct answers never give a smaller percentage. *)
Lemma percentage_le s t : (s <= t)%Z -> QuizAdded.percentage s <= QuizAdded.percentage t.
Proof.
  intros H. unfold QuizAdded.percentage, mul_int, int_div. apply round_le.
  apply Qmult_le_compat_r; [|discriminate]. apply round_le.
  apply Qmult_le_compat_r; [|discriminate]. rewrite <- Zle_Qle. exact H.
Qed.


(** With eleven correct answers it is 220.00000000000003. *)
Example percentage_of_eleven :
  QuizAdded.percentage 11 == 220 + 2 ^ (-45) /\
  ~ QuizAdded.percentage 11 == inject_Z 11 * 20.
Proof. split; [vm_compute; reflexivity | vm_compute; discriminate]. Qed.

(** The two roundings are those of the binary64 numbers of the standard
    library. *)
Example percentage_is_binary64 :
  forallb (fun score =>
             match value (SFmul 53 1024 (SFdiv 53 1024 (of_int score) (of_int 5))
                            (of_int 100)) with
             | Some q => Qeq_bool q (QuizAdded.percentage score)
             | None => false
             end)
          [0; 1; 2; 3; 4; 5; 7; 10; 11; 13; 50; 1000003; -7]%Z
  = true.
Proof. vm_compute. reflexivity. Qed.

End Floats.

(** ** The score of a quiz *)




(** ** The decoded quiz is used as it is *)




(** A question that the specification would accept stops the exam when
    the console cannot render its text. *)
Example exam_stops_on_a_closing_tag :
  let env := Samples.console_rejecting "[/x]" (Some (Some Samples.tagged_question)) in
  let q := question "[/x]" ["A) a"; "B) b"]%string "A" in
  Spec.valid_question q = true /\ usable q = true /\ passes env 0 q = false /\
  fst (QuizAdded.exam_loop env 0 [q] 0 (initial ∅)) = Raise MarkupError.
Proof. repeat split; vm_compute; reflexivity. Qed.

(** ** Prompts without context *)

(** C8.  When the store returns no match, [start_quiz] sends the quiz
    prompt with the empty string in the place of the context: the line
    [Based on this context: ] ends there, and nothing says that no context
    was found.  It does so whenever it gets past its banner; when the
    console cannot render the banner, no prompt is sent at all. *)
Theorem start_quiz_interpolates_empty_context env fs topic v :
  embed_query env topic = Some v ->
  match_documents env v 0.4%Q 5%nat = Some (JArr []) ->
  prompts_sent (trace (snd (QuizAdded.start_quiz env topic (initial fs))))
  = (if console_renders env (QuizAdded.banner topic)
     then [QuizAdded.json_prompt EmptyString topic] else []) /\
  PyStr.contains ("Based on this context: " +:+ PyStr.nl)
    (QuizAdded.json_prompt EmptyString topic) = true.
Proof.
  intros Hembed Hrpc. split; [|reflexivity].
  unfold QuizAdded.start_quiz. unfold bind at 1. rewrite print_run.
  destruct (console_renders env (QuizAdded.banner topic)); [|reflexivity].
  unfold Console.print, try_except, bind, Store.embed, Store.rpc, Gen.generate,
    Gen.text, external, emit, lift, ret, raise; simpl.
  rewrite Hembed; simpl. rewrite Hrpc; simpl.
  destruct (generate_content env _) as [[raw|]|]; simpl;
    try (destruct (console_renders env _); reflexivity).
  destruct (QuizAdded.extract raw) as [quiz_data|e] eqn:Hx; simpl.
  2: { rewrite (extract_exception _ _ Hx).
       destruct (console_renders env _); reflexivity. }
  destruct (Py.iter quiz_data) as [qs|e] eqn:Hi; simpl.
  2: { rewrite (iter_exception _ _ Hi).
       destruct (console_renders env _); reflexivity. }
  match goal with |- context [QuizAdded.exam_loop env 0 qs 0 ?w1] =>
    destruct (exam_loop_run env qs 0%nat 0 w1) as (r & evs & Hrun & Hcons & _) end.
  rewrite Hrun. destruct (console_silent evs Hcons) as (_ & Hsent & _).
  destruct r as [s|e]; simpl.
  - rewrite !prompts_sent_app, Hsent. reflexivity.
  - destruct (is_exception e); [destruct (console_renders env _)|];
      simpl; rewrite ?prompts_sent_app, ?Hsent; simpl; rewrite ?prompts_sent_app, ?Hsent;
      reflexivity.
Qed.

Lemma start_quiz_interpolates_empty_context_witness :
  prompts_sent (trace (snd (QuizAdded.start_quiz
                              (Demo.env Demo.no_match (Some (Some Demo.five_questions))
                                 None true [])
                              "ohm" (initial ∅))))
  = [QuizAdded.json_prompt EmptyString "ohm"].
Proof.
  apply (start_quiz_interpolates_empty_context
           (Demo.env Demo.no_match (Some (Some Demo.five_questions)) None true [])
           ∅ "ohm" [0.1%Q; 0.2%Q]); reflexivity.
Defined.

(** The tutoring prompts do say so, each in its words. *)
Lemma chat_tutor_states_missing_context env fs question v :
  question <> EmptyString ->
  embed_query env question = Some v ->
  match_documents env v 0.5%Q 4%nat = Some (JArr []) ->
  prompts_sent (trace (snd (App.chat_tutor env (Some question) (initial fs))))
  = [App.chat_prompt App.no_context_notice question] /\
  PyStr.contains App.no_context_notice
    (App.chat_prompt App.no_context_notice question) = true.
Proof.
  intros Hq Hembed Hrpc. split; [|reflexivity].
  apply String.eqb_neq in Hq.
  unfold App.chat_tutor, App.get_syllabus_context, try_except, bind, Store.embed,
    Store.rpc, Gen.generate, Gen.text, external, emit, lift, ret, raise; simpl.
  rewrite Hq; simpl. rewrite Hembed; simpl. rewrite Hrpc; simpl.
  destruct (generate_content env _) as [[raw|]|]; reflexivity.
Qed.

Lemma ask_tutor_states_missing_context env fs question v :
  embed_query env question = Some v ->
  match_documents env v 0.5%Q 4%nat = Some (JArr []) ->
  console_renders env (QuizAdded.searching question) = true ->
  console_renders env (Backend.question_line question) = true ->
  prompts_sent (trace (snd (QuizAdded.ask_tutor env question (initial fs))))
  = [QuizAdded.tutor_prompt QuizAdded.no_context_notice question] /\
  prompts_sent (trace (snd (Backend.ask_tutor env question (initial fs))))
  = [Backend.tutor_prompt Backend.no_context_notice question].
Proof.
  intros Hembed Hrpc Hq Hb.
  unfold QuizAdded.ask_tutor, Backend.ask_tutor, Console.print, try_except, bind,
    Store.embed, Store.rpc, Gen.generate, Gen.text, external, emit, lift, ret, raise.
  rewrite Hq, Hb; simpl. rewrite Hembed; simpl. rewrite Hrpc; simpl.
  split; destruct (generate_content env _) as [[raw|]|]; simpl;
    repeat match goal with
           | |- context [console_renders env ?t] => destruct (console_renders env t)
           end; reflexivity.
Qed.


(** ** Sample runs of [grade_image], one for each way out *)

Example run_graded :
  let run := App.grade_image (Demo.env Demo.syllabus None Demo.graded_reply true [])
               (Some "a.png"%string) (Some "ohm"%string) (initial ∅) in
  fst run = Ok (Resp 200 (Json (JObj [("score"%string, JStr "7/10");
                                      ("feedback"%string, JStr "Units missing.")]))) /\
  lifecycle (trace (snd run))
  = [EvOpen "uploads/a.png"; EvClose; EvRemove "uploads/a.png"].
Proof. split; vm_compute; reflexivity. Qed.

Example run_context_not_found :
  let run := App.grade_image (Demo.env Demo.no_match None Demo.graded_reply true [])
               (Some "a.png"%string) (Some "ohm"%string) (initial ∅) in
  fst run = Ok (Resp 404 (ErrorMsg "Topic not found in syllabus. Cannot grade.")) /\
  lifecycle (trace (snd run)) = [EvRemove "uploads/a.png"].
Proof. split; vm_compute; reflexivity. Qed.

Example run_unreadable_image :
  let run := App.grade_image (Demo.env Demo.syllabus None Demo.graded_reply false [])
               (Some "a.png"%string) (Some "ohm"%string) (initial ∅) in
  fst run = Ok (Resp 500 (ErrorExn (ExternalError "PIL.Image.open"))) /\
  lifecycle (trace (snd run)) = [EvRemove "uploads/a.png"].
Proof. split; vm_compute; reflexivity. Qed.

Example run_vision_failed :
  let run := App.grade_image (Demo.env Demo.syllabus None None true [])
               (Some "a.png"%string) (Some "ohm"%string) (initial ∅) in
  fst run = Ok (Resp 500 (ErrorExn (ExternalError "generate_content"))) /\
  lifecycle (trace (snd run))
  = [EvOpen "uploads/a.png"; EvClose; EvRemove "uploads/a.png"].
Proof. split; vm_compute; reflexivity. Qed.

Example run_reply_without_text :
  let run := App.grade_image (Demo.env Demo.syllabus None (Some None) true [])
               (Some "a.png"%string) (Some "ohm"%string) (initial ∅) in
  fst run = Ok (Resp 500 (ErrorExn (ExternalError "response.text"))) /\
  lifecycle (trace (snd run))
  = [EvOpen "uploads/a.png"; EvClose; EvClose; EvRemove "uploads/a.png"].
Proof. split; vm_compute; reflexivity. Qed.

Example run_parse_failed :
  let run := App.grade_image
               (Demo.env Demo.syllabus None (Some (Some "I cannot read this."%string)) true [])
               (Some "a.png"%string) (Some "ohm"%string) (initial ∅) in
  fst run = Ok (Resp 500 (ErrorExn JSONDecodeError)) /\
  lifecycle (trace (snd run))
  = [EvOpen "uploads/a.png"; EvClose; EvRemove "uploads/a.png"].
Proof. split; vm_compute; reflexivity. Qed.

(** ** Sample texts for the decoder *)

Example loads_rejects_leading_zero : Json.loads "01" = None.
Proof. reflexivity. Qed.

Example loads_rejects_trailing_comma : Json.loads "[1,]" = None.
Proof. reflexivity. Qed.

Example loads_keeps_last_duplicate :
  Json.loads (PyStr.dq "{'a': 1, 'b': 2, 'a': 3}")
  = Some (JObj [("a"%string, JNum "3"); ("b"%string, JNum "2")]).
Proof. vm_compute. reflexivity. Qed.

Example loads_nested :
  Json.loads "[[[[[[[[[[1]]]]]]]]], [2, [3, [4]]]]"
  = Some (JArr [JArr [JArr [JArr [JArr [JArr [JArr [JArr [JArr [JArr [JNum "1"]]]]]]]]];
                JArr [JNum "2"; JArr [JNum "3"; JArr [JNum "4"]]]]).
Proof. vm_compute. reflexivity. Qed.

(** * Further properties *)

(** ** Retrieval and the text endpoints of [app.py] *)

(** X1. [get_syllabus_context] never raises and touches neither the
    files nor the image handle, whatever the embedding service and the
    store do.  It calls the embedding service once; when that call
    fails the store is not queried, and otherwise the store is queried
    exactly once, with the threshold and count of the caller, 0.5 and 4
    when they are left out. *)
Theorem get_syllabus_context_never_raises env q t c w :
  let run := App.get_syllabus_context env q t c w in
  (exists r, fst run = Ok r) /\
  files (snd run) = files w /\ img (snd run) = img w /\
  (embed_query env q = None -> trace (snd run) = trace w ++ [EvEmbed q]) /\
  (embed_query env q <> None ->
   trace (snd run)
   = trace w ++ [EvEmbed q; EvRpc (default 0.5%Q t) (default 4%nat c)]).
Proof.
  unfold App.get_syllabus_context, try_except, bind, Store.embed, Store.rpc,
    external, emit, lift, ret, raise; simpl.
  destruct (embed_query env q) as [v|]; simpl.
  2: { repeat split; eauto. congruence. }
  destruct (match_documents env v _ _) as [m|]; simpl;
    [destruct (Py.truthy m); simpl;
       [destruct (Store.join_contents m) as [j|e] eqn:Hj;
          [|rewrite (join_contents_exception _ _ Hj)]; simpl|]|].
  all: repeat split; eauto; try discriminate; intros _; rewrite <- app_assoc; reflexivity.
Qed.

Lemma get_syllabus_context_never_raises_witness :
  let run :=
    App.get_syllabus_context Samples.embedding_down "ohm" None None (initial ∅) in
  (exists r, fst run = Ok r) /\ trace (snd run) = [EvEmbed "ohm"].
Proof.
  pose proof (get_syllabus_context_never_raises Samples.embedding_down "ohm"
                None None (initial ∅)) as H.
  cbv zeta in *. destruct H as (Hok & _ & _ & Hdown & _).
  split; [exact Hok | apply Hdown; reflexivity].
Defined.


(** X3. [chat_tutor] has no [except] clause: with a question, it
    queries the store with 0.5 and 4, sends exactly one prompt, built
    from the retrieved context or from the notice that none was found,
    and then answers 200 with the text of the model, or lets the
    exception of the model call, or of a reply without text, escape
    the handler.  The files are untouched. *)
Theorem chat_tutor_replies env question fs :
  question <> EmptyString ->
  let run := App.chat_tutor env (Some question) (initial fs) in
  files (snd run) = fs /\
  Forall (fun call => call = (0.5%Q, 4%nat)) (rpc_calls (trace (snd run))) /\
  exists context_or_notice,
    (context_or_notice = App.no_context_notice \/
     fst (App.get_syllabus_context env question None None (initial fs))
     = Ok (Some context_or_notice)) /\
    let prompt := App.chat_prompt context_or_notice question in
    prompts_sent (trace (snd run)) = [prompt] /\
    match generate_content env prompt with
    | Some (Some text) => fst run = Ok (Resp 200 (Reply text))
    | Some None => fst run = Raise (ExternalError "response.text")
    | None => fst run = Raise (ExternalError "generate_content")
    end.
Proof.
  intros Hq. apply String.eqb_neq in Hq.
  unfold App.chat_tutor. simpl. rewrite Hq. simpl.
  unfold App.get_syllabus_context, Gen.generate, Gen.text, Store.embed, Store.rpc,
    try_except, bind, external, emit, lift, ret, raise; simpl.
  destruct (embed_query env _) as [v|]; simpl.
  2: { split; [destruct (generate_content env _) as [[text|]|]; reflexivity|].
       split; [destruct (generate_content env _) as [[text|]|]; repeat constructor|].
       exists App.no_context_notice. split; [left; reflexivity|].
       cbv zeta. destruct (generate_content env _) as [[text|]|]; simpl; auto. }
  destruct (match_documents env v _ _) as [m|]; simpl.
  2: { split; [destruct (generate_content env _) as [[text|]|]; reflexivity|].
       split; [destruct (generate_content env _) as [[text|]|]; repeat constructor|].
       exists App.no_context_notice. split; [left; reflexivity|].
       cbv zeta. destruct (generate_content env _) as [[text|]|]; simpl; auto. }
  destruct (Py.truthy m); simpl.
  2: { split; [destruct (generate_content env _) as [[text|]|]; reflexivity|].
       split; [destruct (generate_content env _) as [[text|]|]; repeat constructor|].
       exists App.no_context_notice. split; [left; reflexivity|].
       cbv zeta. destruct (generate_content env _) as [[text|]|]; simpl; auto. }
  destruct (Store.join_contents m) as [ctx|e] eqn:Hj;
    [|rewrite (join_contents_exception _ _ Hj)]; simpl.
  2: { split; [destruct (generate_content env _) as [[text|]|]; reflexivity|].
       split; [destruct (generate_content env _) as [[text|]|]; repeat constructor|].
       exists App.no_context_notice. split; [left; reflexivity|].
       cbv zeta. destruct (generate_content env _) as [[text|]|]; simpl; auto. }
  destruct (String.eqb ctx EmptyString) eqn:Hctx; simpl.
  { split; [destruct (generate_content env _) as [[text|]|]; reflexivity|].
       split; [destruct (generate_content env _) as [[text|]|]; repeat constructor|].
    exists App.no_context_notice. split; [left; reflexivity|].
    cbv zeta. destruct (generate_content env _) as [[text|]|]; simpl; auto. }
  split; [destruct (generate_content env _) as [[text|]|]; reflexivity|].
       split; [destruct (generate_content env _) as [[text|]|]; repeat constructor|].
  exists ctx. split; [right; reflexivity|].
  cbv zeta. destruct (generate_content env _) as [[text|]|]; simpl; auto.
Qed.

Lemma chat_tutor_replies_witness :
  "What is Ohm's law?"%string <> EmptyString /\
  fst (App.chat_tutor (Samples.refusing_after 0) (Some "What is Ohm's law?"%string)
         (initial ∅))
  = Ok (Resp 200 (Reply "Ohm's law relates V, I and R.")).
Proof.
  split; [discriminate|].
  pose proof (chat_tutor_replies (Samples.refusing_after 0) "What is Ohm's law?" ∅) as H.
  cbv zeta in H. destruct H as (_ & _ & ctx & _ & _ & Hreply); [discriminate|].
  exact Hreply.
Defined.

(** ** The batch loop *)

Section Batches.

Local Open Scope nat_scope.

Lemma messages_app a b : messages (a ++ b) = messages a ++ messages b.
Proof. induction a as [|[] a IH]; simpl; rewrite ?IH; reflexivity. Qed.

Lemma pauses_app a b : pauses (a ++ b) = pauses a ++ pauses b.
Proof. induction a as [|[] a IH]; simpl; rewrite ?IH; reflexivity. Qed.

Lemma upload_loop_prefix env batch_size pause (chunks : list chunk) (ixs : list nat) w :
  exists r evs k,
    for_each ixs (fun i =>
      Store.add_documents env (Py.slice chunks i (i + batch_size)) ;;;
      emit (EvSleep pause)) w = (r, extend w evs) /\
    k <= length ixs /\
    batch_writes evs = map (fun i => Py.slice chunks i (i + batch_size)) (take k ixs) /\
    messages evs = [] /\
    (r = Ok tt -> k = length ixs /\ pauses evs = replicate k pause) /\
    (r <> Ok tt ->
     r = Raise (ExternalError "add_documents") /\ 0 < k /\
     pauses evs = replicate (k - 1) pause).
Proof.
  revert w. induction ixs as [|i ixs IH]; intros w; simpl.
  - exists (Ok tt), [], 0. rewrite extend_nil. unfold ret.
    repeat split; auto; congruence.
  - unfold bind at 1. unfold bind at 1. unfold Store.add_documents at 1.
    destruct (add_documents_ok env (trace w) _) eqn:Hok; simpl.
    + match goal with |- context [for_each ixs ?body ?w1] =>
        destruct (IH w1) as (r & evs & k & Hrun & Hk & Hw & Hmsg & Hgood & Hbad) end.
      rewrite Hrun.
      exists r, (EvAddDocuments (Py.slice chunks i (i + batch_size))
                 :: EvSleep pause :: evs), (S k).
      unfold extend in *; simpl in *. rewrite <- !app_assoc in *. simpl in *.
      split; [reflexivity|]. split; [lia|]. split; [rewrite Hw; reflexivity|].
      split; [exact Hmsg|]. split.
      * intros Hr. destruct (Hgood Hr) as [-> ->]. auto.
      * intros Hr. destruct (Hbad Hr) as (-> & Hpos & ->).
        split; [reflexivity|]. split; [lia|].
        rewrite Nat.sub_0_r. destruct k; [lia|]. simpl. rewrite Nat.sub_0_r. reflexivity.
    + exists (Raise (ExternalError "add_documents")),
        [EvAddDocuments (Py.slice chunks i (i + batch_size))], 1.
      split; [reflexivity|]. split; [lia|]. split; [reflexivity|].
      split; [reflexivity|].
      split; [discriminate|]. intros _. repeat split; lia.
Qed.

Lemma upload_batches_events env batch_size pause (chunks : list chunk) w :
  0 < batch_size ->
  exists r evs,
    Ingest.upload_batches env batch_size pause chunks w = (r, extend w evs) /\
    removed_paths evs = [] /\
    messages evs = [] /\
    length (batch_writes evs) <= Ingest.total_batches (length chunks) batch_size /\
    (forall i, i < length (batch_writes evs) ->
       batch_writes evs !! i = Some (take batch_size (drop (i * batch_size) chunks))) /\
    (r = Ok tt ->
     length (batch_writes evs) = Ingest.total_batches (length chunks) batch_size /\
     concat (batch_writes evs) = chunks /\
     pauses evs = replicate (length (batch_writes evs)) pause) /\
    (r <> Ok tt ->
     r = Raise (ExternalError "add_documents") /\
     pauses evs = replicate (length (batch_writes evs) - 1) pause /\
     writes_accepted env (trace w) evs = false).
Proof.
  intros Hpos. unfold Ingest.upload_batches.
  destruct (Nat.eqb_spec batch_size 0) as [->|_]; [lia|].
  destruct (upload_loop_prefix env batch_size pause chunks
              (Py.range (length chunks) batch_size) w)
    as (r & evs & k & Hrun & Hk & Hw & Hmsg & Hgood & Hbad).
  destruct (upload_loop_run env batch_size pause chunks
              (Py.range (length chunks) batch_size) w)
    as (r' & evs' & Hrun' & Hrem & Hacc & _).
  rewrite Hrun in Hrun'. injection Hrun' as <- Hevs.
  apply app_inv_head in Hevs. subst evs'.
  exists r, evs. split; [exact Hrun|]. split; [exact Hrem|]. split; [exact Hmsg|].
  rewrite range_length in Hk by assumption.
  assert (Hlen : length (batch_writes evs) = k).
  { rewrite Hw, length_map, length_take, range_length by assumption. lia. }
  rewrite Hlen. split; [exact Hk|]. split; [|split].
  - intros i Hi. rewrite Hw, list_lookup_fmap, lookup_take_lt by assumption.
    rewrite range_lookup by assumption.
    assert (His : is_Some (Py.range (length chunks) batch_size !! i)).
    { apply lookup_lt_is_Some. rewrite range_length by assumption. lia. }
    rewrite range_lookup in His by assumption.
    destruct (i * batch_size <? length chunks); [|destruct His; discriminate].
    simpl. unfold Py.slice. do 2 f_equal. lia.
  - intros Hr. destruct (Hgood Hr) as [Hk' Hp].
    split; [rewrite Hk', range_length by assumption; reflexivity|].
    split; [|exact Hp].
    rewrite Hw, Hk', firstn_all. unfold Py.range.
    rewrite range_from_concat by lia. reflexivity.
  - intros Hr. destruct (Hbad Hr) as (He & _ & Hp). split; [exact He|].
    split; [exact Hp|].
    destruct (writes_accepted env (trace w) evs); [|reflexivity].
    exfalso. apply Hr. apply Hacc. reflexivity.
Qed.

(** X4. The batch loop stops at the first write the store refuses.  The
    writes made are a prefix of the batches in order, the [i]-th being
    [chunks[i*B : i*B + B]], there are never more than
    [(L + B - 1) // B] of them, and the loop pauses once after every
    accepted write: as many pauses as writes when it completes, one
    fewer when a write was refused, in which case the exception of the
    store leaves the loop. *)
Theorem upload_batches_stops_at_first_refusal env batch_size pause
    (chunks : list chunk) fs :
  0 < batch_size ->
  let run := Ingest.upload_batches env batch_size pause chunks (initial fs) in
  let writes := batch_writes (trace (snd run)) in
  files (snd run) = fs /\
  length writes <= Ingest.total_batches (length chunks) batch_size /\
  (forall i, i < length writes ->
     writes !! i = Some (take batch_size (drop (i * batch_size) chunks))) /\
  (fst run = Ok tt ->
   length writes = Ingest.total_batches (length chunks) batch_size /\
   pauses (trace (snd run)) = replicate (length writes) pause) /\
  (fst run <> Ok tt ->
   fst run = Raise (ExternalError "add_documents") /\
   pauses (trace (snd run)) = replicate (length writes - 1) pause /\
   writes_accepted env [] (trace (snd run)) = false).
Proof.
  intros Hpos.
  destruct (upload_batches_events env batch_size pause chunks (initial fs) Hpos)
    as (r & evs & Hrun & _ & _ & Hle & Hslice & Hgood & Hbad).
  cbv zeta. rewrite Hrun. simpl.
  split; [reflexivity|]. split; [exact Hle|]. split; [exact Hslice|].
  split; [intros Hr; destruct (Hgood Hr) as (? & ? & ?); auto|exact Hbad].
Qed.

Lemma upload_batches_stops_at_first_refusal_witness :
  let run :=
    Ingest.upload_batches (Samples.refusing_after 1) 2 2
      ["c1"; "c2"; "c3"; "c4"; "c5"]%string (initial ∅) in
  (0 < 2)%nat /\
  fst run = Raise (ExternalError "add_documents") /\
  pauses (trace (snd run))
  = replicate (length (batch_writes (trace (snd run))) - 1) 2%nat.
Proof.
  pose proof (upload_batches_stops_at_first_refusal (Samples.refusing_after 1) 2 2
                ["c1"; "c2"; "c3"; "c4"; "c5"]%string ∅) as H.
  cbv zeta in *. split; [lia|].
  destruct H as (_ & _ & _ & _ & Hbad); [lia|].
  destruct Hbad as (He & Hp & _); [vm_compute; discriminate|].
  split; assumption.
Defined.

(** X5. When [upload_syllabus] answers 200, the number it reports is the
    number of chunks of the splitter, the batches written to the store
    concatenate to exactly those chunks, each batch holds between 1
    and 50 of them, there are [(L + 49) // 50] batches, and the handler
    paused one second after each. *)
Theorem upload_syllabus_stores_every_chunk env fs name resp w' :
  App.upload_syllabus env (Some name) (initial fs) = (Ok resp, w') ->
  status resp = 200 ->
  exists pages chunks,
    loader_load env (saved_path env name) = Some pages /\
    split_documents env pages = Some chunks /\
    payload resp = Memorized (length chunks) /\
    concat (batch_writes (trace w')) = chunks /\
    Forall (fun b => 0 < length b <= 50) (batch_writes (trace w')) /\
    length (batch_writes (trace w')) = Ingest.total_batches (length chunks) 50 /\
    pauses (trace w') = replicate (length (batch_writes (trace w'))) 1.
Proof.
  unfold App.upload_syllabus.
  destruct (String.eqb name EmptyString); [intros [= <- <-]; discriminate|].
  unfold Os.save. fold (saved_path env name). set (p := saved_path env name).
  destruct (String.eqb (secure_filename env name) EmptyString);
    [unfold bind, raise; discriminate|].
  unfold bind at 1. unfold try_except. unfold bind at 1. unfold external at 1.
  assert (Hin : bool_decide (p ∈ fs ∪ {[p]}) = true)
    by (apply bool_decide_eq_true; set_solver).
  destruct (loader_load env p) as [pages|]; simpl;
    [|unfold raise, ret; intros [= <- <-]; discriminate].
  unfold ret at 1. unfold bind at 1. unfold external at 1.
  destruct (split_documents env pages) as [chunks|] eqn:Hsplit; simpl;
    [|unfold raise, ret; intros [= <- <-]; discriminate].
  unfold ret at 1. unfold bind at 1.
  match goal with |- context [Ingest.upload_batches env 50 1 chunks ?w1] =>
    destruct (upload_batches_events env 50 1 chunks w1)
      as (r & evs & Hrun & Hrem & _ & Hle & Hslice & Hgood & _); [lia|] end.
  destruct r as [[]|e]; rewrite Hrun;
    [|rewrite (upload_batches_exception _ _ _ _ _ _ _ Hrun)]; simpl;
    [|unfold ret; intros [= <- <-]; discriminate].
  destruct (Hgood eq_refl) as (Hlen & Hcat & Hp).
  unfold Os.remove, bind, emit, ret, extend; simpl. rewrite Hin.
  intros [= <- <-] _. simpl.
  exists pages, chunks. split; [reflexivity|]. split; [exact Hsplit|].
  split; [reflexivity|].
  rewrite !batch_writes_app, !pauses_app. simpl. rewrite !app_nil_r.
  split; [exact Hcat|]. split; [|split; [exact Hlen | exact Hp]].
  apply Forall_lookup. intros i b Hb.
  assert (Hi : i < length (batch_writes evs)) by (apply lookup_lt_is_Some; eauto).
  rewrite (Hslice i Hi) in Hb. injection Hb as <-.
  rewrite length_take, length_drop.
  assert (i * 50 < length chunks); [|lia].
  rewrite Hlen in Hi. unfold Ingest.total_batches in Hi.
  pose proof (Nat.Div0.mul_div_le (length chunks + 50 - 1) 50). lia.
Qed.

Lemma upload_syllabus_stores_every_chunk_witness :
  let run :=
    App.upload_syllabus (Demo.env Demo.syllabus None None true [])
      (Some "notes.pdf"%string) (initial ∅) in
  fst run = Ok (Resp 200 (Memorized 3)) /\
  concat (batch_writes (trace (snd run))) = ["c1"; "c2"; "c3"]%string /\
  pauses (trace (snd run)) = [1%nat].
Proof.
  cbv zeta.
  destruct (upload_syllabus_stores_every_chunk
              (Demo.env Demo.syllabus None None true []) ∅ "notes.pdf"
              (Resp 200 (Memorized 3))
              (snd (App.upload_syllabus (Demo.env Demo.syllabus None None true [])
                      (Some "notes.pdf"%string) (initial ∅))))
    as (pages & chunks & _ & Hsplit & _ & Hcat & _ & Hlen & Hp);
    [vm_compute; reflexivity | reflexivity |].
  simpl in Hsplit. injection Hsplit as <-.
  split; [vm_compute; reflexivity|]. split; [exact Hcat|].
  rewrite Hp, Hlen. reflexivity.
Defined.




(** X7. [grade_image] answers 400 for a request without image, without
    topic or with an empty file name, and has then saved nothing and
    called nothing.  For a complete request it never answers 400: when
    [secure_filename] leaves nothing of the name, [file.save] raises
    outside the [try] and the exception escapes the handler;
    otherwise the handler replies and the path it saved to is gone
    afterwards, every other file being as before. *)
Theorem grade_image_rejects_before_saving env image topic fs :
  let run := App.grade_image env image topic (initial fs) in
  (image = None \/ topic = None \/ image = Some EmptyString ->
   snd run = initial fs /\
   exists msg, fst run = Ok (Resp 400 (ErrorMsg msg))) /\
  (forall name t, image = Some name -> topic = Some t -> name <> EmptyString ->
   if String.eqb (secure_filename env name) EmptyString
   then run = (Raise (IsADirectoryError (saved_path env name)), initial fs)
   else exists resp,
          fst run = Ok resp /\ status resp <> 400 /\
          files (snd run) = fs ∖ {[ saved_path env name ]}).
Proof.
  cbv zeta. split.
  - intros [-> | [-> | ->]].
    + split; [reflexivity|]. eexists; reflexivity.
    + destruct image; (split; [reflexivity|]; eexists; reflexivity).
    + destruct topic; (split; [reflexivity|]; eexists; reflexivity).
  - intros name t -> -> Hname.
    destruct (String.eqb_spec (secure_filename env name) EmptyString) as [Hsec|Hsec].
    + unfold App.grade_image. apply String.eqb_neq in Hname. rewrite Hname.
      unfold Os.save, bind. fold (saved_path env name).
      rewrite Hsec. reflexivity.
    + destruct (grade_image_exits env fs name t Hname Hsec)
        as (x & ctx & evs & resp & w' & Hrun & Hfiles & Hstatus & _).
      rewrite Hrun. exists resp. split; [reflexivity|]. split; [|exact Hfiles].
      rewrite Hstatus. destruct x; simpl; lia.
Qed.

Lemma grade_image_rejects_before_saving_witness :
  App.grade_image Samples.name_emptied (Some ".."%string) (Some "ohm"%string) (initial ∅)
  = (Raise (IsADirectoryError "uploads/"), initial ∅).
Proof.
  pose proof (grade_image_rejects_before_saving Samples.name_emptied
                (Some ".."%string) (Some "ohm"%string) ∅) as H.
  cbv zeta in H. destruct H as [_ H].
  apply (H ".."%string "ohm"%string eq_refl eq_refl). discriminate.
Defined.

End Batches.

(** ** The exam of [quizadded.py] *)

Lemma asked_app a b : asked (a ++ b) = asked a ++ asked b.
Proof. induction a as [|[] a IH]; simpl; rewrite ?IH; reflexivity. Qed.

Lemma asked_options opts : asked (map EvOption opts) = [].
Proof. induction opts; simpl; auto. Qed.

Lemma ask_question_asked env i q score w :
  exists r evs,
    QuizAdded.ask_question env i q score w = (r, extend w evs) /\
    (asked evs = [] \/ asked evs = [i]) /\
    (forall s, r = Ok s -> asked evs = [i] /\ (s = score \/ s = score + 1)).
Proof.
  unfold QuizAdded.ask_question.
  unfold bind at 1. unfold lift at 1.
  destruct (Py.getitem q "question") as [text|e]; simpl.
  2: { exists (Raise e), []. rewrite extend_nil.
       split; [reflexivity|]. split; [auto|discriminate]. }
  unfold bind at 1. rewrite print_run.
  destruct (console_renders env (QuizAdded.question_line i text)); simpl.
  2: { exists (Raise MarkupError), []. rewrite extend_nil.
       split; [reflexivity|]. split; [auto|discriminate]. }
  unfold bind at 1. unfold lift at 1.
  destruct (Py.getitem q "options") as [options|e]; simpl.
  2: { exists (Raise e), [EvQuestion i text].
       split; [reflexivity|]. split; [auto|discriminate]. }
  unfold bind at 1. unfold lift at 1.
  destruct (Py.iter options) as [opts|e]; simpl.
  2: { exists (Raise e), [EvQuestion i text].
       split; [reflexivity|]. split; [auto|discriminate]. }
  unfold bind at 1. rewrite show_options_run.
  unfold bind at 1. rewrite emit_run. rewrite !extend_extend.
  assert (Hasked0 : asked (EvQuestion i text :: map EvOption opts ++ [EvAsk i]) = [i]).
  { simpl. rewrite asked_app, asked_options. reflexivity. }
  assert (Hasked : forall b,
            asked ((EvQuestion i text :: map EvOption opts ++ [EvAsk i])
                   ++ [EvVerdict b]) = [i]).
  { intros b. rewrite asked_app, Hasked0. reflexivity. }
  unfold bind at 1. unfold lift at 1.
  destruct (prompt_ask env i) as [typed|e]; simpl.
  2: { eexists (Raise e), _. split; [reflexivity|].
       split; [right; exact Hasked0|discriminate]. }
  unfold bind at 1. unfold lift at 1.
  destruct (Py.getitem q "answer") as [answer|e]; simpl.
  2: { eexists (Raise e), _. split; [reflexivity|].
       split; [right; exact Hasked0|discriminate]. }
  unfold bind at 1. unfold lift at 1, QuizAdded.correct_letter.
  destruct answer as [| | |a| |]; simpl;
    try (eexists (Raise AttributeError), _; split; [reflexivity|];
         split; [right; exact Hasked0|discriminate]).
  destruct (String.eqb _ _).
  - unfold bind, ret. rewrite emit_run, extend_extend.
    eexists _, _. split; [reflexivity|].
    split; [right; apply Hasked|]. intros s [= <-]. split; [apply Hasked|auto].
  - unfold bind at 1. unfold lift at 1. unfold bind at 1. rewrite print_run.
    destruct (console_renders env _); simpl.
    + unfold ret. rewrite extend_extend.
      eexists _, _. split; [reflexivity|].
      split; [right; apply Hasked|]. intros s [= <-]. split; [apply Hasked|auto].
    + eexists (Raise MarkupError), _. split; [reflexivity|].
      split; [right; exact Hasked0|discriminate].
Qed.

(** X8. The exam asks the questions in order, without skipping or
    repeating one: the questions shown are numbered [i, i+1, ...], up
    to the first one that cannot be shown or judged.  When the exam
    completes, every question was asked and the score grew by at most
    one point per question. *)
Theorem exam_loop_asks_in_order env qs : forall i score w,
  let run := QuizAdded.exam_loop env i qs score w in
  exists k evs,
    trace (snd run) = trace w ++ evs /\
    asked evs = seq i k /\ (k <= length qs)%nat /\
    (forall s, fst run = Ok s ->
       k = length qs /\ score <= s <= score + Z.of_nat (length qs)).
Proof.
  induction qs as [|q qs IH]; intros i score w; simpl.
  - exists 0%nat, []. rewrite app_nil_r. split; [reflexivity|].
    split; [reflexivity|]. split; [lia|].
    intros s [= <-]. split; [reflexivity|lia].
  - unfold bind.
    destruct (ask_question_asked env i q score w) as (r & evs & Hrun & Hask & Hok).
    rewrite Hrun. destruct r as [score'|e].
    + destruct (Hok score' eq_refl) as [Hi Hs].
      destruct (IH (S i) score' (extend w evs)) as (k & evs' & Htr & Hasked & Hk & Hgood).
      exists (S k), (evs ++ evs'). simpl in *.
      split; [rewrite Htr, app_assoc; reflexivity|].
      split; [rewrite asked_app, Hi, Hasked; reflexivity|].
      split; [lia|].
      intros s Hs'. destruct (Hgood s Hs') as [-> Hb]. split; [reflexivity|]. lia.
    + simpl. destruct Hask as [Ha|Ha].
      * exists 0%nat, evs. split; [reflexivity|]. split; [exact Ha|]. split; [lia|].
        discriminate.
      * exists 1%nat, evs. split; [reflexivity|]. split; [exact Ha|]. split; [lia|].
        discriminate.
Qed.

Lemma exam_loop_asks_in_order_witness :
  let qs :=
    [JObj [("question"%string, JStr "Q1");
           ("options"%string, JArr [JStr "A) a"; JStr "B) b"]);
           ("answer"%string, JStr "A")]] in
  let run :=
    QuizAdded.exam_loop (Demo.env Demo.syllabus None None true ["A"%string])
      0 qs 0 (initial ∅) in
  fst run = Ok 1 /\ asked (trace (snd run)) = [0%nat].
Proof.
  cbv zeta.
  match goal with |- fst (QuizAdded.exam_loop ?env 0%nat ?qs 0 ?w) = _ /\ _ =>
    pose proof (exam_loop_asks_in_order env qs 0%nat 0 w) as H end.
  cbv zeta in H. destruct H as (k & evs & Htr & Hasked & _ & Hdone).
  assert (Hrun : fst (QuizAdded.exam_loop (Demo.env Demo.syllabus None None true ["A"%string])
                        0 [JObj [("question"%string, JStr "Q1");
                                 ("options"%string, JArr [JStr "A) a"; JStr "B) b"]);
                                 ("answer"%string, JStr "A")]] 0 (initial ∅)) = Ok 1)
    by (vm_compute; reflexivity).
  split; [exact Hrun|].
  destruct (Hdone _ Hrun) as [-> _]. rewrite Htr. exact Hasked.
Defined.

Lemma upper_lower_ascii a : PyStr.upper_ascii (PyStr.lower_ascii a) = PyStr.upper_ascii a.
Proof. by_cases_on_ascii a. Qed.

Lemma upper_lower s : PyStr.upper (PyStr.lower s) = PyStr.upper s.
Proof. induction s as [|a s IH]; simpl; [|rewrite IH, upper_lower_ascii]; reflexivity. Qed.

Lemma lower_paren a : Ascii.eqb (PyStr.lower_ascii a) ")" = Ascii.eqb a ")".
Proof. by_cases_on_ascii a. Qed.

Lemma lower_isspace a : PyStr.isspace (PyStr.lower_ascii a) = PyStr.isspace a.
Proof. by_cases_on_ascii a. Qed.

Lemma before_lower s : PyStr.before ")" (PyStr.lower s) = PyStr.lower (PyStr.before ")" s).
Proof.
  induction s as [|a s IH]; simpl; [reflexivity|].
  rewrite lower_paren. destruct (Ascii.eqb a ")"); simpl; [|rewrite IH]; reflexivity.
Qed.

Lemma lstrip_lower s : PyStr.lstrip (PyStr.lower s) = PyStr.lower (PyStr.lstrip s).
Proof.
  induction s as [|a s IH]; simpl; [reflexivity|].
  rewrite lower_isspace. destruct (PyStr.isspace a); [exact IH | reflexivity].
Qed.

Lemma rstrip_lower s : PyStr.rstrip (PyStr.lower s) = PyStr.lower (PyStr.rstrip s).
Proof.
  induction s as [|a s IH]; simpl; [reflexivity|].
  rewrite IH, lower_isspace.
  destruct (PyStr.rstrip s); simpl; [destruct (PyStr.isspace a)|]; reflexivity.
Qed.

Lemma before_with_text letter text :
  Spec.occurs ")" letter = false ->
  PyStr.before ")" (letter +:+ ")" +:+ text) = PyStr.before ")" letter.
Proof.
  induction letter as [|a s IH]; simpl; [reflexivity|].
  destruct (Ascii.eqb a ")"); simpl; [discriminate|].
  intros H. rewrite (IH H). reflexivity.
Qed.

(** X9. Only the label of the stored answer counts, in either case: an
    option text after the closing parenthesis is ignored, a stored
    answer in lower case names the same letter, and the label the
    prompt returns is compared without regard to case. *)
Theorem answer_letter_is_what_counts chosen stored :
  (forall letter text,
     Spec.occurs ")" letter = false ->
     QuizAdded.correct_letter (JStr (letter +:+ ")" +:+ text))
     = QuizAdded.correct_letter (JStr letter)) /\
  QuizAdded.correct_letter (JStr (PyStr.lower stored))
  = QuizAdded.correct_letter (JStr stored) /\
  judged_correct (PyStr.lower chosen) stored = judged_correct chosen stored.
Proof.
  split; [|split].
  - intros letter text H. simpl. rewrite (before_with_text _ _ H). reflexivity.
  - simpl. unfold PyStr.strip.
    rewrite before_lower, lstrip_lower, rstrip_lower, upper_lower. reflexivity.
  - unfold judged_correct. rewrite upper_lower. reflexivity.
Qed.

Lemma answer_letter_is_what_counts_witness :
  QuizAdded.correct_letter (JStr "b) Ohm's law")
  = QuizAdded.correct_letter (JStr "b").
Proof.
  destruct (answer_letter_is_what_counts "a" "b") as [H _].
  exact (H "b"%string " Ohm's law"%string eq_refl).
Defined.

(** X10. The report card of [start_quiz] has a green border exactly from
    three correct answers on, whatever the number of questions asked:
    below three the percentage is under 60 and the border is red. *)
Theorem report_is_green_from_three_correct score :
  QuizAddedScript.report_style (QuizAdded.percentage score) = "green"%string <->
  3 <= score.
Proof.
  unfold QuizAddedScript.report_style.
  assert (H3 : (QuizAdded.percentage 3 == 60)%Q) by (vm_compute; reflexivity).
  assert (H2 : (QuizAdded.percentage 2 == 40)%Q) by (vm_compute; reflexivity).
  destruct (Qlt_le_dec (QuizAdded.percentage score) 60) as [H|H].
  - split; [discriminate|]. intros Hs. exfalso.
    pose proof (percentage_le 3 score Hs) as Hle. lra.
  - split; [|reflexivity]. intros _.
    destruct (Z_lt_le_dec score 3) as [Hlt|Hge]; [|exact Hge]. exfalso.
    assert (Hs : score <= 2) by lia.
    pose proof (percentage_le score 2 Hs) as Hle. lra.
Qed.

(** ** The main loop and the tutors *)

Lemma rstrip_suffix_not_blank u : forall n,
  PyStr.drop n (PyStr.rstrip u) = EmptyString \/
  all_space (PyStr.drop n (PyStr.rstrip u)) = false.
Proof.
  induction u as [|a u IH]; intros n; simpl.
  - destruct n; auto.
  - destruct (PyStr.rstrip u) as [|b r] eqn:Hr.
    + destruct (PyStr.isspace a) eqn:Ha.
      * destruct n; auto.
      * destruct n as [|[|n]]; simpl; auto. rewrite Ha. auto.
    + destruct n as [|n]; simpl.
      * right. destruct (IH 0%nat) as [H|H]; [discriminate|].
        simpl in H. rewrite H. apply andb_false_r.
      * apply (IH n).
Qed.

Lemma lstrip_not_blank t :
  all_space t = false ->
  exists a r, PyStr.lstrip t = String a r /\ PyStr.isspace a = false.
Proof.
  induction t as [|a t IH]; simpl; [discriminate|].
  destruct (PyStr.isspace a) eqn:Ha; simpl; [exact IH | eauto].
Qed.

Lemma strip_not_blank t : all_space t = false -> PyStr.strip t <> EmptyString.
Proof.
  intros H. unfold PyStr.strip.
  destruct (lstrip_not_blank t H) as (a & r & -> & Ha). simpl. destruct (PyStr.rstrip r); [rewrite Ha|]; discriminate.
Qed.

Lemma lower_is_space a : Ascii.eqb " " (PyStr.lower_ascii a) = true -> PyStr.isspace a = true.
Proof. destruct a as [[] [] [] [] [] [] [] []]; try reflexivity; discriminate. Qed.

(** X11. The main loop never starts a quiz without a topic: a line
    routed to [start_quiz] has a topic that is not empty.  A line that
    is the bare word quiz, in any case and with any surrounding
    whitespace, is sent to the tutor as a question. *)
Theorem route_never_starts_a_quiz_without_topic line :
  (forall topic, QuizAddedScript.route line = QuizAddedScript.Quiz topic ->
     topic <> EmptyString) /\
  (PyStr.lower (PyStr.strip line) = "quiz"%string ->
   QuizAddedScript.route line = QuizAddedScript.Ask (PyStr.strip line)).
Proof.
  unfold QuizAddedScript.route. split.
  - intros topic.
    destruct (_ || _); [discriminate|].
    destruct (PyStr.startswith "quiz " (PyStr.lower (PyStr.strip line))) eqn:Hq.
    2: { destruct (negb _); discriminate. }
    intros [= <-]. apply strip_not_blank.
    unfold PyStr.strip in *.
    pose proof (rstrip_suffix_not_blank (PyStr.lstrip line) 4) as H.
    destruct (PyStr.rstrip (PyStr.lstrip line)) as [|c1 [|c2 [|c3 [|c4 [|c5 rest]]]]];
      cbn [PyStr.lower PyStr.startswith] in Hq; try discriminate;
      repeat (apply andb_prop in Hq as [? Hq]); try discriminate.
    cbn [PyStr.drop all_space] in *. destruct H as [H|H]; [discriminate|].
    match goal with
    | Hc : Ascii.eqb " " (PyStr.lower_ascii c5) = true |- _ =>
        rewrite (lower_is_space _ Hc) in H
    end.
    exact H.
  - intros H. rewrite H. simpl.
    destruct (PyStr.strip line); [discriminate | reflexivity].
Qed.

Lemma route_never_starts_a_quiz_without_topic_witness :
  QuizAddedScript.route "  QUIZ  " = QuizAddedScript.Ask "QUIZ".
Proof.
  destruct (route_never_starts_a_quiz_without_topic "  QUIZ  ") as [_ H].
  exact (H eq_refl).
Defined.

Lemma console_no_message evs : forallb console_event evs = true -> messages evs = [].
Proof. induction evs as [|[] evs IH]; simpl; intros H; try discriminate; auto. Qed.

(** A [try] whose [except] clause prints the exception. *)
Lemma try_print_run env (line : exn -> fstring) (body : M unit) w r evs :
  body w = (r, extend w evs) ->
  try_except body (fun e => Console.print env (line e) (EvFailed e)) w
  = match r with
    | Ok a => (Ok a, extend w evs)
    | Raise e =>
        if is_exception e then
          if console_renders env (line e)
          then (Ok tt, extend w (evs ++ [EvFailed e]))
          else (Raise MarkupError, extend w evs)
        else (Raise e, extend w evs)
    end.
Proof.
  intros H. unfold try_except. rewrite H. destruct r as [a|e]; [reflexivity|].
  destruct (is_exception e); [|reflexivity].
  rewrite print_run, extend_extend. reflexivity.
Qed.

(** A print outside every [try], and what follows it. *)
Lemma banner_run {A} env text shown (rest : M A) w :
  (Console.print env text shown ;;; rest) w
  = if console_renders env text then rest (extend w [shown])
    else (Raise MarkupError, w).
Proof.
  unfold bind. rewrite print_run. destruct (console_renders env text); reflexivity.
Qed.

(** The [try] block of both tutors: one prompt at most, and the panel
    as its last step. *)
Lemma tutor_body_run (notice : string) (prompt_of : string -> string -> string)
    (pick : json -> M string) env question w :
  (forall m w0, Py.truthy m = false -> pick m w0 = (Ok notice, w0)) ->
  (forall m w0, Py.truthy m = true -> pick m w0 = (Store.join_contents m, w0)) ->
  exists r evs,
    (query_vector <- Store.embed env question ;;
     matches <- Store.rpc env query_vector 0.5%Q 4%nat ;;
     context <- pick matches ;;
     let prompt := prompt_of context question in
     ai_response <- Gen.generate env prompt ;;
     text <- Gen.text ai_response ;;
     emit (EvPanel text)) w = (r, extend w evs) /\
    Forall (fun call => call = (0.5%Q, 4%nat)) (rpc_calls evs) /\
    match r with
    | Ok _ =>
        exists pre context text,
          evs = pre ++ [EvPanel text] /\ messages pre = [] /\
          prompts_sent pre = [prompt_of context question] /\
          generate_content env (prompt_of context question) = Some (Some text)
    | Raise e =>
        is_exception e = true /\ messages evs = [] /\
        (length (prompts_sent evs) <= 1)%nat
    end.
Proof.
  intros Hfalse Htrue.
  unfold Gen.generate, Gen.text, Store.embed, Store.rpc, bind,
    external, emit, lift, ret, raise, extend; simpl.
  destruct (embed_query env question) as [v|]; simpl.
  2: { exists (Raise (ExternalError "embed_query")), [EvEmbed question].
       split; [reflexivity|]. split; [constructor|]. simpl. auto. }
  destruct (match_documents env v _ _) as [m|]; simpl.
  2: { exists (Raise (ExternalError "match_documents")),
         [EvEmbed question; EvRpc 0.5%Q 4%nat].
       rewrite <- !app_assoc. split; [reflexivity|]. split; [repeat constructor|].
       simpl. auto. }
  assert (Hpick : exists o, (forall w0, pick m w0 = (o, w0)) /\
            (forall e, o = Raise e -> is_exception e = true)).
  { destruct (Py.truthy m) eqn:Ht.
    - exists (Store.join_contents m). split; [intros w0; apply Htrue, Ht|].
      apply join_contents_exception.
    - exists (Ok notice). split; [intros w0; apply Hfalse, Ht | discriminate]. }
  destruct Hpick as (o & Hpick & Hexn). rewrite Hpick.
  destruct o as [context|e]; simpl.
  2: { exists (Raise e), [EvEmbed question; EvRpc 0.5%Q 4%nat].
       rewrite <- !app_assoc. split; [reflexivity|]. split; [repeat constructor|].
       simpl. split; [apply Hexn; reflexivity | auto]. }
  destruct (generate_content env _) as [[text|]|] eqn:Hgen; simpl.
  - exists (Ok tt),
      ([EvEmbed question; EvRpc 0.5%Q 4%nat; EvGenerate (prompt_of context question)]
       ++ [EvPanel text]).
    rewrite <- !app_assoc. split; [reflexivity|]. split; [repeat constructor|].
    eexists _, context, text. split; [reflexivity|]. auto.
  - exists (Raise (ExternalError "response.text")),
      [EvEmbed question; EvRpc 0.5%Q 4%nat; EvGenerate (prompt_of context question)].
    rewrite <- !app_assoc. split; [reflexivity|]. split; [repeat constructor|].
    simpl. auto.
  - exists (Raise (ExternalError "generate_content")),
      [EvEmbed question; EvRpc 0.5%Q 4%nat; EvGenerate (prompt_of context question)].
    rewrite <- !app_assoc. split; [reflexivity|]. split; [repeat constructor|].
    simpl. auto.
Qed.

Lemma tutor_run (notice : string) (prompt_of : string -> string -> string)
    (pick : json -> M string) (banner : fstring) (line : exn -> fstring)
    env question w :
  (forall m w0, Py.truthy m = false -> pick m w0 = (Ok notice, w0)) ->
  (forall m w0, Py.truthy m = true -> pick m w0 = (Store.join_contents m, w0)) ->
  exists r evs,
    (Console.print env banner (EvBanner question) ;;;
     try_except
       (query_vector <- Store.embed env question ;;
        matches <- Store.rpc env query_vector 0.5%Q 4%nat ;;
        context <- pick matches ;;
        let prompt := prompt_of context question in
        ai_response <- Gen.generate env prompt ;;
        text <- Gen.text ai_response ;;
        emit (EvPanel text))
       (fun e => Console.print env (line e) (EvFailed e))) w
    = (r, extend w evs) /\
    tutor_outcome env banner prompt_of question r evs.
Proof.
  intros Hfalse Htrue. rewrite banner_run. unfold tutor_outcome.
  destruct (console_renders env banner) eqn:Hbanner.
  2: { exists (Raise MarkupError), []. rewrite extend_nil.
       split; [reflexivity|]. split; [constructor|]. split; [auto|]. right. auto. }
  destruct (tutor_body_run notice prompt_of pick env question
              (extend w [EvBanner question]) Hfalse Htrue)
    as (r & evs & Hrun & Hrpc & Hr).
  cbv zeta in Hrun |- *. rewrite (try_print_run env line _ _ _ _ Hrun).
  destruct r as [[]|e].
  - destruct Hr as (pre & context & text & -> & Hmsg & Hsent & Hgen).
    rewrite extend_extend. eexists (Ok tt), _. split; [reflexivity|].
    split; [exact Hrpc|]. split; [discriminate|]. left. split; [reflexivity|].
    exists (EvBanner question :: pre), (EvPanel text).
    split; [reflexivity|]. split; [exact Hmsg|]. right. exists context, text. auto.
  - destruct Hr as (-> & Hmsg & Hsent).
    destruct (console_renders env (line e)); rewrite extend_extend.
    + eexists (Ok tt), _. split; [reflexivity|].
      split; [simpl; rewrite rpc_calls_app, app_nil_r; exact Hrpc|].
      split; [discriminate|]. left. split; [reflexivity|].
      exists (EvBanner question :: evs), (EvFailed e).
      split; [reflexivity|]. split; [exact Hmsg|]. left. eauto.
    + eexists (Raise MarkupError), _. split; [reflexivity|].
      split; [exact Hrpc|]. split; [discriminate|]. right. auto.
Qed.

Lemma quizadded_ask_tutor_run env question w :
  exists r evs,
    QuizAdded.ask_tutor env question w = (r, extend w evs) /\
    tutor_outcome env (QuizAdded.searching question) QuizAdded.tutor_prompt question r evs.
Proof.
  apply (tutor_run QuizAdded.no_context_notice QuizAdded.tutor_prompt
           (fun matches => if Py.truthy matches then lift (Store.join_contents matches)
                           else ret QuizAdded.no_context_notice)).
  - intros m w0 ->. reflexivity.
  - intros m w0 ->. reflexivity.
Qed.

Lemma backend_ask_tutor_run env question w :
  exists r evs,
    Backend.ask_tutor env question w = (r, extend w evs) /\
    tutor_outcome env (Backend.question_line question) Backend.tutor_prompt question r evs.
Proof.
  apply (tutor_run Backend.no_context_notice Backend.tutor_prompt
           (fun matches => if negb (Py.truthy matches) then ret Backend.no_context_notice
                           else lift (Store.join_contents matches))).
  - intros m w0 ->. reflexivity.
  - intros m w0 ->. reflexivity.
Qed.

(** The [try] block of [start_quiz]. *)
Lemma start_quiz_body_run env topic w :
  exists r evs,
    (query_vector <- Store.embed env topic ;;
     data <- Store.rpc env query_vector 0.4%Q 5%nat ;;
     context <- lift (Store.join_contents data) ;;
     let prompt := QuizAdded.json_prompt context topic in
     ai_response <- Gen.generate env prompt ;;
     raw_text <- Gen.text ai_response ;;
     quiz_data <- lift (QuizAdded.extract raw_text) ;;
     questions <- lift (Py.iter quiz_data) ;;
     score <- QuizAdded.exam_loop env 0 questions 0 ;;
     emit (EvReport score (QuizAdded.percentage score))) w = (r, extend w evs) /\
    Forall (fun call => call = (0.4%Q, 5%nat)) (rpc_calls evs) /\
    (length (prompts_sent evs) <= 1)%nat /\
    match r with
    | Ok _ =>
        exists pre score,
          evs = pre ++ [EvReport score (QuizAdded.percentage score)] /\ messages pre = []
    | Raise e =>
        messages evs = [] /\
        (is_exception e = false -> exists j, prompt_ask env j = Raise e)
    end.
Proof.
  unfold Gen.generate, Gen.text, Store.embed, Store.rpc,
    bind, external, emit, lift, ret, raise, extend; simpl.
  destruct (embed_query env topic) as [v|]; simpl.
  2: { exists (Raise (ExternalError "embed_query")), [EvEmbed topic].
       split; [reflexivity|]. split; [constructor|]. simpl.
       split; [lia|]. split; [reflexivity | discriminate]. }
  destruct (match_documents env v _ _) as [m|]; simpl.
  2: { exists (Raise (ExternalError "match_documents")), [EvEmbed topic; EvRpc 0.4%Q 5%nat].
       rewrite <- !app_assoc. split; [reflexivity|]. split; [repeat constructor|]. simpl.
       split; [lia|]. split; [reflexivity | discriminate]. }
  destruct (Store.join_contents m) as [context|e] eqn:Hj; simpl.
  2: { exists (Raise e), [EvEmbed topic; EvRpc 0.4%Q 5%nat].
       rewrite <- !app_assoc. split; [reflexivity|]. split; [repeat constructor|]. simpl.
       split; [lia|]. split; [reflexivity|].
       rewrite (join_contents_exception _ _ Hj). discriminate. }
  set (sent := [EvEmbed topic; EvRpc 0.4%Q 5%nat;
                EvGenerate (QuizAdded.json_prompt context topic)]).
  assert (Hsent_rpc : Forall (fun call => call = (0.4%Q, 5%nat)) (rpc_calls sent))
    by (repeat constructor).
  destruct (generate_content env _) as [[raw|]|]; simpl.
  2,3: eexists (Raise _), sent; rewrite <- !app_assoc;
    (split; [reflexivity|]); (split; [exact Hsent_rpc|]); simpl;
    (split; [lia|]); (split; [reflexivity | discriminate]).
  destruct (QuizAdded.extract raw) as [quiz_data|e] eqn:Hx; simpl.
  2: { exists (Raise e), sent. rewrite <- !app_assoc.
       split; [reflexivity|]. split; [exact Hsent_rpc|]. simpl.
       split; [lia|]. split; [reflexivity|].
       rewrite (extract_exception _ _ Hx). discriminate. }
  destruct (Py.iter quiz_data) as [qs|e] eqn:Hi; simpl.
  2: { exists (Raise e), sent. rewrite <- !app_assoc.
       split; [reflexivity|]. split; [exact Hsent_rpc|]. simpl.
       split; [lia|]. split; [reflexivity|].
       rewrite (iter_exception _ _ Hi). discriminate. }
  match goal with |- context [QuizAdded.exam_loop env 0 qs 0 ?w1] =>
    destruct (exam_loop_run env qs 0%nat 0 w1)
      as (r & evs & Hrun & Hcons & _ & _ & Hint) end.
  rewrite Hrun.
  destruct (console_silent evs Hcons) as (_ & Hsent & Hrpc).
  pose proof (console_no_message evs Hcons) as Hmsg.
  assert (Hr1 : Forall (fun call => call = (0.4%Q, 5%nat)) (rpc_calls (sent ++ evs)))
    by (rewrite rpc_calls_app, Hrpc, app_nil_r; exact Hsent_rpc).
  assert (Hp1 : (length (prompts_sent (sent ++ evs)) <= 1)%nat)
    by (rewrite prompts_sent_app, Hsent; simpl; lia).
  assert (Hm1 : messages (sent ++ evs) = [])
    by (rewrite messages_app, Hmsg; reflexivity).
  destruct r as [score|e].
  - exists (Ok tt), ((sent ++ evs) ++ [EvReport score (QuizAdded.percentage score)]).
    split; [unfold extend; simpl; rewrite <- !app_assoc; reflexivity|].
    split; [rewrite rpc_calls_app; simpl rpc_calls at 2; rewrite app_nil_r; exact Hr1|].
    split; [rewrite prompts_sent_app; simpl prompts_sent at 2; rewrite app_nil_r;
            exact Hp1|].
    exists (sent ++ evs), score. split; [reflexivity | exact Hm1].
  - exists (Raise e), (sent ++ evs).
    split; [unfold extend; simpl; rewrite <- !app_assoc; reflexivity|].
    split; [exact Hr1|]. split; [exact Hp1|]. split; [exact Hm1|].
    intros He. apply Hint; [reflexivity | exact He].
Qed.

Lemma start_quiz_run env topic w :
  exists r evs,
    QuizAdded.start_quiz env topic w = (r, extend w evs) /\
    quiz_outcome env topic r evs.
Proof.
  unfold QuizAdded.start_quiz, quiz_outcome. rewrite banner_run.
  destruct (console_renders env (QuizAdded.banner topic)) eqn:Hbanner.
  2: { exists (Raise MarkupError), []. rewrite extend_nil.
       split; [reflexivity|]. split; [constructor|]. split; [simpl; lia|].
       split; [auto|]. right. left. auto. }
  destruct (start_quiz_body_run env topic (extend w [EvBanner topic]))
    as (r & evs & Hrun & Hrpc & Hsent & Hr).
  cbv zeta in Hrun |- *. rewrite (try_print_run env QuizAdded.failed_line _ _ _ _ Hrun).
  destruct r as [[]|e].
  - destruct Hr as (pre & score & -> & Hmsg).
    rewrite extend_extend. eexists (Ok tt), _. split; [reflexivity|].
    split; [exact Hrpc|]. split; [exact Hsent|]. split; [discriminate|].
    left. split; [reflexivity|].
    exists (EvBanner topic :: pre), (EvReport score (QuizAdded.percentage score)).
    split; [reflexivity|]. split; [exact Hmsg|]. right. eauto.
  - destruct Hr as (Hmsg & Hint).
    destruct (is_exception e) eqn:He;
      [destruct (console_renders env (QuizAdded.failed_line e))|]; rewrite extend_extend.
    + eexists (Ok tt), _. split; [reflexivity|].
      split; [simpl; rewrite rpc_calls_app, app_nil_r; exact Hrpc|].
      split; [simpl; rewrite prompts_sent_app, app_nil_r; exact Hsent|].
      split; [discriminate|]. left. split; [reflexivity|].
      exists (EvBanner topic :: evs), (EvFailed e).
      split; [reflexivity|]. split; [exact Hmsg|]. left. eauto.
    + eexists (Raise MarkupError), _. split; [reflexivity|].
      split; [exact Hrpc|]. split; [exact Hsent|]. split; [discriminate|].
      right. left. auto.
    + destruct e; try discriminate.
      eexists (Raise KeyboardInterrupt), _. split; [reflexivity|].
      split; [exact Hrpc|]. split; [exact Hsent|]. split; [discriminate|].
      right. right. auto.
Qed.

Lemma tutor_outcome_messages env banner prompt_of question r evs :
  tutor_outcome env banner prompt_of question r evs ->
  (length (messages evs) <= 1)%nat /\ (r = Ok tt \/ r = Raise MarkupError).
Proof.
  intros (_ & _ & [(-> & pre & m & -> & Hmsg & Hm) | (-> & Hmsg)]).
  - rewrite messages_app, Hmsg. split; [|auto].
    destruct Hm as [(e & ->) | (c & t & -> & _)]; simpl; lia.
  - rewrite Hmsg. simpl. split; [lia | auto].
Qed.

Lemma quiz_outcome_messages env topic r evs :
  quiz_outcome env topic r evs ->
  (length (messages evs) <= 1)%nat /\
  (r = Ok tt \/ r = Raise MarkupError \/
   (r = Raise KeyboardInterrupt /\ exists j, prompt_ask env j = Raise KeyboardInterrupt)).
Proof.
  intros (_ & _ & _ & [(-> & pre & m & -> & Hmsg & Hm) | [(-> & Hmsg) | (-> & Hmsg & Hj)]]).
  - rewrite messages_app, Hmsg. split; [|auto].
    destruct Hm as [(e & ->) | (s & ->)]; simpl; lia.
  - rewrite Hmsg. simpl. split; [lia | auto].
  - rewrite Hmsg. simpl. split; [lia | auto].
Qed.

(** X12. The main loop of [quizadded.py] ends without an exception only
    when the student types exit or quit, or presses Ctrl-C at its
    prompt.  Otherwise it ends with an exception that nothing catches:
    [EOFError] when the input has ended, [MarkupError] when the console
    could not render a question, a topic or an error message, or
    [KeyboardInterrupt] when the student pressed Ctrl-C at a question of
    a quiz.  At most one closing message is printed per line. *)
Theorem main_loop_exits env keys : forall w,
  exists r evs,
    QuizAddedScript.main_loop env keys w = (r, extend w evs) /\
    (length (messages evs) <= length keys)%nat /\
    (r = Ok tt \/ r = Raise EOFError \/ r = Raise MarkupError \/
     r = Raise KeyboardInterrupt) /\
    (r = Ok tt ->
     exists k, In k keys /\
       (k = QuizAddedScript.CtrlC \/
        exists line, k = QuizAddedScript.Typed line /\
                     QuizAddedScript.route line = QuizAddedScript.Leave)) /\
    (r = Raise KeyboardInterrupt ->
     exists j, prompt_ask env j = Raise KeyboardInterrupt).
Proof.
  induction keys as [|k rest IH]; intros w; simpl.
  - exists (Raise EOFError), []. rewrite extend_nil.
    split; [reflexivity|]. split; [simpl; lia|]. split; [auto|].
    split; discriminate.
  - destruct k as [line|].
    2: { exists (Ok tt), []. rewrite extend_nil.
         split; [reflexivity|]. split; [simpl; lia|]. split; [auto|].
         split; [|discriminate]. intros _. exists QuizAddedScript.CtrlC.
         split; [left; reflexivity | left; reflexivity]. }
    destruct (QuizAddedScript.route line) as [|topic|question|] eqn:Hroute.
    + exists (Ok tt), []. rewrite extend_nil.
      split; [reflexivity|]. split; [simpl; lia|]. split; [auto|].
      split; [|discriminate]. intros _. exists (QuizAddedScript.Typed line).
      split; [left; reflexivity | right; exists line; auto].
    + unfold bind.
      destruct (start_quiz_run env topic w) as (r & evs & Hrun & Hout).
      destruct (quiz_outcome_messages _ _ _ _ Hout) as [Hlen Hr].
      rewrite Hrun. destruct Hr as [-> | [-> | [-> Hj]]].
      * destruct (IH (extend w evs)) as (r' & evs' & Hrun' & Hlen' & Hr' & Hok & Hint).
        rewrite Hrun', extend_extend. exists r', (evs ++ evs').
        split; [reflexivity|]. split; [rewrite messages_app, length_app; lia|].
        split; [exact Hr'|]. split; [|exact Hint].
        intros H. destruct (Hok H) as (k & Hin & Hk). exists k.
        split; [right; exact Hin | exact Hk].
      * exists (Raise MarkupError), evs. split; [reflexivity|]. split; [lia|].
        split; [auto|]. split; discriminate.
      * exists (Raise KeyboardInterrupt), evs. split; [reflexivity|]. split; [lia|].
        split; [auto|]. split; [discriminate | auto].
    + unfold bind.
      destruct (quizadded_ask_tutor_run env question w) as (r & evs & Hrun & Hout).
      destruct (tutor_outcome_messages _ _ _ _ _ _ Hout) as [Hlen Hr].
      rewrite Hrun. destruct Hr as [-> | ->].
      * destruct (IH (extend w evs)) as (r' & evs' & Hrun' & Hlen' & Hr' & Hok & Hint).
        rewrite Hrun', extend_extend. exists r', (evs ++ evs').
        split; [reflexivity|]. split; [rewrite messages_app, length_app; lia|].
        split; [exact Hr'|]. split; [|exact Hint].
        intros H. destruct (Hok H) as (k & Hin & Hk). exists k.
        split; [right; exact Hin | exact Hk].
      * exists (Raise MarkupError), evs. split; [reflexivity|]. split; [lia|].
        split; [auto|]. split; discriminate.
    + destruct (IH w) as (r & evs & Hrun & Hlen & Hr & Hok & Hint).
      exists r, evs. split; [exact Hrun|]. split; [lia|]. split; [exact Hr|].
      split; [|exact Hint].
      intros H. destruct (Hok H) as (k & Hin & Hk). exists k.
      split; [right; exact Hin | exact Hk].
Qed.

Lemma main_loop_exits_witness :
  fst (QuizAddedScript.main_loop
         (Samples.console_rejecting "[/x]" None)
         [QuizAddedScript.Typed "[/x]"; QuizAddedScript.Typed "exit"] (initial ∅))
  = Raise MarkupError.
Proof.
  destruct (main_loop_exits (Samples.console_rejecting "[/x]" None)
              [QuizAddedScript.Typed "[/x]"; QuizAddedScript.Typed "exit"] (initial ∅))
    as (r & evs & Hrun & _ & Hr & Hok & Hint).
  rewrite Hrun. simpl.
  destruct Hr as [-> | [-> | [-> | ->]]]; try reflexivity; exfalso.
  - vm_compute in Hrun. discriminate.
  - vm_compute in Hrun. discriminate.
  - destruct (Hint eq_refl) as [j Hj]. discriminate.
Defined.

(** X13. [ask_tutor], in [quizadded.py] and in [digital_dean_backend.py],
    leaves the files alone and queries the store with 0.5 and 4.  It
    raises only [MarkupError], when the console cannot render the
    question, which is printed before the [try], or the error message
    of the [except] clause; when the question is not rendered nothing
    else happens.  When it returns, it has ended with exactly one
    closing message, an answer panel or an error message, and calls
    neither the store nor the model after it; an answer panel shows the
    text the model gave for the one prompt that was sent. *)
Theorem tutors_close_with_one_message env question fs :
  let quizadded := QuizAdded.ask_tutor env question (initial fs) in
  let backend := Backend.ask_tutor env question (initial fs) in
  (files (snd quizadded) = fs /\
   Forall (fun call => call = (0.5%Q, 4%nat)) (rpc_calls (trace (snd quizadded))) /\
   (fst quizadded = Ok tt \/ fst quizadded = Raise MarkupError) /\
   (console_renders env (QuizAdded.searching question) = false ->
    quizadded = (Raise MarkupError, initial fs)) /\
   (fst quizadded = Ok tt ->
    exists m, messages (trace (snd quizadded)) = [m] /\
              last (trace (snd quizadded)) = Some m /\
              forall text, m = EvPanel text ->
                exists context,
                  prompts_sent (trace (snd quizadded))
                  = [QuizAdded.tutor_prompt context question] /\
                  generate_content env (QuizAdded.tutor_prompt context question)
                  = Some (Some text))) /\
  (files (snd backend) = fs /\
   Forall (fun call => call = (0.5%Q, 4%nat)) (rpc_calls (trace (snd backend))) /\
   (fst backend = Ok tt \/ fst backend = Raise MarkupError) /\
   (console_renders env (Backend.question_line question) = false ->
    backend = (Raise MarkupError, initial fs)) /\
   (fst backend = Ok tt ->
    exists m, messages (trace (snd backend)) = [m] /\
              last (trace (snd backend)) = Some m /\
              forall text, m = EvPanel text ->
                exists context,
                  prompts_sent (trace (snd backend))
                  = [Backend.tutor_prompt context question] /\
                  generate_content env (Backend.tutor_prompt context question)
                  = Some (Some text))).
Proof.
  assert (Hgen : forall banner prompt_of r evs,
            tutor_outcome env banner prompt_of question r evs ->
            let run := (r, extend (initial fs) evs) in
            files (snd run) = fs /\
            Forall (fun call => call = (0.5%Q, 4%nat)) (rpc_calls (trace (snd run))) /\
            (fst run = Ok tt \/ fst run = Raise MarkupError) /\
            (console_renders env banner = false -> run = (Raise MarkupError, initial fs)) /\
            (fst run = Ok tt ->
             exists m, messages (trace (snd run)) = [m] /\
                       last (trace (snd run)) = Some m /\
                       forall text, m = EvPanel text ->
                         exists context,
                           prompts_sent (trace (snd run)) = [prompt_of context question] /\
                           generate_content env (prompt_of context question)
                           = Some (Some text))).
  { intros banner prompt_of r evs Hout. cbv zeta. simpl.
    pose proof (tutor_outcome_messages _ _ _ _ _ _ Hout) as [_ Hr].
    destruct Hout as (Hrpc & Hbanner & Hcases).
    split; [reflexivity|]. split; [exact Hrpc|]. split; [exact Hr|].
    split; [intros H; destruct (Hbanner H) as [-> ->]; reflexivity|].
    intros ->. destruct Hcases as [(_ & pre & m & -> & Hmsg & Hm) | (H & _)];
      [|discriminate].
    exists m. rewrite messages_app, Hmsg, last_snoc.
    destruct Hm as [(e & ->) | (context & text & -> & Hsent & Hg)].
    - split; [reflexivity|]. split; [reflexivity|]. discriminate.
    - split; [reflexivity|]. split; [reflexivity|]. intros t [= <-].
      exists context. rewrite prompts_sent_app, Hsent. auto. }
  cbv zeta. split.
  - destruct (quizadded_ask_tutor_run env question (initial fs)) as (r & evs & Hrun & Hout).
    rewrite Hrun. exact (Hgen _ _ _ _ Hout).
  - destruct (backend_ask_tutor_run env question (initial fs)) as (r & evs & Hrun & Hout).
    rewrite Hrun. exact (Hgen _ _ _ _ Hout).
Qed.

Lemma tutors_close_with_one_message_witness :
  QuizAdded.ask_tutor (Samples.console_rejecting "[/x]" None) "[/x]" (initial ∅)
  = (Raise MarkupError, initial ∅).
Proof.
  pose proof (tutors_close_with_one_message (Samples.console_rejecting "[/x]" None)
                "[/x]" ∅) as H.
  cbv zeta in H. destruct H as [(_ & _ & _ & Hbanner & _) _].
  apply Hbanner. reflexivity.
Defined.

(** X14. [start_quiz] leaves the files alone, queries the store with 0.4
    and 5 and asks the model at most once.  It raises only
    [MarkupError], when the console cannot render the banner, which is
    printed before the [try], or the error message of the [except]
    clause, and [KeyboardInterrupt], when the student presses Ctrl-C at
    a question.  When it returns, it has ended with exactly one closing
    message, after which nothing is called or asked: an error message,
    or the report card, whose percentage is the score divided by 5,
    times 100. *)
Theorem start_quiz_closes_with_one_message env topic fs :
  let run := QuizAdded.start_quiz env topic (initial fs) in
  files (snd run) = fs /\
  Forall (fun call => call = (0.4%Q, 5%nat)) (rpc_calls (trace (snd run))) /\
  (length (prompts_sent (trace (snd run))) <= 1)%nat /\
  (fst run = Ok tt \/ fst run = Raise MarkupError \/ fst run = Raise KeyboardInterrupt) /\
  (console_renders env (QuizAdded.banner topic) = false ->
   run = (Raise MarkupError, initial fs)) /\
  (fst run = Raise KeyboardInterrupt ->
   exists j, prompt_ask env j = Raise KeyboardInterrupt) /\
  (fst run = Ok tt ->
   exists m, messages (trace (snd run)) = [m] /\ last (trace (snd run)) = Some m /\
             ((exists e, m = EvFailed e) \/
              (exists score, m = EvReport score (QuizAdded.percentage score)))).
Proof.
  cbv zeta.
  destruct (start_quiz_run env topic (initial fs)) as (r & evs & Hrun & Hout).
  rewrite Hrun. simpl.
  pose proof (quiz_outcome_messages _ _ _ _ Hout) as [_ Hr].
  destruct Hout as (Hrpc & Hsent & Hbanner & Hcases).
  split; [reflexivity|]. split; [exact Hrpc|]. split; [exact Hsent|].
  split; [destruct Hr as [-> | [-> | [-> _]]]; auto|].
  split; [intros H; destruct (Hbanner H) as [-> ->]; reflexivity|].
  split.
  { intros ->. destruct Hr as [H | [H | [_ Hj]]]; try discriminate. exact Hj. }
  intros ->. destruct Hcases as [(_ & pre & m & -> & Hmsg & Hm) | [(H & _) | (H & _)]];
    try discriminate.
  exists m. rewrite messages_app, Hmsg, last_snoc.
  destruct Hm as [(e & ->) | (s & ->)]; simpl; eauto 6.
Qed.

Lemma start_quiz_closes_with_one_message_witness :
  fst (QuizAdded.start_quiz (Samples.interrupting (Some (Some Demo.one_question)))
         "ohm" (initial ∅))
  = Raise KeyboardInterrupt.
Proof.
  pose proof (start_quiz_closes_with_one_message
                (Samples.interrupting (Some (Some Demo.one_question))) "ohm" ∅) as H.
  cbv zeta in H. destruct H as (_ & _ & _ & Hr & _ & _ & Hok).
  destruct Hr as [Hr | [Hr | Hr]]; [exfalso | exfalso | exact Hr].
  - vm_compute in Hr. discriminate.
  - vm_compute in Hr. discriminate.
Defined.

(** X15. [grade_submission] of [vision_grader.py] never deletes a file
    and never closes the image.  It queries the store with 0.4 and 3,
    and either opens nothing and calls no vision model, or opens the
    cleaned path once, which then is an existing, readable file, sends
    one vision prompt and leaves the handle open.  It raises only
    [MarkupError], when the console cannot render the topic, which is
    printed before every [try], or one of its error messages; when the
    topic is not rendered nothing else happens. *)
Theorem grade_submission_never_deletes_or_closes env topic image_path w :
  let run := VisionGrader.grade_submission env topic image_path w in
  let path := VisionGrader.clean_path image_path in
  (fst run = Ok tt \/ fst run = Raise MarkupError) /\ files (snd run) = files w /\
  exists evs,
    trace (snd run) = trace w ++ evs /\
    removed_paths evs = [] /\
    Forall (fun call => call = (0.4%Q, 3%nat)) (rpc_calls evs) /\
    (console_renders env (VisionGrader.searching topic) = false ->
     fst run = Raise MarkupError /\ evs = []) /\
    ((lifecycle evs = [] /\ img (snd run) = img w /\ vision_prompts evs = []) \/
     (lifecycle evs = [EvOpen path] /\ img (snd run) = Bound true /\
      length (vision_prompts evs) = 1%nat /\
      path ∈ files w /\ image_readable env path = true)).
Proof.
  cbv zeta.
  unfold VisionGrader.grade_submission. rewrite banner_run.
  destruct (console_renders env (VisionGrader.searching topic)) eqn:Hbanner.
  2: { split; [auto|]. split; [reflexivity|]. exists []. rewrite app_nil_r.
       split; [reflexivity|]. split; [reflexivity|]. split; [constructor|].
       split; [auto|]. left. auto. }
  unfold VisionGrader.retrieve, Console.print, Gen.vision, Gen.text,
    Store.embed, Store.rpc, Pil.open, try_except, bind, external, emit, lift, ret,
    raise, extend; simpl.
  assert (Hno : forall P : Prop, (true = false -> P)) by discriminate.
  destruct (embed_query env topic) as [v|]; simpl.
  2: { match goal with |- context [console_renders env ?t] =>
         destruct (console_renders env t) end; simpl.
       all: split; [auto|]; split; [reflexivity|]; eexists; rewrite <- ?app_assoc;
         (split; [reflexivity|]); simpl; (split; [reflexivity|]);
         (split; [repeat constructor|]); (split; [apply Hno|]); left; auto. }
  destruct (match_documents env v _ _) as [m|]; simpl.
  2: { match goal with |- context [console_renders env ?t] =>
         destruct (console_renders env t) end; simpl.
       all: split; [auto|]; split; [reflexivity|]; eexists; rewrite <- ?app_assoc;
         (split; [reflexivity|]); simpl; (split; [reflexivity|]);
         (split; [repeat constructor|]); (split; [apply Hno|]); left; auto. }
  destruct (Py.truthy m); simpl.
  2: { split; [auto|]; split; [reflexivity|]; eexists; rewrite <- ?app_assoc;
         (split; [reflexivity|]); simpl; (split; [reflexivity|]);
         (split; [repeat constructor|]); (split; [apply Hno|]); left; auto. }
  destruct (Store.join_contents m) as [ctx|e] eqn:Hj;
    [|rewrite (join_contents_exception _ _ Hj)]; simpl.
  2: { match goal with |- context [console_renders env ?t] =>
         destruct (console_renders env t) end; simpl.
       all: split; [auto|]; split; [reflexivity|]; eexists; rewrite <- ?app_assoc;
         (split; [reflexivity|]); simpl; (split; [reflexivity|]);
         (split; [repeat constructor|]); (split; [apply Hno|]); left; auto. }
  destruct (bool_decide (VisionGrader.clean_path image_path ∈ files w)) eqn:Hin; simpl.
  2: { match goal with |- context [console_renders env ?t] =>
         destruct (console_renders env t) end; simpl.
       all: split; [auto|]; split; [reflexivity|]; eexists; rewrite <- ?app_assoc;
         (split; [reflexivity|]); simpl; (split; [reflexivity|]);
         (split; [repeat constructor|]); (split; [apply Hno|]); left; auto. }
  apply bool_decide_eq_true in Hin.
  destruct (image_readable env _) eqn:Hread; simpl.
  2: { match goal with |- context [console_renders env ?t] =>
         destruct (console_renders env t) end; simpl.
       all: split; [auto|]; split; [reflexivity|]; eexists; rewrite <- ?app_assoc;
         (split; [reflexivity|]); simpl; (split; [reflexivity|]);
         (split; [repeat constructor|]); (split; [apply Hno|]); left; auto. }
  destruct (vision_generate_content env _ _) as [[text|]|]; simpl;
    try (match goal with |- context [console_renders env ?t] =>
         destruct (console_renders env t) end; simpl).
  all: split; [auto|]; split; [reflexivity|]; eexists; rewrite <- ?app_assoc;
    (split; [reflexivity|]); simpl; (split; [reflexivity|]);
    (split; [repeat constructor|]); (split; [apply Hno|]); right; auto.
Qed.

Lemma grade_submission_never_deletes_or_closes_witness :
  fst (VisionGrader.grade_submission (Samples.console_rejecting "[/x]" None)
         "[/x]" "a.png" (initial ∅))
  = Raise MarkupError.
Proof.
  pose proof (grade_submission_never_deletes_or_closes
                (Samples.console_rejecting "[/x]" None) "[/x]" "a.png" (initial ∅)) as H.
  cbv zeta in H. destruct H as (_ & _ & evs & _ & _ & _ & Hbanner & _).
  apply Hbanner. reflexivity.
Defined.

(** ** Replies in a fenced block, and brackets in the wrong order *)

Lemma replace_passes_plain_text (c : ascii) (p new body tail : string) :
  Spec.occurs c body = false ->
  PyStr.replace_from (String c p) new 0 (body +:+ tail)
  = body +:+ PyStr.replace_from (String c p) new 0 tail.
Proof.
  induction body as [|a body IH]; intros H; [reflexivity|].
  simpl in H. apply orb_false_iff in H as [Ha Hb].
  simpl. rewrite Ascii.eqb_sym, Ha. simpl. rewrite (IH Hb). reflexivity.
Qed.

Lemma rstrip_blank t : all_space t = true -> PyStr.rstrip t = EmptyString.
Proof.
  induction t as [|a t IH]; simpl; [reflexivity|].
  intros H. apply andb_prop in H as [Ha Ht]. rewrite (IH Ht), Ha. reflexivity.
Qed.

Lemma rstrip_app_blank s t :
  all_space t = true -> PyStr.rstrip (s +:+ t) = PyStr.rstrip s.
Proof.
  intros Ht. induction s as [|a s IH]; simpl; [apply rstrip_blank, Ht|].
  rewrite IH. reflexivity.
Qed.

Lemma lstrip_blank s : all_space s = true -> PyStr.lstrip s = EmptyString.
Proof.
  induction s as [|a s IH]; simpl; [reflexivity|].
  intros H. apply andb_prop in H as [Ha Hs]. rewrite Ha. exact (IH Hs).
Qed.

Lemma lstrip_app s t :
  PyStr.lstrip (s +:+ t) = if all_space s then PyStr.lstrip t else PyStr.lstrip s +:+ t.
Proof.
  induction s as [|a s IH]; simpl; [reflexivity|].
  destruct (PyStr.isspace a); simpl; [exact IH | reflexivity].
Qed.

Lemma strip_between_newlines body :
  PyStr.strip (PyStr.nl +:+ body +:+ PyStr.nl) = PyStr.strip body.
Proof.
  unfold PyStr.strip. rewrite lstrip_app.
  change (all_space PyStr.nl) with true. cbv iota.
  rewrite lstrip_app. destruct (all_space body) eqn:Hb.
  - rewrite (lstrip_blank body Hb). reflexivity.
  - apply rstrip_app_blank. reflexivity.
Qed.

Lemma occurs_app c a b : Spec.occurs c (a +:+ b) = Spec.occurs c a || Spec.occurs c b.
Proof. induction a as [|x a IH]; simpl; [|rewrite IH, orb_assoc]; reflexivity. Qed.

Lemma append_empty_l (x : string) : EmptyString +:+ x = x.
Proof. reflexivity. Qed.

Lemma strip_fences_fenced body :
  Spec.occurs "`" body = false ->
  strip_fences (PyStr.lines ["```json"%string; body; "```"%string]) = PyStr.strip body /\
  strip_fences (PyStr.lines ["```"%string; body; "```"%string]) = PyStr.strip body.
Proof.
  intros H. unfold strip_fences, PyStr.replace, PyStr.lines.
  split; simpl; rewrite !append_empty_l;
    rewrite (replace_passes_plain_text "`" "``json" EmptyString body _ H); simpl;
    rewrite (replace_passes_plain_text "`" "``" EmptyString body _ H); simpl;
    apply (strip_between_newlines body).
Qed.

Lemma slice_reversed s lo hi :
  0 <= hi -> hi <= lo -> PyStr.slice s lo hi = EmptyString.
Proof.
  intros Hlo Hhi. unfold PyStr.slice, PyStr.clamp.
  destruct (Z.ltb_spec lo 0); [lia|].
  destruct (Z.ltb_spec hi 0); [lia|].
  set (len := Z.of_nat (String.length s)).
  replace (Z.to_nat (_ - _)) with 0%nat by lia. reflexivity.
Qed.

Lemma rfind_lower_bound c s : -1 <= PyStr.rfind c s.
Proof.
  pose proof (rfind_occurs c s) as H. destruct (Spec.occurs c s); lia.
Qed.

(** X16. The fence stripping of the extractors unwraps a reply that is
    one fenced block, tagged json or not: what is parsed is the
    body with surrounding whitespace removed, for a body without
    backticks.  [grade_image] parses exactly that when the body lacks
    a brace, and so does [start_quiz] when its bracket slice does not
    parse. *)
Theorem fenced_reply_is_unwrapped body :
  Spec.occurs "`" body = false ->
  let raw := PyStr.lines ["```json"%string; body; "```"%string] in
  strip_fences raw = PyStr.strip body /\
  strip_fences (PyStr.lines ["```"%string; body; "```"%string]) = PyStr.strip body /\
  (Spec.occurs "{" body = false \/ Spec.occurs "}" body = false ->
   grade_extract raw = json_loads (PyStr.strip body)) /\
  (QuizAdded.extract_slice raw = Raise JSONDecodeError ->
   QuizAdded.extract raw = json_loads (PyStr.strip body)).
Proof.
  intros H raw. destruct (strip_fences_fenced body H) as [Hjson Hplain].
  split; [exact Hjson|]. split; [exact Hplain|]. split.
  - intros Hbrace. unfold grade_extract, App.grade_clean_json.
    rewrite start_index_absent, end_index_absent.
    assert (Hopen : Spec.occurs "{" raw = Spec.occurs "{" body).
    { unfold raw, PyStr.lines. simpl. rewrite !append_empty_l, !occurs_app. simpl.
      rewrite ?orb_false_r. reflexivity. }
    assert (Hclose : Spec.occurs "}" raw = Spec.occurs "}" body).
    { unfold raw, PyStr.lines. simpl. rewrite !append_empty_l, !occurs_app. simpl.
      rewrite ?orb_false_r. reflexivity. }
    rewrite Hopen, Hclose.
    fold raw in Hjson. rewrite <- Hjson.
    destruct Hbrace as [-> | ->]; simpl; rewrite ?andb_false_r; reflexivity.
  - intros Hslice. unfold QuizAdded.extract. rewrite Hslice. fold raw in Hjson. rewrite Hjson. reflexivity.
Qed.

Lemma fenced_reply_is_unwrapped_witness :
  Spec.occurs "`" "[1, 2]" = false /\
  grade_extract (PyStr.lines ["```json"; "[1, 2]"; "```"]%string)
  = Ok (JArr [JNum "1"; JNum "2"]).
Proof.
  split; [reflexivity|].
  pose proof (fenced_reply_is_unwrapped "[1, 2]" eq_refl) as H.
  cbv zeta in H. destruct H as (_ & _ & Hgrade & _).
  rewrite Hgrade; [vm_compute; reflexivity | left; reflexivity].
Defined.

(** X17. When the last closing bracket comes before the first opening
    one, or is missing, the slice is empty: [generate_quiz] and
    [grade_image] then fail with a decoding error and never look at
    the text itself, while [start_quiz] falls back to the
    fence-stripped text. *)
Theorem reversed_brackets_are_not_parsed raw :
  (Spec.occurs "[" raw = true -> PyStr.rfind "]" raw < PyStr.find "[" raw ->
   quiz_extract raw = Raise JSONDecodeError /\
   (Spec.occurs "]" raw = true -> QuizAdded.extract raw = json_loads (strip_fences raw))) /\
  (Spec.occurs "{" raw = true -> Spec.occurs "}" raw = true ->
   PyStr.rfind "}" raw < PyStr.find "{" raw ->
   grade_extract raw = Raise JSONDecodeError).
Proof.
  split.
  - intros Hopen Hrev.
    pose proof (find_occurs "[" raw) as Hfind. rewrite Hopen in Hfind.
    assert (Hslice : PyStr.slice raw (PyStr.find "[" raw) (PyStr.rfind "]" raw + 1)
                     = EmptyString) by (apply slice_reversed; [pose proof (rfind_lower_bound "]" raw)|]; lia).
    split.
    + unfold quiz_extract, App.quiz_clean_json.
      rewrite start_index_absent, Hopen, Hslice. reflexivity.
    + intros Hclose. unfold QuizAdded.extract, QuizAdded.extract_slice.
      rewrite start_index_absent, end_index_absent, Hopen, Hclose, Hslice. reflexivity.
  - intros Hopen Hclose Hrev.
    pose proof (find_occurs "{" raw) as Hfind. rewrite Hopen in Hfind.
    unfold grade_extract, App.grade_clean_json.
    rewrite start_index_absent, end_index_absent, Hopen, Hclose.
    rewrite slice_reversed; [reflexivity | pose proof (rfind_lower_bound "}" raw); lia | lia].
Qed.

Lemma reversed_brackets_are_not_parsed_witness :
  quiz_extract "] oops [" = Raise JSONDecodeError.
Proof.
  destruct (reversed_brackets_are_not_parsed "] oops [") as [H _].
  destruct H as [Hq _]; [reflexivity | vm_compute; reflexivity | exact Hq].
Defined.
